(** * PterodactylMCP: the fuzzy search and ranking engine of [ai_tools.py]

    A shallow embedding of [src/pterodactyl_mcp/ai_tools.py]: the text
    normalizer, the similarity scorer, the tolerant envelope extraction, the
    paginator and the ranker, followed by the properties that the
    specification states about them.

    Modelling conventions.
    - A Python [str] is a [string]; a character stands for the code point of
      the same number, so the model covers the code points below 256.
    - A Python [float] score is a rational ([Q]); the arithmetic is exact.
    - A Python [int] is a [Z].
    - JSON values are the inductive [json]; a [dict] is an association list
      in insertion order, looked up by its first matching key.
    - An exception is a value of [exn] carried by [result]. *)

From Stdlib Require Import ZArith QArith Qround Ascii String List Bool Lia Lqa DecimalString.
From Stdlib Require Import Sorting.Sorted Sorting.Permutation.
From stdpp Require Import base strings gmap.
Import ListNotations.

Local Open Scope string_scope.
Local Open Scope list_scope.
Local Open Scope Z_scope.

(** * The program *)

(** ** Python string primitives *)

Module PyStr.

Definition code (c : ascii) : N := N_of_ascii c.

(** [str.lower] on one code point below 256: the ASCII capitals and the
    Latin-1 capitals (U+00C0 to U+00DE without the multiplication sign). *)
Definition lower_char (c : ascii) : ascii :=
  let n := code c in
  if ((65 <=? n) && (n <=? 90) ||
      (192 <=? n) && (n <=? 222) && negb (n =? 215))%N
  then ascii_of_N (n + 32) else c.

Fixpoint lower (s : string) : string :=
  match s with
  | EmptyString => EmptyString
  | String c s' => String (lower_char c) (lower s')
  end.

(** The character class [[a-z0-9]] of [_NON_ALNUM_RE]. *)
Definition is_alnum (c : ascii) : bool :=
  let n := code c in
  ((97 <=? n) && (n <=? 122) || (48 <=? n) && (n <=? 57))%N.

(** [str.isspace] on one code point below 256. *)
Definition is_space (c : ascii) : bool :=
  let n := code c in
  ((9 <=? n) && (n <=? 13) || (28 <=? n) && (n <=? 32) ||
   (n =? 133) || (n =? 160))%N.

(** One character of [str.isdigit]: the decimal digits and the
    superscript digits U+00B2, U+00B3 and U+00B9. *)
Definition is_digit_char (c : ascii) : bool :=
  let n := code c in
  ((48 <=? n) && (n <=? 57) || (n =? 178) || (n =? 179) || (n =? 185))%N.

(** One character accepted by [int()] as a decimal digit. *)
Definition is_decimal_char (c : ascii) : bool :=
  let n := code c in ((48 <=? n) && (n <=? 57))%N.

Definition is_empty (s : string) : bool :=
  match s with EmptyString => true | _ => false end.

Fixpoint all_chars (p : ascii -> bool) (s : string) : bool :=
  match s with
  | EmptyString => true
  | String c s' => p c && all_chars p s'
  end.

(** [str.isdigit]: non-empty and every character a digit. *)
Definition isdigit (s : string) : bool :=
  negb (is_empty s) && all_chars is_digit_char s.

(** [re.sub] of the pattern [[^a-z0-9]+]: every maximal run of characters
    outside the class is replaced by [rep]. [in_run] says that the
    previous character already belonged to the current run. *)
Fixpoint sub_non_alnum (rep : string) (in_run : bool) (s : string) : string :=
  match s with
  | EmptyString => EmptyString
  | String c s' =>
      if is_alnum c then String c (sub_non_alnum rep false s')
      else if in_run then sub_non_alnum rep true s'
      else rep +:+ sub_non_alnum rep true s'
  end.

Fixpoint lstrip (s : string) : string :=
  match s with
  | EmptyString => EmptyString
  | String c s' => if is_space c then lstrip s' else s
  end.

Fixpoint rstrip (s : string) : string :=
  match s with
  | EmptyString => EmptyString
  | String c s' =>
      let r := rstrip s' in
      if is_space c && is_empty r then EmptyString else String c r
  end.

(** [str.strip()] without argument. *)
Definition strip (s : string) : string := rstrip (lstrip s).

(** [str.split()] without argument: the maximal runs of non-space
    characters. [tok] is the token being read. *)
Fixpoint split_from (tok : string) (s : string) : list string :=
  match s with
  | EmptyString => if is_empty tok then [] else [tok]
  | String c s' =>
      if is_space c
      then (if is_empty tok then split_from "" s' else tok :: split_from "" s')
      else split_from (tok +:+ String c "") s'
  end.

Definition split (s : string) : list string := split_from "" s.

(** [s.startswith(p)]. *)
Definition startswith (s p : string) : bool := String.prefix p s.

(** [sub in s]. *)
Fixpoint contains (sub s : string) : bool :=
  String.prefix sub s ||
  match s with
  | EmptyString => false
  | String _ s' => contains sub s'
  end.

(** [sep.join(parts)]. *)
Fixpoint join (sep : string) (parts : list string) : string :=
  match parts with
  | [] => ""
  | [p] => p
  | p :: rest => p +:+ sep +:+ join sep rest
  end.

(** Some character of [s] is in the class [[a-z0-9]]. *)
Fixpoint has_alnum (s : string) : bool :=
  match s with
  | EmptyString => false
  | String c s' => is_alnum c || has_alnum s'
  end.

(** [s[:n]]: a negative [n] counts from the end. *)
Definition slice_to (s : string) (n : Z) : string :=
  if n <? 0 then String.substring 0 (Z.to_nat (Z.of_nat (String.length s) + n)) s
  else String.substring 0 (Z.to_nat n) s.

(** The length of the leading run of decimal digits of [s]. *)
Fixpoint decimal_run (s : string) : nat :=
  match s with
  | EmptyString => O
  | String c s' => if is_decimal_char c then S (decimal_run s') else O
  end.

(** The value of a string of decimal digits, most significant first. *)
Fixpoint decimal_value (acc : Z) (s : string) : Z :=
  match s with
  | EmptyString => acc
  | String c s' => decimal_value (10 * acc + (Z.of_N (code c) - 48)) s'
  end.

End PyStr.

(** ** Normalizer *)

(** [_NON_ALNUM_RE.sub(repl, text)]. *)
Definition _NON_ALNUM_RE_sub (repl text : string) : string :=
  PyStr.sub_non_alnum repl false text.

(** [_normalize]: lower-case, collapse runs outside [[a-z0-9]] to one space,
    trim. *)
Definition _normalize (text : string) : string :=
  PyStr.strip (_NON_ALNUM_RE_sub " " (PyStr.lower text)).

(** [_compact]: lower-case and delete every character outside [[a-z0-9]]. *)
Definition _compact (text : string) : string :=
  _NON_ALNUM_RE_sub "" (PyStr.lower text).

(** ** Similarity scorer *)

Definition Qltb (a b : Q) : bool := negb (Qle_bool b a).

Definition Qmax (a b : Q) : Q := if Qle_bool a b then b else a.

(** [any(ct.startswith(qt) or qt in ct for ct in c_tokens)]. *)
Definition token_hit (c_tokens : list string) (qt : string) : bool :=
  existsb (fun ct => PyStr.startswith ct qt || PyStr.contains qt ct) c_tokens.

(** [_token_match_score]. *)
Definition _token_match_score (query candidate : string) : Q :=
  let q_tokens := PyStr.split (_normalize query) in
  let c_tokens := PyStr.split (_normalize candidate) in
  match q_tokens, c_tokens with
  | [], _ | _, [] => 0%Q
  | _, _ =>
      let hits := List.length (List.filter (token_hit c_tokens) q_tokens) in
      (inject_Z (Z.of_nat hits) / inject_Z (Z.of_nat (List.length q_tokens)) * 100)%Q
  end.

Section Scorer.

(** [SequenceMatcher(None, a, b).ratio()] of the standard library's
    [difflib], which is not part of the repository. *)
Variable ratio : string -> string -> Q.

(** The prefix and substring bonus on the compact forms. *)
Definition bonus_of (q_comp c_comp : string) : Q :=
  if negb (PyStr.is_empty q_comp) && negb (PyStr.is_empty c_comp) then
    if PyStr.startswith c_comp q_comp then 12%Q
    else if PyStr.contains q_comp c_comp then 8%Q
    else if PyStr.startswith q_comp c_comp then 6%Q
    else 0%Q
  else 0%Q.

(** [_string_similarity_score]. *)
Definition _string_similarity_score (query candidate : string) : Q :=
  let q_norm := _normalize query in
  let c_norm := _normalize candidate in
  if PyStr.is_empty q_norm || PyStr.is_empty c_norm then 0%Q
  else
    let q_comp := _compact query in
    let c_comp := _compact candidate in
    if String.eqb q_norm c_norm ||
       (negb (PyStr.is_empty q_comp) && String.eqb q_comp c_comp)
    then 100%Q
    else
      let ratio_norm := ratio q_norm c_norm in
      let ratio_comp :=
        if negb (PyStr.is_empty q_comp) && negb (PyStr.is_empty c_comp)
        then ratio q_comp c_comp else 0%Q in
      let ratio100 := (Qmax ratio_norm ratio_comp * 100)%Q in
      let token_score := _token_match_score query candidate in
      let bonus := bonus_of q_comp c_comp in
      let score := ((55 # 100) * ratio100 + (45 # 100) * token_score + bonus)%Q in
      if Qltb score 0 then 0%Q
      else if Qltb 100 score then 100%Q
      else score.

End Scorer.

(** ** JSON values and the Python operations on them *)

Local Unset Elimination Schemes.
Inductive json : Type :=
| JNull
| JBool (b : bool)
| JInt (n : Z)
| JFloat (x : Q)
| JStr (s : string)
| JList (l : list json)
| JDict (d : list (string * json)).
Local Set Elimination Schemes.

Inductive exn : Type :=
| ValueError (msg : string)
| AttributeError
| TypeError
| RuntimeError (msg : string).

Inductive result (A : Type) : Type :=
| Ok (a : A)
| Raise (e : exn).

Arguments Ok {A} a.
Arguments Raise {A} e.

#[global] Instance result_ret : MRet result := fun A a => Ok a.

#[global] Instance result_bind : MBind result :=
  fun A B k r =>
    match r with
    | Ok a => k a
    | Raise e => Raise e
    end.

Module Py.

Definition isinstance_dict (v : json) : bool :=
  match v with JDict _ => true | _ => false end.

Definition isinstance_list (v : json) : bool :=
  match v with JList _ => true | _ => false end.

Definition isinstance_str (v : json) : bool :=
  match v with JStr _ => true | _ => false end.

(** [bool] is a subclass of [int]. *)
Definition isinstance_int (v : json) : bool :=
  match v with JInt _ | JBool _ => true | _ => false end.

Definition isinstance_float (v : json) : bool :=
  match v with JFloat _ => true | _ => false end.

Definition is_none (v : json) : bool :=
  match v with JNull => true | _ => false end.

Fixpoint lookup (d : list (string * json)) (k : string) : option json :=
  match d with
  | [] => None
  | (k', v) :: d' => if String.eqb k' k then Some v else lookup d' k
  end.

(** [v.get(k)]: [None] for a missing key; only a [dict] has the method. *)
Definition get (v : json) (k : string) : result json :=
  match v with
  | JDict d => Ok (match lookup d k with Some x => x | None => JNull end)
  | _ => Raise AttributeError
  end.

(** The elements visited by [for item in v]. *)
Definition iter (v : json) : result (list json) :=
  match v with
  | JList l => Ok l
  | JDict d => Ok (map (fun kv => JStr (fst kv)) d)
  | JStr s => Ok (map (fun c => JStr (String c "")) (list_ascii_of_string s))
  | _ => Raise TypeError
  end.

(** Truth value of [v] in a condition. *)
Definition truthy (v : json) : bool :=
  match v with
  | JNull => false
  | JBool b => b
  | JInt n => negb (Z.eqb n 0)
  | JFloat x => negb (Qeq_bool x 0)
  | JStr s => negb (PyStr.is_empty s)
  | JList l => match l with [] => false | _ => true end
  | JDict d => match d with [] => false | _ => true end
  end.

(** [a or b]. *)
Definition or_else (a b : json) : json := if truthy a then a else b.

(** The integer that an [int] or [bool] value compares as. *)
Definition int_value (v : json) : Z :=
  match v with
  | JInt n => n
  | JBool true => 1
  | _ => 0
  end.

(** [d[k] = v] on the association list: replace in place, else append. *)
Fixpoint set_item (d : list (string * json)) (k : string) (v : json)
  : list (string * json) :=
  match d with
  | [] => [(k, v)]
  | (k', v') :: d' =>
      if String.eqb k' k then (k, v) :: d' else (k', v') :: set_item d' k v
  end.

(** [d.update(other)]. *)
Definition update (d other : list (string * json)) : list (string * json) :=
  fold_left (fun acc kv => set_item acc (fst kv) (snd kv)) other d.

(** [str(n)] for an [int]. *)
Definition str_of_int (n : Z) : string :=
  DecimalString.NilZero.string_of_int (Z.to_int n).

(** [round(x, 1)]: to the nearest tenth, a tie to the even tenth. *)
Definition round1 (x : Q) : Q :=
  let t := (x * 10)%Q in
  let f := Qfloor t in
  let twice_rest := (2 * (t - inject_Z f))%Q in
  let up :=
    if Qltb twice_rest 1 then false
    else if Qltb 1 twice_rest then true
    else Z.odd f in
  (inject_Z (if up then f + 1 else f) / 10)%Q.

End Py.

(** ** Tolerant envelope extraction *)

(** The loop of [_extract_list_items] over the elements of [data]. *)
Fixpoint collect_items (data : list json) : result (list json) :=
  match data with
  | [] => Ok []
  | item :: rest =>
      if Py.isinstance_dict item then
        attrs ← Py.get item "attributes";
        items ← collect_items rest;
        Ok ((if Py.isinstance_dict attrs then attrs else item) :: items)
      else collect_items rest
  end.

(** [_extract_list_items]. *)
Definition _extract_list_items (payload : json) : result (list json) :=
  if negb (Py.isinstance_dict payload) then Ok []
  else
    data ← Py.get payload "data";
    if Py.isinstance_list data then
      elems ← Py.iter data;
      collect_items elems
    else Ok [].

(** [_extract_pagination]. *)
Definition _extract_pagination (payload : json) : result json :=
  if negb (Py.isinstance_dict payload) then Ok (JDict [])
  else
    meta ← Py.get payload "meta";
    if negb (Py.isinstance_dict meta) then Ok (JDict [])
    else
      pagination ← Py.get meta "pagination";
      if negb (Py.isinstance_dict pagination) then Ok (JDict [])
      else Ok pagination.

(** ** Requests to the panel *)

(** One call [client.request(method, path, query=query)]. *)
Record request : Type := {
  req_method : string;
  req_path : string;
  req_query : list (string * json)
}.

(** The query of the page request of [_iter_paginated]. *)
Definition page_query (page per_page : Z) (base_query : option (list (string * json)))
  : list (string * json) :=
  let query := [("page", JInt page); ("per_page", JInt per_page)] in
  match base_query with
  | Some (b :: bs) => Py.update query (b :: bs)
  | _ => query
  end.

Definition page_request (path : string) (per_page : Z)
    (base_query : option (list (string * json))) (page : Z) : request :=
  {| req_method := "GET"; req_path := path;
     req_query := page_query page per_page base_query |}.

(** [range(lo, hi)]. *)
Definition py_range (lo hi : Z) : list Z :=
  map (fun i => lo + Z.of_nat i) (seq 0 (Z.to_nat (hi - lo))).

(** ** Control flow of a [for] statement over a generator

    [_iter_paginated] is a generator and its only consumer is one [for]
    statement. The statement's body is passed to the generator as [body];
    it answers [Break] for the statement's [break], which closes the
    generator, and [Continue] when the generator is resumed. *)

Inductive ctl (S : Type) : Type :=
| Continue (s : S)
| Break (s : S).

Arguments Continue {S} s.
Arguments Break {S} s.

(** What a run over some pages leaves: [Running], the generator goes on to
    the next page number; [Finished], it returned or was closed. *)
Inductive flow (S : Type) : Type :=
| Running (s : S)
| Finished (s : S).

Arguments Running {S} s.
Arguments Finished {S} s.

Definition flow_state {S : Type} (f : flow S) : S :=
  match f with Running s | Finished s => s end.

(** [for item in items: yield page, item]. *)
Fixpoint for_items {S : Type} (body : Z -> json -> S -> result (ctl S))
    (page : Z) (items : list json) (st : S) : result (ctl S) :=
  match items with
  | [] => Ok (Continue st)
  | item :: rest =>
      c ← body page item st;
      match c with
      | Break st' => Ok (Break st')
      | Continue st' => for_items body page rest st'
      end
  end.

(** The two stopping rules that follow the items of a page. *)
Definition stops_after (payload : json) (page : Z) (items : list json)
  : result bool :=
  pagination ← _extract_pagination payload;
  total_pages ← Py.get pagination "total_pages";
  Ok (Py.isinstance_int total_pages && (Py.int_value total_pages <=? page)
      || negb (Py.truthy (JList items))).

(** ** [list.sort(key=..., reverse=True)]

    The sort of Python is stable, also with [reverse=True]: elements with
    equal keys keep their order. A stable sort has one possible result, which
    the insertion sort below computes. *)

Section StableSort.

Context {A : Type} (key : A -> Q).

(** Insert [x], which precedes every element of [l] in the input, before
    the first element whose key is not strictly greater. *)
Fixpoint insert_desc (x : A) (l : list A) : list A :=
  match l with
  | [] => [x]
  | y :: l' => if Qltb (key x) (key y) then y :: insert_desc x l' else x :: l
  end.

Fixpoint sort_desc (l : list A) : list A :=
  match l with
  | [] => []
  | x :: l' => insert_desc x (sort_desc l')
  end.

(** [x] may stand before [y] in a list in descending order of the keys. *)
Definition desc (x y : A) : Prop := (key y <= key x)%Q.

End StableSort.

(** ** The engine, over its collaborators *)

Section Engine.

(** [SequenceMatcher(None, a, b).ratio()] of [difflib]. *)
Variable ratio : string -> string -> Q.

(** [str(v)] for a [float], a [list] or a [dict]: the interpreter's
    [repr], outside the repository. *)
Variable py_repr : json -> string.

(** The one-character string U+2026 that [_truncate] appends; its code
    point lies outside the modelled range. *)
Variable ellipsis : string.

(** [client.request]: the answer of the panel to one request, a payload
    or the [RuntimeError] of the transport. One call of the engine sends
    each request at most once, so the answers of a call form a function. *)
Variable client_request : request -> result json.

(** [str(v)]. *)
Definition py_str (v : json) : string :=
  match v with
  | JNull => "None"
  | JBool true => "True"
  | JBool false => "False"
  | JInt n => Py.str_of_int n
  | JStr s => s
  | _ => py_repr v
  end.

(** [sys.get_int_max_str_digits()]: the default limit of the interpreter on
    the digits of a string that [int] converts. *)
Definition int_max_str_digits : Z := 4300.

(** [int(v)]. Of the strings it covers those made of decimal digits; any
    other string stands for an invalid literal. A string that starts with
    more decimal digits than the limit is refused before its value is
    computed. *)
Definition py_int (v : json) : result Z :=
  match v with
  | JInt n => Ok n
  | JBool b => Ok (if b then 1 else 0)
  | JFloat x => Ok (if Qle_bool 0 x then Qfloor x else Qceiling x)
  | JStr s =>
      if int_max_str_digits <? Z.of_nat (PyStr.decimal_run s)
      then Raise (ValueError
                    "Exceeds the limit (4300 digits) for integer string conversion")
      else if negb (PyStr.is_empty s) && PyStr.all_chars PyStr.is_decimal_char s
      then Ok (PyStr.decimal_value 0 s)
      else Raise (ValueError "invalid literal for int() with base 10")
  | _ => Raise TypeError
  end.

(** [_get_total], with the requests it sent. *)
Definition _get_total (path : string) : result Z * list request :=
  let rq := {| req_method := "GET"; req_path := path;
               req_query := [("page", JInt 1); ("per_page", JInt 1)] |} in
  (payload ← client_request rq;
   pagination ← _extract_pagination payload;
   total ← Py.get pagination "total";
   if (Py.isinstance_int total || Py.isinstance_float total
       || Py.isinstance_str total)
      && PyStr.isdigit (py_str total)
   then py_int total
   else Ok 0,
   [rq]).

(** [ptero_ai_panel_totals]: the entries are computed in the order of the
    dictionary display; an exception ends the call. *)
Fixpoint totals_of (paths : list (string * string)) (tr : list request)
  : result (list (string * Z)) * list request :=
  match paths with
  | [] => (Ok [], tr)
  | (name, path) :: rest =>
      match _get_total path with
      | (Raise e, tr1) => (Raise e, tr ++ tr1)
      | (Ok n, tr1) =>
          match totals_of rest (tr ++ tr1) with
          | (Raise e, tr2) => (Raise e, tr2)
          | (Ok entries, tr2) => (Ok ((name, n) :: entries), tr2)
          end
      end
  end.

Definition ptero_ai_panel_totals : result (list (string * Z)) * list request :=
  totals_of
    [("users", "/api/application/users");
     ("servers", "/api/application/servers");
     ("nodes", "/api/application/nodes");
     ("locations", "/api/application/locations");
     ("nests", "/api/application/nests")] [].

(** *** Paginator *)

Section Paginator.

Context {S : Type}.
Variable path : string.
Variable per_page : Z.
Variable base_query : option (list (string * json)).
Variable body : Z -> json -> S -> result (ctl S).

(** One iteration of [for page in range(1, max_pages + 1)]. *)
Definition scan_page (page : Z) (st : S) : result (flow S) :=
  payload ← client_request (page_request path per_page base_query page);
  items ← _extract_list_items payload;
  c ← for_items body page items st;
  match c with
  | Break st' => Ok (Finished st')
  | Continue st' =>
      stop ← stops_after payload page items;
      Ok (if stop : bool then Finished st' else Running st')
  end.

(** The iterations over [pages], with the requests sent. *)
Fixpoint scan_pages (pages : list Z) (st : S) (tr : list request)
  : result (flow S) * list request :=
  match pages with
  | [] => (Ok (Running st), tr)
  | page :: rest =>
      let tr' := tr ++ [page_request path per_page base_query page] in
      match scan_page page st with
      | Ok (Running st') => scan_pages rest st' tr'
      | r => (r, tr')
      end
  end.

End Paginator.

(** [_iter_paginated], driven by the body of its [for] statement from the
    state [st]; the result is the state at the end of the statement. *)
Definition _iter_paginated {S : Type} (path : string) (per_page max_pages : Z)
    (base_query : option (list (string * json)))
    (body : Z -> json -> S -> result (ctl S)) (st : S)
  : result S * list request :=
  let per_page := Z.max 1 (Z.min per_page 100) in
  let max_pages := Z.max 1 max_pages in
  match scan_pages path per_page base_query body
          (py_range 1 (max_pages + 1)) st [] with
  | (Ok f, tr) => (Ok (flow_state f), tr)
  | (Raise e, tr) => (Raise e, tr)
  end.

(** *** Summarizer *)

(** [_truncate]. *)
Definition _truncate (value : json) (max_len : Z) : json :=
  if Py.is_none value then JNull
  else
    let value := py_str value in
    if Z.of_nat (String.length value) <=? max_len then JStr value
    else JStr (PyStr.slice_to value (max_len - 1) +:+ ellipsis).

(** [v is not None and v != ""]. *)
Definition kept (v : json) : bool :=
  match v with
  | JNull => false
  | JStr s => negb (PyStr.is_empty s)
  | _ => true
  end.

(** [_strip_nones]. *)
Definition _strip_nones (d : list (string * json)) : list (string * json) :=
  List.filter (fun kv => kept (snd kv)) d.

Definition score_entry (score : option Q) : json :=
  match score with
  | Some s => JFloat (Py.round1 s)
  | None => JNull
  end.

Definition matched_on_entry (matched_on : option string) : json :=
  match matched_on with
  | Some m => JStr m
  | None => JNull
  end.

Definition non_empty (s : string) : bool := negb (PyStr.is_empty s).

(** [_compact_user]. *)
Definition _compact_user (attributes : json) (score : option Q)
    (matched_on : option string) : result json :=
  first ← Py.get attributes "first_name";
  last ← Py.get attributes "last_name";
  let full_name :=
    PyStr.join " "
      (List.filter non_empty
         [if Py.truthy first then PyStr.strip (py_str first) else "";
          if Py.truthy last then PyStr.strip (py_str last) else ""]) in
  id ← Py.get attributes "id";
  uuid ← Py.get attributes "uuid";
  external_id ← Py.get attributes "external_id";
  username ← Py.get attributes "username";
  email ← Py.get attributes "email";
  Ok (JDict (_strip_nones
    [("score", score_entry score);
     ("matched_on", matched_on_entry matched_on);
     ("id", id);
     ("uuid", uuid);
     ("external_id", external_id);
     ("username", username);
     ("email", email);
     ("name", Py.or_else (JStr full_name) JNull)])).

(** [_compact_server]. *)
Definition _compact_server (attributes : json) (score : option Q)
    (matched_on : option string) : result json :=
  id ← Py.get attributes "id";
  identifier ← Py.get attributes "identifier";
  uuid ← Py.get attributes "uuid";
  external_id ← Py.get attributes "external_id";
  name ← Py.get attributes "name";
  description ← Py.get attributes "description";
  suspended ← Py.get attributes "suspended";
  Ok (JDict (_strip_nones
    [("score", score_entry score);
     ("matched_on", matched_on_entry matched_on);
     ("id", id);
     ("identifier", identifier);
     ("uuid", uuid);
     ("external_id", external_id);
     ("name", name);
     ("description",
       if Py.isinstance_str description then _truncate description 120
       else JNull);
     ("suspended", suspended)])).

(** *** Ranker *)

(** The state of the scan of [_fuzzy_search]. *)
Record scan_state : Type := {
  candidates_scanned : Z;
  pages_scanned : gset Z;
  scored : list (Q * json * option string)
}.

Definition scan_start : scan_state :=
  {| candidates_scanned := 0; pages_scanned := ∅; scored := [] |}.

Definition str_unless_none (v : json) : json :=
  if Py.is_none v then JNull else JStr (py_str v).

(** The field candidates of an account, in priority order. *)
Definition user_fields (attrs : json) : result (list (string * json)) :=
  username ← Py.get attrs "username";
  email ← Py.get attrs "email";
  first ← Py.get attrs "first_name";
  last ← Py.get attrs "last_name";
  let full_name :=
    PyStr.strip
      (PyStr.join " "
         (List.filter non_empty
            [PyStr.strip (py_str (Py.or_else first (JStr "")));
             PyStr.strip (py_str (Py.or_else last (JStr "")))])) in
  external_id ← Py.get attrs "external_id";
  uuid ← Py.get attrs "uuid";
  user_id ← Py.get attrs "id";
  Ok [("username", username);
      ("email", email);
      ("name", Py.or_else (JStr full_name) JNull);
      ("external_id", str_unless_none external_id);
      ("uuid", uuid);
      ("id", str_unless_none user_id)].

(** The field candidates of a server, in priority order. *)
Definition server_fields (attrs : json) : result (list (string * json)) :=
  name ← Py.get attrs "name";
  identifier ← Py.get attrs "identifier";
  uuid ← Py.get attrs "uuid";
  external_id ← Py.get attrs "external_id";
  server_id ← Py.get attrs "id";
  description ← Py.get attrs "description";
  Ok [("name", name);
      ("identifier", identifier);
      ("uuid", uuid);
      ("external_id", str_unless_none external_id);
      ("id", str_unless_none server_id);
      ("description", description)].

(** One iteration of [for field_name, value in fields]. *)
Definition best_step (query : string) (best : Q * option string)
    (field : string * json) : Q * option string :=
  let '(field_name, value) := field in
  if negb (Py.truthy value) then best
  else
    let s := _string_similarity_score ratio query (py_str value) in
    if Qltb (fst best) s then (s, Some field_name) else best.

(** The loop over the fields: [(best_score, best_field)]. *)
Definition best_of (query : string) (fields : list (string * json))
  : Q * option string :=
  fold_left (best_step query) fields (0%Q, None).

(** The local function [consider]. *)
Definition consider (min_score : Q) (st : scan_state) (score : Q)
    (attrs : json) (matched_on : option string) : scan_state :=
  if Qltb score min_score then st
  else {| candidates_scanned := candidates_scanned st;
          pages_scanned := pages_scanned st;
          scored := scored st ++ [(score, attrs, matched_on)] |}.

(** The part of the loop body shared by the two kinds, after [fields]. *)
Definition score_record (query : string) (limit : Z) (min_score : Q)
    (attrs : json) (fields : list (string * json)) (st : scan_state)
  : ctl scan_state :=
  let '(best_score, best_field) := best_of query fields in
  let st' := consider min_score st best_score attrs best_field in
  if Qle_bool (995 # 10) best_score
     && (limit <=? Z.of_nat (length (scored st')))
  then Break st' else Continue st'.

(** The body of [for page, attrs in _iter_paginated(...)]. *)
Definition search_body (kind query : string) (limit : Z) (min_score : Q)
    (page : Z) (attrs : json) (st : scan_state) : result (ctl scan_state) :=
  let st1 := {| candidates_scanned := candidates_scanned st + 1;
                pages_scanned := pages_scanned st ∪ {[page]};
                scored := scored st |} in
  if String.eqb kind "user" then
    fields ← user_fields attrs;
    Ok (score_record query limit min_score attrs fields st1)
  else if String.eqb kind "server" then
    fields ← server_fields attrs;
    Ok (score_record query limit min_score attrs fields st1)
  else Ok (Continue st1).

(** The summaries of the matches kept, in order. *)
Fixpoint summarize (kind : string) (kept_matches : list (Q * json * option string))
  : result (list json) :=
  match kept_matches with
  | [] => Ok []
  | (score, attrs, matched_on) :: rest =>
      m ← (if String.eqb kind "user"
           then _compact_user attrs (Some score) matched_on
           else _compact_server attrs (Some score) matched_on);
      ms ← summarize kind rest;
      Ok (m :: ms)
  end.

(** [scored[:limit]] after the sort. *)
Definition top_matches (limit : Z) (st : scan_state)
  : list (Q * json * option string) :=
  firstn (Z.to_nat limit) (sort_desc (fun t => fst (fst t)) (scored st)).

(** The end of [_fuzzy_search]: sort, cut, summarize, statistics. *)
Definition finalize (kind query : string) (limit : Z) (st : scan_state)
  : result json :=
  matches ← summarize kind (top_matches limit st);
  Ok (JDict (_strip_nones
    [("query", JStr query);
     ("matches", JList matches);
     ("scanned",
       JDict [("items", JInt (candidates_scanned st));
              ("pages", JInt (Z.of_nat (size (pages_scanned st))))])])).

(** [_fuzzy_search], with the requests it sent. *)
Definition _fuzzy_search (path query : string) (limit max_pages per_page : Z)
    (min_score : Q) (kind : string) : result json * list request :=
  let query := PyStr.strip query in
  if PyStr.is_empty query
  then (Raise (ValueError "query must be a non-empty string"), [])
  else
    let limit := Z.max 1 (Z.min limit 50) in
    match _iter_paginated path per_page max_pages None
            (search_body kind query limit min_score) scan_start with
    | (Ok st, tr) => (finalize kind query limit st, tr)
    | (Raise e, tr) => (Raise e, tr)
    end.

(** [ptero_ai_search_users] and [ptero_ai_search_servers]. *)
Definition ptero_ai_search_users (query : string) (limit max_pages per_page : Z)
    (min_score : Q) : result json * list request :=
  _fuzzy_search "/api/application/users" query limit max_pages per_page
    min_score "user".

Definition ptero_ai_search_servers (query : string) (limit max_pages per_page : Z)
    (min_score : Q) : result json * list request :=
  _fuzzy_search "/api/application/servers" query limit max_pages per_page
    min_score "server".

End Engine.

(** The defaults of the search tools. *)
Definition default_limit : Z := 10.
Definition default_max_pages : Z := 5.
Definition default_per_page : Z := 100.
Definition default_min_score : Q := 55.

(** * Vocabulary of the statements *)

(** ** Envelopes *)

(** [v] is a mapping. *)
Definition is_dict (v : json) : Prop := Py.isinstance_dict v = true.

(** The member of a mapping under the key [k], as [dict.get] sees it;
    [None] also for a value that is not a mapping. *)
Definition member (payload : json) (k : string) : json :=
  match payload with
  | JDict d => match Py.lookup d k with Some x => x | None => JNull end
  | _ => JNull
  end.

(** The record that one element of [data] contributes: its [attributes]
    mapping, else the element itself when it is a mapping, else none. *)
Definition record_of_item (item : json) : list json :=
  match item with
  | JDict d =>
      match Py.lookup d "attributes" with
      | Some (JDict a) => [JDict a]
      | _ => [item]
      end
  | _ => []
  end.

(** The records of the page that a payload carries. *)
Definition page_items (payload : json) : list json :=
  match member payload "data" with
  | JList l => flat_map record_of_item l
  | _ => []
  end.

(** The pagination metadata of an envelope, when the envelope, its [meta]
    and its [meta.pagination] are mappings. *)
Definition declared_pagination (payload : json) : option json :=
  match member payload "meta" with
  | JDict m =>
      match member (JDict m) "pagination" with
      | JDict p => Some (JDict p)
      | _ => None
      end
  | _ => None
  end.

(** The payload declares an integer [total_pages] that [page] has reached. *)
Definition total_reached (payload : json) (page : Z) : bool :=
  match declared_pagination payload with
  | Some p =>
      Py.isinstance_int (member p "total_pages")
      && (Py.int_value (member p "total_pages") <=? page)
  | None => false
  end.

Definition is_nil {A : Type} (l : list A) : bool :=
  match l with [] => true | _ => false end.

(** ** Requests *)

(** The request of [_get_total] for [path]. *)
Definition total_request (path : string) : request :=
  {| req_method := "GET"; req_path := path;
     req_query := [("page", JInt 1); ("per_page", JInt 1)] |}.

(** The requests for the pages 1 to [n]. *)
Definition requests_upto (path : string) (per_page : Z)
    (base_query : option (list (string * json))) (n : Z) : list request :=
  map (page_request path per_page base_query) (py_range 1 (n + 1)).

(** [per_page] and [max_pages] as [_iter_paginated] clamps them, and
    [limit] as [_fuzzy_search] does. *)
Definition clamp_per_page (per_page : Z) : Z := Z.max 1 (Z.min per_page 100).
Definition clamp_max_pages (max_pages : Z) : Z := Z.max 1 max_pages.
Definition clamp_limit (limit : Z) : Z := Z.max 1 (Z.min limit 50).

(** The generator cannot go beyond [page]: the request fails, the declared
    total is reached or the page has no record. *)
Definition ends_at (client_request : request -> result json) (path : string)
    (per_page : Z) (base_query : option (list (string * json))) (page : Z) : bool :=
  match client_request (page_request path per_page base_query page) with
  | Raise _ => true
  | Ok payload => total_reached payload page || is_nil (page_items payload)
  end.

(** The page was answered with a payload that carries the record. *)
Definition yields (client_request : request -> result json) (path : string)
    (per_page : Z) (base_query : option (list (string * json)))
    (page : Z) (item : json) : Prop :=
  exists payload,
    client_request (page_request path per_page base_query page) = Ok payload
    /\ In item (page_items payload).

(** ** Consumers of the generator *)

Definition ctl_state {S : Type} (c : ctl S) : S :=
  match c with Continue s | Break s => s end.

Definition is_break {S : Type} (c : ctl S) : bool :=
  match c with Break _ => true | Continue _ => false end.

Definition ctl_map {S T : Type} (f : S -> T) (c : ctl S) : ctl T :=
  match c with
  | Continue s => Continue (f s)
  | Break s => Break (f s)
  end.

Definition flow_map {S T : Type} (f : S -> T) (c : flow S) : flow T :=
  match c with
  | Running s => Running (f s)
  | Finished s => Finished (f s)
  end.

Definition result_map {A B : Type} (f : A -> B) (r : result A) : result B :=
  match r with
  | Ok a => Ok (f a)
  | Raise e => Raise e
  end.

(** A consumer body that neither raises nor breaks. *)
Definition never_breaks {S : Type} (body : Z -> json -> S -> result (ctl S)) : Prop :=
  forall page item st, exists st', body page item st = Ok (Continue st').

(** The consumer [body] keeping, next to its state, the log of the pairs
    that the generator yielded to it. *)
Definition logged {S : Type} (body : Z -> json -> S -> result (ctl S))
    (page : Z) (item : json) (sl : S * list (Z * json))
  : result (ctl (S * list (Z * json))) :=
  c ← body page item (fst sl);
  Ok (match c with
      | Continue s => Continue (s, snd sl ++ [(page, item)])
      | Break s => Break (s, snd sl ++ [(page, item)])
      end).

(** ** Searches *)

(** The pairs [(page, record)] that the paginator yielded to the loop of a
    search, in order; none when the query is rejected or the loop fails. *)
Definition search_log (ratio : string -> string -> Q) (py_repr : json -> string)
    (client_request : request -> result json)
    (path query : string) (limit max_pages per_page : Z) (min_score : Q)
    (kind : string) : list (Z * json) :=
  if PyStr.is_empty (PyStr.strip query) then []
  else
    match _iter_paginated client_request path per_page max_pages None
            (logged (search_body ratio py_repr kind (PyStr.strip query)
                       (clamp_limit limit) min_score))
            (scan_start, []) with
    | (Ok sl, _) => snd sl
    | (Raise _, _) => []
    end.

(** The field candidates of a record of this kind; none for a kind that
    the loop does not score. *)
Definition fields_of (py_repr : json -> string) (kind : string) (attrs : json)
  : option (list (string * json)) :=
  match
    (if String.eqb kind "user" then user_fields py_repr attrs
     else if String.eqb kind "server" then server_fields py_repr attrs
     else Raise TypeError)
  with
  | Ok fields => Some fields
  | Raise _ => None
  end.

(** The best score of a record over its field candidates, with the field. *)
Definition best_score_of (ratio : string -> string -> Q) (py_repr : json -> string)
    (kind query : string) (attrs : json) : option (Q * option string) :=
  match fields_of py_repr kind attrs with
  | Some fields => Some (best_of ratio py_repr query fields)
  | None => None
  end.

(** What a yielded record adds to the accepted matches. *)
Definition accepted_of (ratio : string -> string -> Q) (py_repr : json -> string)
    (kind query : string) (min_score : Q) (attrs : json)
  : list (Q * json * option string) :=
  match best_score_of ratio py_repr kind query attrs with
  | Some (score, matched_on) =>
      if Qltb score min_score then [] else [(score, attrs, matched_on)]
  | None => []
  end.

(** The sort key of an accepted match: its score. *)
Definition match_score (t : Q * json * option string) : Q := fst (fst t).

(** The score that a summary reports. *)
Definition reported_score (m : json) : option Q :=
  match member m "score" with
  | JFloat x => Some x
  | _ => None
  end.

(** The summary [m] reports the score of the kept match [t] rounded to one
    decimal. *)
Definition reports (m : json) (t : Q * json * option string) : Prop :=
  reported_score m = Some (Py.round1 (match_score t)).

(** The mapping that a completed search returns. *)
Definition search_result (query : string) (matches : list json) (items pages : Z)
  : json :=
  JDict [("query", JStr query);
         ("matches", JList matches);
         ("scanned", JDict [("items", JInt items); ("pages", JInt pages)])].

Section SearchVocabulary.

Variable ratio : string -> string -> Q.
Variable py_repr : json -> string.
Variable client_request : request -> result json.
Variables (path kind query : string) (limit per_page : Z) (min_score : Q).

(** The accepted matches among the records [seen], in the order seen. *)
Definition accepted_among (seen : list json) : list (Q * json * option string) :=
  flat_map (accepted_of ratio py_repr kind query min_score) seen.

(** The early-exit test of the loop at the record [attrs], reached after
    the records [seen]: a best score of at least 99.5 and at least [limit]
    accepted matches, this record included. *)
Definition early_exit (seen : list json) (attrs : json) : bool :=
  match best_score_of ratio py_repr kind query attrs with
  | Some (score, _) =>
      Qle_bool (995 # 10) score
      && (limit <=? Z.of_nat (length (accepted_among (seen ++ [attrs]))))
  | None => false
  end.

(** The scan state agrees with the log of the yielded pairs. *)
Definition log_agrees (sl : scan_state * list (Z * json)) : Prop :=
  candidates_scanned (fst sl) = Z.of_nat (length (snd sl))
  /\ pages_scanned (fst sl) = list_to_set (map fst (snd sl))
  /\ scored (fst sl) = accepted_among (map snd (snd sl))
  /\ Forall (fun pr => yields client_request path per_page None (fst pr) (snd pr))
       (snd sl).

(** No record of the log met the early-exit test. *)
Definition no_exit (log : list (Z * json)) : Prop :=
  forall l1 x l2, log = l1 ++ x :: l2 -> early_exit (map snd l1) (snd x) = false.

(** The log ends with a record of page [p] that met the early-exit test,
    the first to do so. *)
Definition exit_at (p : Z) (log : list (Z * json)) : Prop :=
  exists l attrs, log = l ++ [(p, attrs)]
                  /\ early_exit (map snd l) attrs = true /\ no_exit l.

End SearchVocabulary.

Section SearchOutcome.

Variable ratio : string -> string -> Q.
Variable py_repr : json -> string.
Variable client_request : request -> result json.
Variables (path query : string) (limit max_pages per_page : Z) (min_score : Q).
Variable kind : string.

(** The accepted matches of a search, in the order of discovery. *)
Definition search_accepted : list (Q * json * option string) :=
  accepted_among ratio py_repr kind (PyStr.strip query) min_score
    (map snd (search_log ratio py_repr client_request path query limit max_pages
                per_page min_score kind)).

(** The matches that a search keeps: the first [limit] of the sorted
    accepted matches. *)
Definition search_top : list (Q * json * option string) :=
  firstn (Z.to_nat (clamp_limit limit)) (sort_desc match_score search_accepted).

End SearchOutcome.

(** * Collaborators and data for evaluation *)

(** ** The sequence matcher

    [SequenceMatcher.ratio] of [difflib] by the definition of the library:
    the longest matching block, the earliest in [a] and then in [b] among the
    longest, and recursively the pieces to its left and to its right; the
    ratio is twice the number of matched characters over the total length.
    Without a junk function this is the result for a second sequence shorter
    than 200 characters, below the library's automatic junk heuristic. *)

Module Difflib.

Fixpoint common_prefix (a b : list ascii) : nat :=
  match a, b with
  | x :: a', y :: b' => if Ascii.eqb x y then S (common_prefix a' b') else O
  | _, _ => O
  end.

(** The best block that starts at the head of [a], scanning the starts [j]
    of [b] upwards; [best] is [(i, j, k)]. *)
Fixpoint scan_b (a b : list ascii) (i j : nat) (best : nat * nat * nat)
  : nat * nat * nat :=
  match b with
  | [] => best
  | _ :: b' =>
      let k := common_prefix a b in
      scan_b a b' i (S j) (if (snd best <? k)%nat then (i, j, k) else best)
  end.

Fixpoint scan_a (a b : list ascii) (i : nat) (best : nat * nat * nat)
  : nat * nat * nat :=
  match a with
  | [] => best
  | _ :: a' => scan_a a' b (S i) (scan_b a b i O best)
  end.

(** [find_longest_match]: [(i, j, k)] with [a[i:i+k] == b[j:j+k]]. *)
Definition find_longest_match (a b : list ascii) : nat * nat * nat :=
  scan_a a b O (O, O, O).

(** The sum of the sizes of the matching blocks. *)
Fixpoint matches (fuel : nat) (a b : list ascii) : nat :=
  match fuel with
  | O => O
  | S fuel' =>
      let '(i, j, k) := find_longest_match a b in
      match k with
      | O => O
      | S _ =>
          (k + matches fuel' (firstn i a) (firstn j b)
             + matches fuel' (skipn (i + k) a) (skipn (j + k) b))%nat
      end
  end.

Definition ratio (a b : string) : Q :=
  let la := list_ascii_of_string a in
  let lb := list_ascii_of_string b in
  let total := (length la + length lb)%nat in
  match total with
  | O => 1%Q
  | S _ =>
      (inject_Z (2 * Z.of_nat (matches (S (length la)) la lb))
       / inject_Z (Z.of_nat total))%Q
  end.

End Difflib.

(** A [repr] for data that holds no float, list or mapping where [str] is
    applied. *)
Definition repr_unused (v : json) : string := "".

(** The ellipsis as its three UTF-8 bytes. *)
Definition ellipsis_utf8 : string :=
  String (ascii_of_N 226) (String (ascii_of_N 128) (String (ascii_of_N 166) "")).

(** ** A sample panel *)

Definition users_path : string := "/api/application/users".

Definition account (id : Z) (username first last : string) : json :=
  JDict [("id", JInt id); ("username", JStr username);
         ("first_name", JStr first); ("last_name", JStr last)].

(** The envelope of a page of accounts. *)
Definition envelope (records : list json) (total_pages : Z) : json :=
  JDict [("object", JStr "list");
         ("data",
          JList (map (fun r => JDict [("object", JStr "user"); ("attributes", r)])
                   records));
         ("meta", JDict [("pagination", JDict [("total_pages", JInt total_pages)])])].

Definition requested_page (rq : request) : Z :=
  match Py.lookup (req_query rq) "page" with
  | Some (JInt n) => n
  | _ => 0
  end.

Definition john_smith : json := account 1 "jsmith" "John" "Smith".
Definition bob_jones : json := account 2 "bob" "Bob" "Jones".
Definition johnny_doe : json := account 3 "john" "Johnny" "Doe".

(** Three pages are declared: two accounts on page 1, one on page 2 and an
    empty page 3. *)
Definition sample_panel (rq : request) : result json :=
  if requested_page rq =? 1 then Ok (envelope [john_smith; bob_jones] 3)
  else if requested_page rq =? 2 then Ok (envelope [johnny_doe] 3)
  else Ok (envelope [] 3).

(** A panel that declares [total] for every collection. *)
Definition client_declaring (total : json) (rq : request) : result json :=
  Ok (JDict [("object", JStr "list"); ("data", JList []);
             ("meta", JDict [("pagination", JDict [("total", total)])])]).

(** The one-character string U+00B2, superscript two. *)
Definition superscript_two : string := String (ascii_of_N 178) "".


(** * The rest of [ai_tools.py] *)

Module PyMore.

(** [v[k]]: a missing key raises [KeyError], carried here by
    [RuntimeError] with the name of the exception. *)
Definition getitem (v : json) (k : string) : result json :=
  match v with
  | JDict d =>
      match Py.lookup d k with
      | Some x => Ok x
      | None => Raise (RuntimeError "KeyError")
      end
  | _ => Raise TypeError
  end.

(** [s.rstrip(chars)] and [s.strip(chars)] for the characters [p]. *)
Fixpoint rstrip_of (p : ascii -> bool) (s : string) : string :=
  match s with
  | EmptyString => EmptyString
  | String c s' =>
      let r := rstrip_of p s' in
      if p c && PyStr.is_empty r then EmptyString else String c r
  end.

Fixpoint lstrip_of (p : ascii -> bool) (s : string) : string :=
  match s with
  | EmptyString => EmptyString
  | String c s' => if p c then lstrip_of p s' else s
  end.

Definition strip_of (p : ascii -> bool) (s : string) : string :=
  rstrip_of p (lstrip_of p s).

Definition is_char (a c : ascii) : bool := Ascii.eqb a c.

(** [s.removeprefix(p)]. *)
Fixpoint drop_chars (n : nat) (s : string) : string :=
  match n, s with
  | O, _ => s
  | S n', String _ s' => drop_chars n' s'
  | S _, EmptyString => EmptyString
  end.

Definition removeprefix (s p : string) : string :=
  if String.prefix p s then drop_chars (String.length p) s else s.

(** [s.split(sep)] for a separator of one character; [seg] is the segment
    being read. *)
Fixpoint split_on_from (sep : ascii) (seg : string) (s : string) : list string :=
  match s with
  | EmptyString => [seg]
  | String c s' =>
      if Ascii.eqb c sep then seg :: split_on_from sep "" s'
      else split_on_from sep (seg +:+ String c "") s'
  end.

Definition split_on (sep : ascii) (s : string) : list string :=
  split_on_from sep "" s.

(** [s.replace(a, b)] for strings [a] and [b] of one character. *)
Fixpoint replace_char (a b : ascii) (s : string) : string :=
  match s with
  | EmptyString => EmptyString
  | String c s' => String (if Ascii.eqb c a then b else c) (replace_char a b s')
  end.

Fixpoint last_char (s : string) : option ascii :=
  match s with
  | EmptyString => None
  | String c EmptyString => Some c
  | String _ s' => last_char s'
  end.

(** [s.endswith(c)] for one character. *)
Definition endswith_char (s : string) (c : ascii) : bool :=
  match last_char s with
  | Some c' => Ascii.eqb c' c
  | None => false
  end.

Definition startswith_char (s : string) (c : ascii) : bool :=
  match s with
  | String c' _ => Ascii.eqb c' c
  | EmptyString => false
  end.

Fixpoint drop_last (s : string) : string :=
  match s with
  | EmptyString => EmptyString
  | String c EmptyString => EmptyString
  | String c s' => String c (drop_last s')
  end.

(** [s[1:-1]]. *)
Definition slice_inner (s : string) : string :=
  match s with
  | EmptyString => EmptyString
  | String _ s' => drop_last s'
  end.

End PyMore.

(** [_extract_attributes]. *)
Definition _extract_attributes (payload : json) : result json :=
  if Py.isinstance_dict payload then
    attributes ← Py.get payload "attributes";
    if Py.isinstance_dict attributes then PyMore.getitem payload "attributes"
    else
      data ← Py.get payload "data";
      if Py.isinstance_dict data then
        nested ← Py.get data "attributes";
        if Py.isinstance_dict nested then PyMore.getitem data "attributes"
        else Ok (JDict [])
      else Ok (JDict [])
  else Ok (JDict []).

Section Listing.

Variable py_repr : json -> string.
Variable ellipsis : string.
Variable client_request : request -> result json.

(** The summaries of the items of a page, in order: the list
    comprehensions of [_compact_list]. *)
Fixpoint compact_items (kind : string) (items : list json) : result (list json) :=
  match items with
  | [] => Ok []
  | item :: rest =>
      m ← (if String.eqb kind "user"
           then _compact_user py_repr item None None
           else _compact_server py_repr ellipsis item None None);
      ms ← compact_items kind rest;
      Ok (m :: ms)
  end.

(** The request of [_compact_list]. *)
Definition list_request (path : string) (page per_page : Z) : request :=
  {| req_method := "GET"; req_path := path;
     req_query := [("page", JInt page); ("per_page", JInt per_page)] |}.

(** [_compact_list], with the requests it sent. *)
Definition _compact_list (path : string) (page per_page : Z) (kind : string)
  : result json * list request :=
  let per_page := Z.max 1 (Z.min per_page 100) in
  let page := Z.max 1 page in
  let rq := list_request path page per_page in
  (payload ← client_request rq;
   items ← _extract_list_items payload;
   pagination ← _extract_pagination payload;
   compact ← compact_items kind items;
   let key := if String.eqb kind "user" then "users" else "servers" in
   current_page ← Py.get pagination "current_page";
   per_page' ← Py.get pagination "per_page";
   total ← Py.get pagination "total";
   total_pages ← Py.get pagination "total_pages";
   Ok (JDict (_strip_nones
     [(key, JList compact);
      ("pagination",
        JDict (_strip_nones
          [("current_page", current_page);
           ("per_page", per_page');
           ("total", total);
           ("total_pages", total_pages)]))])),
   [rq]).

(** [ptero_ai_list_users] and [ptero_ai_list_servers]. *)
Definition ptero_ai_list_users (page per_page : Z) : result json * list request :=
  _compact_list "/api/application/users" page per_page "user".

Definition ptero_ai_list_servers (page per_page : Z) : result json * list request :=
  _compact_list "/api/application/servers" page per_page "server".

(** The request of a summary tool: no query. *)
Definition item_request (path : string) : request :=
  {| req_method := "GET"; req_path := path; req_query := [] |}.

(** [ptero_ai_get_user_summary]; [user] is a [str] or an [int]. *)
Definition ptero_ai_get_user_summary (user : json) : result json * list request :=
  let rq := item_request ("/api/application/users/" +:+ py_str py_repr user) in
  (payload ← client_request rq;
   attributes ← _extract_attributes payload;
   _compact_user py_repr attributes None None,
   [rq]).

(** [ptero_ai_get_server_summary]. *)
Definition ptero_ai_get_server_summary (server : json) : result json * list request :=
  let rq := item_request ("/api/application/servers/" +:+ py_str py_repr server) in
  (payload ← client_request rq;
   attributes ← _extract_attributes payload;
   _compact_server py_repr ellipsis attributes None None,
   [rq]).

End Listing.

(** The defaults of the listing tools. *)
Definition default_list_page : Z := 1.
Definition default_list_per_page : Z := 10.

(** * [client.py] *)

(** [_parse_bool]. *)
Definition _parse_bool (value : option string) (default : bool) : bool :=
  match value with
  | None => default
  | Some v =>
      existsb (String.eqb (PyStr.lower (PyStr.strip v)))
        ["1"; "true"; "yes"; "y"; "on"]
  end.

(** [PterodactylConfig]. *)
Record PterodactylConfig : Type := {
  panel_url : string;
  panel_token : string;
  timeout : Q;
  verify_ssl : bool;
  user_agent : string
}.

Definition default_user_agent : string := "PterodactylMCP/0.1".

Section Config.

(** [float(s)] of the interpreter: the number, or [ValueError]. *)
Variable py_float : string -> result Q.

(** [os.environ.get(key, default)]. *)
Definition environ_get (environ : gmap string string) (key default : string)
  : string :=
  match environ !! key with
  | Some v => v
  | None => default
  end.

(** [load_dotenv(path, override=False)]: the variables of the file are
    set unless the environment has them already. *)
Definition load_dotenv (environ dotenv : gmap string string) : gmap string string :=
  environ ∪ dotenv.

(** [PterodactylConfig.from_env], from the environment of the process and
    the variables that the [.env] file of the repository declares. *)
Definition from_env (environ dotenv : gmap string string) : result PterodactylConfig :=
  let environ := load_dotenv environ dotenv in
  let panel_url := PyStr.strip (environ_get environ "PANEL_URL" "") in
  let panel_token := PyStr.strip (environ_get environ "PANEL_TOKEN" "") in
  if PyStr.is_empty panel_url
  then Raise (ValueError "Missing required env var: PANEL_URL")
  else if PyStr.is_empty panel_token
  then Raise (ValueError "Missing required env var: PANEL_TOKEN")
  else
    let timeout_raw := PyStr.strip (environ_get environ "PANEL_TIMEOUT" "") in
    timeout ← (if PyStr.is_empty timeout_raw then Ok (30 : Q)
               else py_float timeout_raw);
    let verify_ssl := _parse_bool (environ !! "PANEL_VERIFY_SSL") true in
    let agent := PyStr.strip (environ_get environ "PANEL_USER_AGENT" default_user_agent) in
    let user_agent := if PyStr.is_empty agent then default_user_agent else agent in
    Ok {| panel_url := PyMore.rstrip_of (PyMore.is_char "/") panel_url;
          panel_token := panel_token;
          timeout := timeout;
          verify_ssl := verify_ssl;
          user_agent := user_agent |}.

End Config.

(** What [httpx] hands back for one request: the status, the body as JSON
    when it parses, and the body as text. *)
Record http_response : Type := {
  status_code : Z;
  json_body : option json;
  text : string
}.

Section Client.

Variable py_repr : json -> string.

(** [self._http.request]: the response, or the exception of the transport. *)
Variable http : request -> option json -> result http_response.

(** [PterodactylClient.request]. *)
Definition PterodactylClient_request (rq : request) (body : option json)
  : result json :=
  resp ← http rq body;
  if status_code resp =? 204 then Ok (JDict [("status", JInt 204)])
  else
    let payload :=
      match json_body resp with
      | Some j => j
      | None => JStr (text resp)
      end in
    if 400 <=? status_code resp
    then Raise (RuntimeError
                  ("Pterodactyl API error " +:+ Py.str_of_int (status_code resp)
                   +:+ ": " +:+ py_str py_repr payload))
    else Ok payload.

(** The client as the tools of [ai_tools.py] call it: without a body. *)
Definition client_of (rq : request) : result json :=
  PterodactylClient_request rq None.

End Client.

(** * [server.py] *)

(** One iteration of the loop of [_tool_name]. *)
Definition tool_segment (segment : string) : string :=
  let segment :=
    if PyMore.startswith_char segment "{" && PyMore.endswith_char segment "}"
    then PyMore.slice_inner segment else segment in
  PyMore.replace_char "-" "_" segment.

(** [_tool_name]. *)
Definition _tool_name (method path : string) : string :=
  let suffix :=
    PyMore.strip_of (PyMore.is_char "/")
      (PyMore.removeprefix path "/api/application/") in
  let parts := map tool_segment (PyMore.split_on "/" suffix) in
  "ptero_app_" +:+ PyStr.lower method +:+ "_" +:+ PyStr.join "_" parts.

Section Server.

Variable py_repr : json -> string.
Variable http : request -> option json -> result http_response.

(** [ptero_app_request], with the requests handed to the client. *)
Definition ptero_app_request (method path : string)
    (query : option (list (string * json))) (body : option json)
  : result json * list (request * option json) :=
  if negb (PyStr.startswith path "/api/application/")
  then (Raise (ValueError "path must start with /api/application/"), [])
  else
    let rq := {| req_method := method; req_path := path;
                 req_query := match query with Some q => q | None => [] end |} in
    (PterodactylClient_request py_repr http rq body, [(rq, body)]).

End Server.

(** * Vocabulary of the further statements *)

(** The text is made of characters of [[a-z0-9]] and single spaces;
    [after_space] says that the previous character was a space, or that
    the text starts here. [words_ok] wants the text to end on a word,
    [loose_ok] lets it end on a space. *)
Fixpoint words_ok (after_space : bool) (s : string) : bool :=
  match s with
  | EmptyString => negb after_space
  | String c s' =>
      if PyStr.is_alnum c then words_ok false s'
      else Ascii.eqb c " " && negb after_space && words_ok true s'
  end.

Fixpoint loose_ok (after_space : bool) (s : string) : bool :=
  match s with
  | EmptyString => true
  | String c s' =>
      if PyStr.is_alnum c then loose_ok false s'
      else Ascii.eqb c " " && negb after_space && loose_ok true s'
  end.

(** A normalized form: empty, or words of [[a-z0-9]] separated by single
    spaces, without a space at either end. *)
Definition is_normal (s : string) : bool :=
  match s with
  | EmptyString => true
  | _ => words_ok true s
  end.

(** The characters of [s] that are in [[a-z0-9]]. *)
Fixpoint only_alnum (s : string) : string :=
  match s with
  | EmptyString => EmptyString
  | String c s' =>
      if PyStr.is_alnum c then String c (only_alnum s') else only_alnum s'
  end.

(** The keys of a summary of an account and of a server, in the order of
    the dictionary displays of [_compact_user] and [_compact_server]. *)
Definition user_summary_keys : list string :=
  ["score"; "matched_on"; "id"; "uuid"; "external_id"; "username"; "email"; "name"].

Definition server_summary_keys : list string :=
  ["score"; "matched_on"; "id"; "identifier"; "uuid"; "external_id"; "name";
   "description"; "suspended"].

(** The summary [out] has the member of [attrs] under [k], unless it is
    [None] or the empty string: then [out] has no such key. *)
Definition passed (attrs out : json) (k : string) : Prop :=
  member out k = if kept (member attrs k) then member attrs k else JNull.

(** No value of the mapping is [None] or the empty string. *)
Definition no_blank (entries : list (string * json)) : Prop :=
  List.Forall (fun kv => kept (snd kv) = true) entries.

(** The attributes of the record that a payload carries: its [attributes]
    mapping, else the [attributes] mapping of its [data] mapping. *)
Definition declared_attributes (payload : json) : option json :=
  match member payload "attributes" with
  | JDict a => Some (JDict a)
  | _ =>
      match member payload "data" with
      | JDict d =>
          match member (JDict d) "attributes" with
          | JDict a => Some (JDict a)
          | _ => None
          end
      | _ => None
      end
  end.

(** The keys of the pagination of a listing. *)
Definition pagination_keys : list string :=
  ["current_page"; "per_page"; "total"; "total_pages"].

(** The payload of a response: its body as JSON when it parses, else as
    text. *)
Definition payload_of (resp : http_response) : json :=
  match json_body resp with
  | Some j => j
  | None => JStr (text resp)
  end.

(** The exception of the client for a response with an error status. *)
Definition api_error (py_repr : json -> string) (resp : http_response) : exn :=
  RuntimeError ("Pterodactyl API error " +:+ Py.str_of_int (status_code resp)
                +:+ ": " +:+ py_str py_repr (payload_of resp)).

(** The collections that [ptero_ai_panel_totals] counts, with their paths. *)
Definition panel_collections : list (string * string) :=
  [("users", "/api/application/users");
   ("servers", "/api/application/servers");
   ("nodes", "/api/application/nodes");
   ("locations", "/api/application/locations");
   ("nests", "/api/application/nests")].

(** The character [c] occurs in [s]. *)
Fixpoint has_char (c : ascii) (s : string) : bool :=
  match s with
  | EmptyString => false
  | String a s' => Ascii.eqb a c || has_char c s'
  end.

(** * Vocabulary of the statements on the requests and the matches of a
      search *)

(** The request for the page [page] of a collection, written out: the
    method, the path, and a query of the page number and of the page size
    clamped to 1..100. *)
Definition search_request (path : string) (per_page page : Z) : request :=
  {| req_method := "GET";
     req_path := path;
     req_query := [("page", JInt page);
                   ("per_page", JInt (Z.max 1 (Z.min per_page 100)))] |}.

(** The page numbers 1, 2, ..., [n]. *)
Definition first_pages (n : nat) : list Z := map Z.of_nat (seq 1 n).

(** The scan cannot go beyond the page [page]: its request fails, its
    payload declares an integer [total_pages] that [page] has reached, or
    it carries no record. *)
Definition page_ends (client_request : request -> result json) (path : string)
    (per_page page : Z) : bool :=
  match client_request (search_request path per_page page) with
  | Raise _ => true
  | Ok payload => total_reached payload page || is_nil (page_items payload)
  end.

(** [ranked] is the list [accepted] in descending order of the scores, the
    matches of equal score in their order in [accepted]: a rearrangement of
    [accepted] that is sorted and that keeps, for every score, the matches
    of this score in the order they have in [accepted]. *)
Definition ranking (ranked accepted : list (Q * json * option string)) : Prop :=
  Permutation ranked accepted
  /\ StronglySorted (desc match_score) ranked
  /\ forall s,
       List.filter (fun t => Qeq_bool (match_score t) s) ranked
       = List.filter (fun t => Qeq_bool (match_score t) s) accepted.

(** The fields of a record that its summary repeats. *)
Definition summary_fields (kind : string) : list string :=
  if String.eqb kind "user"
  then ["id"; "uuid"; "external_id"; "username"; "email"]
  else ["id"; "identifier"; "uuid"; "external_id"; "name"; "suspended"].

(** [m] is the summary of the match [t], a score, a record and the field
    matched: the summarizer of the kind returns [m] for them, and [m] holds
    the score rounded to one decimal, the name of the field matched and the
    fields of the record that a summary repeats. *)
Definition summarizes (py_repr : json -> string) (ellipsis kind : string)
    (m : json) (t : Q * json * option string) : Prop :=
  (if String.eqb kind "user"
   then _compact_user py_repr (snd (fst t)) (Some (fst (fst t))) (snd t)
   else _compact_server py_repr ellipsis (snd (fst t)) (Some (fst (fst t))) (snd t))
  = Ok m
  /\ reported_score m = Some (Py.round1 (match_score t))
  /\ member m "matched_on"
     = match snd t with
       | Some field => if PyStr.is_empty field then JNull else JStr field
       | None => JNull
       end
  /\ forall k, In k (summary_fields kind) -> passed (snd (fst t)) m k.


(** The best-scoring field of the record [attrs] for [query] has the value
    [value]: the loop over the field candidates of the record ends on a
    field whose text is [value]. *)
Definition best_field_value (ratio : string -> string -> Q)
    (py_repr : json -> string) (kind query : string) (attrs : json)
    (value : string) : Prop :=
  exists fields field v score,
    fields_of py_repr kind attrs = Some fields
    /\ best_of ratio py_repr query fields = (score, Some field)
    /\ In (field, v) fields
    /\ py_str py_repr v = value.
(** * Properties *)

(** ** Comparisons on scores *)

Lemma Qltb_true (a b : Q) : Qltb a b = true <-> (a < b)%Q.
Proof.
  unfold Qltb. rewrite negb_true_iff. split; intros H.
  - apply Qnot_le_lt. intros Hle. apply Qle_bool_iff in Hle. congruence.
  - destruct (Qle_bool b a) eqn:E; [|reflexivity].
    apply Qle_bool_iff in E. exfalso. apply (Qlt_not_le _ _ H E).
Qed.

Lemma Qltb_false (a b : Q) : Qltb a b = false <-> (b <= a)%Q.
Proof.
  unfold Qltb. rewrite negb_false_iff. apply Qle_bool_iff.
Qed.

Lemma Qmax_l (a b : Q) : (a <= Qmax a b)%Q.
Proof.
  unfold Qmax. destruct (Qle_bool a b) eqn:E.
  - now apply Qle_bool_iff.
  - apply Qle_refl.
Qed.

Lemma Qmax_r (a b : Q) : (b <= Qmax a b)%Q.
Proof.
  unfold Qmax. destruct (Qle_bool a b) eqn:E.
  - apply Qle_refl.
  - apply Qlt_le_weak, Qnot_le_lt. intros H. apply Qle_bool_iff in H. congruence.
Qed.

(** The final clamp of the scorer keeps every value within the bounds. *)
Lemma clamp_range (s : Q) :
  (0 <= (if Qltb s 0 then 0 else if Qltb 100 s then 100 else s) <= 100)%Q.
Proof.
  destruct (Qltb s 0) eqn:E0; [lra|].
  destruct (Qltb 100 s) eqn:E1; [lra|].
  apply Qltb_false in E0, E1. lra.
Qed.

Lemma clamp_above (s t : Q) :
  (t < 100)%Q -> (0 <= t)%Q -> (t < s)%Q ->
  (t < (if Qltb s 0 then 0 else if Qltb 100 s then 100 else s))%Q.
Proof.
  intros Ht Ht0 Hs.
  destruct (Qltb s 0) eqn:E0.
  - apply Qltb_true in E0. lra.
  - destruct (Qltb 100 s) eqn:E1; lra.
Qed.

(** ** Normalizer *)

Lemma is_empty_true (s : string) : PyStr.is_empty s = true <-> s = "".
Proof. destruct s; simpl; split; congruence. Qed.

Lemma is_empty_false (s : string) : PyStr.is_empty s = false <-> s <> "".
Proof. destruct s; simpl; split; congruence. Qed.

Lemma alnum_not_space (c : ascii) : PyStr.is_alnum c = true -> PyStr.is_space c = false.
Proof.
  unfold PyStr.is_alnum, PyStr.is_space. generalize (PyStr.code c). intros n H.
  repeat match type of H with
  | (_ || _)%bool = true => apply orb_true_iff in H; destruct H as [H|H]
  | (_ && _)%bool = true => apply andb_true_iff in H; destruct H as [? H]
  end;
  repeat match goal with
  | H : (_ <=? _)%N = true |- _ => apply N.leb_le in H
  end;
  repeat match goal with
  | |- (_ || _)%bool = false => apply orb_false_iff; split
  | |- (_ && _)%bool = false => apply andb_false_iff
  end;
  try (apply N.eqb_neq; lia);
  try (left; apply N.leb_gt; lia); try (right; apply N.leb_gt; lia).
Qed.

Lemma append_cons (c : ascii) (s t : string) : String c s +:+ t = String c (s +:+ t).
Proof. reflexivity. Qed.

Lemma append_empty_r (s : string) : s +:+ "" = s.
Proof.
  induction s as [|c s IH]; [reflexivity|]. now rewrite append_cons, IH.
Qed.

Lemma sub_no_alnum (rep : string) (s : string) :
  PyStr.has_alnum s = false -> forall b, PyStr.sub_non_alnum rep b s = if b then "" else
    match s with EmptyString => "" | _ => rep end.
Proof.
  induction s as [|c s IH]; simpl; intros H b.
  - now destruct b.
  - apply orb_false_iff in H. destruct H as [Hc Hs]. rewrite Hc.
    rewrite (IH Hs true). destruct b; [reflexivity|].
    apply append_empty_r.
Qed.

Lemma has_alnum_append (s t : string) :
  PyStr.has_alnum (s +:+ t) = PyStr.has_alnum s || PyStr.has_alnum t.
Proof.
  induction s as [|c s IH]; [reflexivity|].
  rewrite append_cons. simpl. rewrite IH. now rewrite orb_assoc.
Qed.

Lemma sub_has_alnum (rep : string) (s : string) :
  PyStr.has_alnum rep = false ->
  forall b, PyStr.has_alnum (PyStr.sub_non_alnum rep b s) = PyStr.has_alnum s.
Proof.
  intros Hrep. induction s as [|c s IH]; simpl; intros b; [reflexivity|].
  destruct (PyStr.is_alnum c) eqn:Ec; simpl.
  - now rewrite Ec.
  - destruct b; [apply IH|]. rewrite has_alnum_append, Hrep. apply IH.
Qed.

Lemma has_alnum_nonempty (s : string) : PyStr.has_alnum s = true -> s <> "".
Proof. destruct s; simpl; congruence. Qed.

Lemma lstrip_has_alnum (s : string) : PyStr.has_alnum (PyStr.lstrip s) = PyStr.has_alnum s.
Proof.
  induction s as [|c s IH]; simpl; [reflexivity|].
  destruct (PyStr.is_space c) eqn:Ec; [|reflexivity].
  rewrite IH. destruct (PyStr.is_alnum c) eqn:Ea; [|reflexivity].
  apply alnum_not_space in Ea. congruence.
Qed.

Lemma rstrip_has_alnum (s : string) : PyStr.has_alnum (PyStr.rstrip s) = PyStr.has_alnum s.
Proof.
  induction s as [|c s IH]; simpl; [reflexivity|].
  destruct (PyStr.is_space c && PyStr.is_empty (PyStr.rstrip s)) eqn:E.
  - apply andb_true_iff in E. destruct E as [Ec Er].
    apply is_empty_true in Er. rewrite Er in IH. simpl in IH. rewrite <- IH.
    destruct (PyStr.is_alnum c) eqn:Ea; [|reflexivity].
    apply alnum_not_space in Ea. congruence.
  - simpl. now rewrite IH.
Qed.

Lemma normalize_has_alnum (text : string) :
  PyStr.has_alnum (_normalize text) = PyStr.has_alnum (PyStr.lower text).
Proof.
  unfold _normalize, _NON_ALNUM_RE_sub, PyStr.strip.
  rewrite rstrip_has_alnum, lstrip_has_alnum. now apply sub_has_alnum.
Qed.

Lemma compact_has_alnum (text : string) :
  PyStr.has_alnum (_compact text) = PyStr.has_alnum (PyStr.lower text).
Proof. unfold _compact, _NON_ALNUM_RE_sub. now apply sub_has_alnum. Qed.

(** A text without a character that lower-cases into [[a-z0-9]] has empty
    normalized and compact forms. *)
Lemma normalize_no_alnum (text : string) :
  PyStr.has_alnum (PyStr.lower text) = false -> _normalize text = "".
Proof.
  intros H. unfold _normalize, _NON_ALNUM_RE_sub. rewrite (sub_no_alnum _ _ H).
  now destruct (PyStr.lower text).
Qed.

Lemma compact_no_alnum (text : string) :
  PyStr.has_alnum (PyStr.lower text) = false -> _compact text = "".
Proof.
  intros H. unfold _compact, _NON_ALNUM_RE_sub. rewrite (sub_no_alnum _ _ H).
  now destruct (PyStr.lower text).
Qed.

Lemma normalize_empty_iff (text : string) :
  _normalize text = "" <-> PyStr.has_alnum (PyStr.lower text) = false.
Proof.
  split; [|apply normalize_no_alnum].
  intros H. rewrite <- normalize_has_alnum, H. reflexivity.
Qed.

Lemma compact_empty_iff (text : string) :
  _compact text = "" <-> PyStr.has_alnum (PyStr.lower text) = false.
Proof.
  split; [|apply compact_no_alnum].
  intros H. rewrite <- compact_has_alnum, H. reflexivity.
Qed.

(** A non-empty compact form comes with a non-empty normalized form. *)
Lemma compact_nonempty_normalize (text : string) :
  _compact text <> "" -> _normalize text <> "".
Proof.
  rewrite normalize_empty_iff, compact_empty_iff. tauto.
Qed.

Example normalize_example : _normalize "  John   Smith!! " = "john smith".
Proof. reflexivity. Qed.

Example compact_example : _compact "John-Smith" = "johnsmith".
Proof. reflexivity. Qed.

(** ** Similarity scorer *)

Example tokens_out_of_order :
  (_token_match_score "john smith" "Smith, John" == 100)%Q.
Proof. reflexivity. Qed.

Example tokens_half : (_token_match_score "john doe" "Smith, John" == 50)%Q.
Proof. reflexivity. Qed.

Section ScorerFacts.

Variable ratio : string -> string -> Q.

Lemma score_empty_norm (query candidate : string) :
  _normalize query = "" \/ _normalize candidate = "" ->
  _string_similarity_score ratio query candidate = 0%Q.
Proof.
  intros H. unfold _string_similarity_score.
  destruct H as [H|H]; rewrite H; simpl; [reflexivity|].
  now rewrite orb_true_r.
Qed.

Lemma score_bounds (query candidate : string) :
  (0 <= _string_similarity_score ratio query candidate <= 100)%Q.
Proof.
  unfold _string_similarity_score.
  destruct (PyStr.is_empty (_normalize query) || PyStr.is_empty (_normalize candidate));
    [lra|].
  destruct (String.eqb (_normalize query) (_normalize candidate)
            || negb (PyStr.is_empty (_compact query))
               && String.eqb (_compact query) (_compact candidate));
    [lra|].
  apply clamp_range.
Qed.

(** C2. The similarity score of any query and candidate lies in [0, 100];
    it is 0 as soon as one of the two normalized forms is empty, which is
    the case of an empty text and of a text none of whose characters
    lower-cases into [a-z0-9]. *)
Theorem score_in_range (query candidate : string) :
  (0 <= _string_similarity_score ratio query candidate <= 100)%Q /\
  (_normalize query = "" \/ _normalize candidate = "" ->
   _string_similarity_score ratio query candidate = 0%Q) /\
  (PyStr.has_alnum (PyStr.lower query) = false
   \/ PyStr.has_alnum (PyStr.lower candidate) = false ->
   _string_similarity_score ratio query candidate = 0%Q).
Proof.
  split; [apply score_bounds|]. split; [apply score_empty_norm|].
  intros [H|H]; apply score_empty_norm; [left|right];
    now apply normalize_no_alnum.
Qed.

Lemma score_exact (query candidate : string) :
  _normalize query <> "" -> _normalize candidate <> "" ->
  _normalize query = _normalize candidate
  \/ (_compact query <> "" /\ _compact query = _compact candidate) ->
  _string_similarity_score ratio query candidate = 100%Q.
Proof.
  intros Hq Hc H. unfold _string_similarity_score.
  apply is_empty_false in Hq, Hc. rewrite Hq, Hc. simpl.
  destruct H as [H|[Hn H]].
  - rewrite H, String.eqb_refl. reflexivity.
  - apply is_empty_false in Hn. rewrite Hn, H, String.eqb_refl. simpl.
    now rewrite orb_true_r.
Qed.

(** C3, amended. If the normalized forms are non-empty and equal, or the
    compact forms are non-empty and equal, the score is exactly 100; so
    the score of a text against itself is 100 when its normalized form is
    not empty. *)
Theorem exact_match_scores_100 (query candidate : string) :
  ((_normalize query <> "" /\ _normalize query = _normalize candidate)
   \/ (_compact query <> "" /\ _compact candidate <> ""
       /\ _compact query = _compact candidate) ->
   _string_similarity_score ratio query candidate = 100%Q) /\
  (_normalize query <> "" ->
   _string_similarity_score ratio query query = 100%Q).
Proof.
  split.
  - intros [[Hq He]|[Hq [Hc He]]].
    + apply score_exact; [assumption|congruence|now left].
    + apply score_exact; try now apply compact_nonempty_normalize.
      right. now split.
  - intros Hq. apply score_exact; [assumption|assumption|now left].
Qed.

(** The score of "john" against "John Smith" before the clamp. *)
Lemma score_john_unfold :
  _string_similarity_score ratio "john" "John Smith" =
  (let score := ((55 # 100) * (Qmax (ratio "john" "john smith")
                                    (ratio "john" "johnsmith") * 100)
                 + (45 # 100) * 100 + 12)%Q in
   if Qltb score 0 then 0%Q else if Qltb 100 score then 100%Q else score).
Proof. reflexivity. Qed.

End ScorerFacts.

Lemma difflib_ratio_nonneg (a b : string) : (0 <= Difflib.ratio a b)%Q.
Proof.
  unfold Difflib.ratio.
  destruct (length (list_ascii_of_string a) + length (list_ascii_of_string b))%nat;
    [lra|].
  unfold Qle, Qdiv, Qmult, Qinv, inject_Z. simpl. lia.
Qed.

Lemma score_in_range_witness :
  _string_similarity_score Difflib.ratio "?!" "John Smith" = 0%Q.
Proof.
  apply (proj1 (proj2 (score_in_range Difflib.ratio "?!" "John Smith"))).
  left. reflexivity.
Defined.

Lemma exact_match_scores_100_witness :
  _string_similarity_score Difflib.ratio "J. Smith" "j-smith" = 100%Q.
Proof.
  apply (proj1 (exact_match_scores_100 Difflib.ratio "J. Smith" "j-smith")).
  left. split; [discriminate | reflexivity].
Defined.

(** C3 as stated fails where both normalized forms are empty: they are
    equal and the score is 0. *)
Lemma exact_match_counterexample :
  _normalize "!!!" = _normalize "???" /\
  ~ (_string_similarity_score Difflib.ratio "!!!" "???" == 100)%Q.
Proof. split; [reflexivity|]. vm_compute. discriminate. Qed.

(** With the ratio of [difflib] the score is 0.55 * 61.538... + 45 + 12. *)
Example john_smith_score :
  (_string_similarity_score Difflib.ratio "john" "John Smith" == 1181 # 13)%Q.
Proof. reflexivity. Qed.

(** ** Tolerant envelope extraction *)

Lemma get_dict (v : json) (k : string) :
  is_dict v -> exists x, Py.get v k = Ok x.
Proof. destruct v; try discriminate. intros _. simpl. eauto. Qed.

Lemma collect_items_total (data : list json) :
  exists items, collect_items data = Ok items /\ Forall is_dict items.
Proof.
  induction data as [|item rest [items [IH HF]]]; simpl.
  - exists []. split; [reflexivity|constructor].
  - destruct item; simpl; eauto.
    rewrite IH. simpl.
    match goal with |- context [Py.isinstance_dict ?a] =>
      destruct (Py.isinstance_dict a) eqn:E end;
      eexists; (split; [reflexivity|]); constructor; auto; reflexivity.
Qed.

Lemma extract_list_items_total (payload : json) :
  exists items, _extract_list_items payload = Ok items /\ Forall is_dict items.
Proof.
  assert (Hnil : exists items : list json,
             Ok [] = Ok items /\ Forall is_dict items)
    by (exists []; split; [reflexivity|constructor]).
  unfold _extract_list_items. destruct payload; simpl; try exact Hnil.
  destruct (Py.lookup d "data") as [[]|]; simpl; try exact Hnil.
  apply collect_items_total.
Qed.

Lemma extract_pagination_total (payload : json) :
  exists p, _extract_pagination payload = Ok p /\ is_dict p.
Proof.
  assert (Hnil : exists p, Ok (JDict []) = Ok p /\ is_dict p)
    by (eexists; split; reflexivity).
  unfold _extract_pagination. destruct payload; simpl; try exact Hnil.
  destruct (Py.lookup d "meta") as [[]|]; simpl; try exact Hnil.
  destruct (Py.lookup d0 "pagination") as [[]|]; simpl; try exact Hnil.
  eexists; split; reflexivity.
Qed.

Lemma stops_after_total (payload : json) (page : Z) (items : list json) :
  exists b, stops_after payload page items = Ok b.
Proof.
  unfold stops_after.
  destruct (extract_pagination_total payload) as [p [-> Hp]]. simpl.
  destruct (get_dict p "total_pages" Hp) as [x ->]. simpl. eauto.
Qed.

Lemma collect_items_spec (data : list json) :
  collect_items data = Ok (flat_map record_of_item data).
Proof.
  induction data as [|item rest IH]; [reflexivity|].
  simpl. destruct item; simpl; try exact IH.
  rewrite IH. simpl.
  destruct (Py.lookup d "attributes") as [[]|]; reflexivity.
Qed.

Lemma extract_list_items_spec (payload : json) :
  _extract_list_items payload =
  Ok (match member payload "data" with
      | JList l => flat_map record_of_item l
      | _ => []
      end).
Proof.
  unfold _extract_list_items, member. destruct payload; try reflexivity.
  simpl. destruct (Py.lookup d "data") as [[]|]; try reflexivity.
  simpl. apply collect_items_spec.
Qed.

Lemma extract_pagination_spec (payload : json) :
  _extract_pagination payload =
  Ok (match declared_pagination payload with
      | Some p => p
      | None => JDict []
      end).
Proof.
  unfold _extract_pagination, declared_pagination, member.
  destruct payload; try reflexivity. simpl.
  destruct (Py.lookup d "meta") as [[]|]; try reflexivity. simpl.
  destruct (Py.lookup d0 "pagination") as [[]|]; reflexivity.
Qed.

Lemma declared_pagination_dict (payload p : json) :
  declared_pagination payload = Some p -> is_dict p.
Proof.
  unfold declared_pagination.
  destruct (member payload "meta"); try discriminate.
  destruct (member (JDict d) "pagination"); try discriminate.
  intros [= <-]. reflexivity.
Qed.

Lemma stops_after_spec (payload : json) (page : Z) (items : list json) :
  stops_after payload page items =
  Ok (match declared_pagination payload with
      | Some p =>
          Py.isinstance_int (member p "total_pages")
          && (Py.int_value (member p "total_pages") <=? page)
      | None => false
      end || negb (Py.truthy (JList items))).
Proof.
  unfold stops_after. rewrite extract_pagination_spec. simpl.
  destruct (declared_pagination payload) as [p|] eqn:E.
  - apply declared_pagination_dict in E. destruct p; try discriminate.
    reflexivity.
  - reflexivity.
Qed.

(** What the extraction makes of a payload, whatever its shape. *)
Lemma extraction_degrades (payload : json) :
  (exists items, _extract_list_items payload = Ok items /\ Forall is_dict items) /\
  (exists p, _extract_pagination payload = Ok p /\ is_dict p) /\
  (forall page items, exists b, stops_after payload page items = Ok b) /\
  (Py.isinstance_list (member payload "data") = false ->
   _extract_list_items payload = Ok []) /\
  (forall l, member payload "data" = JList l ->
   _extract_list_items payload = Ok (flat_map record_of_item l)) /\
  (forall item, is_dict item ->
   Py.isinstance_dict (member item "attributes") = false ->
   record_of_item item = [item]) /\
  (declared_pagination payload = None ->
   _extract_pagination payload = Ok (JDict []) /\
   forall page items,
     stops_after payload page items = Ok (negb (Py.truthy (JList items)))) /\
  (forall p, declared_pagination payload = Some p ->
   Py.isinstance_int (member p "total_pages") = false ->
   forall page items,
     stops_after payload page items = Ok (negb (Py.truthy (JList items)))).
Proof.
  split; [apply extract_list_items_total|].
  split; [apply extract_pagination_total|].
  split; [intros; apply stops_after_total|].
  split.
  { intros H. rewrite extract_list_items_spec.
    destruct (member payload "data"); try reflexivity. discriminate. }
  split.
  { intros l H. rewrite extract_list_items_spec, H. reflexivity. }
  split.
  { intros item Hd H. destruct item; try discriminate. simpl in *.
    destruct (Py.lookup d "attributes") as [[]|]; try reflexivity.
    discriminate. }
  split.
  { intros H. split.
    - rewrite extract_pagination_spec, H. reflexivity.
    - intros page items. rewrite stops_after_spec, H. reflexivity. }
  intros p Hp Hi page items. rewrite stops_after_spec, Hp, Hi. reflexivity.
Qed.


(** ** Totals *)

Section TotalsFacts.

Variable py_repr : json -> string.
Variable client_request : request -> result json.

Lemma get_total_unfold (path : string) :
  _get_total py_repr client_request path =
  (match client_request (total_request path) with
   | Raise e => Raise e
   | Ok payload =>
       let total :=
         match declared_pagination payload with
         | Some p => member p "total"
         | None => JNull
         end in
       if (Py.isinstance_int total || Py.isinstance_float total
           || Py.isinstance_str total)
          && PyStr.isdigit (py_str py_repr total)
       then py_int total else Ok 0
   end, [total_request path]).
Proof.
  unfold _get_total, total_request. f_equal.
  destruct (client_request _) as [payload|e]; [|reflexivity]. simpl.
  rewrite extract_pagination_spec. simpl.
  destruct (declared_pagination payload) as [p|] eqn:E; [|reflexivity].
  apply declared_pagination_dict in E. destruct p; try discriminate.
  reflexivity.
Qed.

Lemma uint_digits (d : Decimal.uint) :
  PyStr.all_chars PyStr.is_digit_char (NilEmpty.string_of_uint d) = true.
Proof. induction d; simpl; auto. Qed.

Lemma str_of_int_isdigit (n : Z) : 0 <= n -> PyStr.isdigit (Py.str_of_int n) = true.
Proof.
  intros Hn. unfold Py.str_of_int, PyStr.isdigit.
  destruct n as [|p|p]; [reflexivity| |lia].
  simpl. unfold NilZero.string_of_uint.
  pose proof (uint_digits (Pos.to_uint p)) as H.
  destruct (Pos.to_uint p); try reflexivity; simpl in *; exact H.
Qed.

Lemma str_of_negative_not_digit (n : Z) : n < 0 -> PyStr.isdigit (Py.str_of_int n) = false.
Proof. destruct n; try lia. reflexivity. Qed.

(** A declared non-negative integer total is returned. *)
Lemma get_total_int (path : string) (payload p : json) (n : Z) :
  client_request (total_request path) = Ok payload ->
  declared_pagination payload = Some p ->
  member p "total" = JInt n -> 0 <= n ->
  _get_total py_repr client_request path = (Ok n, [total_request path]).
Proof.
  intros Hc Hp Ht Hn. rewrite get_total_unfold, Hc, Hp, Ht. simpl.
  now rewrite str_of_int_isdigit.
Qed.

(** An undeclared total counts as 0, like a total that is none of a
    number or a string, a negative integer and a boolean. *)
Lemma get_total_zero (path : string) (payload : json) :
  client_request (total_request path) = Ok payload ->
  match declared_pagination payload with
  | None => True
  | Some p =>
      match member p "total" with
      | JNull | JBool _ | JList _ | JDict _ => True
      | JInt n => n < 0
      | JStr s => PyStr.isdigit s = false
      | JFloat _ => False
      end
  end ->
  _get_total py_repr client_request path = (Ok 0, [total_request path]).
Proof.
  intros Hc H. rewrite get_total_unfold, Hc. cbv zeta.
  destruct (declared_pagination payload) as [p|]; [|reflexivity].
  destruct (member p "total") as [|[]|n| |s| |]; simpl in *;
    try reflexivity; try contradiction.
  - now rewrite str_of_negative_not_digit.
  - now rewrite H.
Qed.

End TotalsFacts.

(** C9, the defect. The guard of [_get_total] tests [str(total).isdigit()].
    A declared total that is the string U+00B2 passes it, and [int(total)]
    then raises [ValueError]: [_get_total], and with it the totals
    operation, ends with an exception where the claim has a count. A
    declared float, which the guard lists among the accepted types, never
    passes it, its text not being made of digits only, and counts as 0.
    The declared total 42 is returned as 42, from the request for page 1
    with [per_page] 1. *)
Theorem get_total_guard_defect (py_repr : json -> string) (path : string) :
  PyStr.isdigit superscript_two = true
  /\ _get_total py_repr (client_declaring (JStr superscript_two)) path
     = (Raise (ValueError "invalid literal for int() with base 10"),
        [total_request path])
  /\ fst (ptero_ai_panel_totals py_repr (client_declaring (JStr superscript_two)))
     = Raise (ValueError "invalid literal for int() with base 10")
  /\ (forall x : Q,
        PyStr.isdigit (py_repr (JFloat x)) = false ->
        _get_total py_repr (client_declaring (JFloat x)) path
        = (Ok 0, [total_request path]))
  /\ _get_total py_repr (client_declaring (JInt 42)) path
     = (Ok 42, [total_request path])
  /\ fst (ptero_ai_panel_totals py_repr (client_declaring (JInt 42)))
     = Ok [("users", 42); ("servers", 42); ("nodes", 42); ("locations", 42);
           ("nests", 42)].
Proof.
  repeat split. intros x Hx. rewrite get_total_unfold. simpl. now rewrite Hx.
Qed.

(** The declared total 42.0, whose text is "42.0", counts as 0. *)
Lemma get_total_guard_defect_witness :
  _get_total (fun _ => "42.0") (client_declaring (JFloat 42)) users_path
  = (Ok 0, [total_request users_path]).
Proof.
  apply (get_total_guard_defect (fun _ => "42.0") users_path). reflexivity.
Defined.

(** ** The stable descending sort *)

Section SortFacts.

Context {A : Type} (key : A -> Q).

Lemma insert_desc_perm (x : A) (l : list A) :
  Permutation (insert_desc key x l) (x :: l).
Proof.
  induction l as [|y l IH]; simpl; [reflexivity|].
  destruct (Qltb (key x) (key y)); [|reflexivity].
  rewrite IH. apply perm_swap.
Qed.

Lemma sort_desc_perm (l : list A) : Permutation (sort_desc key l) l.
Proof.
  induction l as [|x l IH]; simpl; [reflexivity|].
  rewrite insert_desc_perm. now constructor.
Qed.

Lemma sort_desc_length (l : list A) : length (sort_desc key l) = length l.
Proof. apply Permutation_length, sort_desc_perm. Qed.

Lemma insert_desc_sorted (x : A) (l : list A) :
  StronglySorted (desc key) l -> StronglySorted (desc key) (insert_desc key x l).
Proof.
  induction l as [|y l IH]; simpl; intros Hs.
  - constructor; constructor.
  - inversion Hs as [|? ? Hl Hy]; subst.
    destruct (Qltb (key x) (key y)) eqn:E.
    + constructor; [now apply IH|].
      apply Qltb_true in E.
      rewrite (List.Forall_forall ((desc key) y)). intros z Hz.
      apply (Permutation_in _ (insert_desc_perm x l)) in Hz.
      destruct Hz as [<-|Hz].
      * unfold desc. lra.
      * rewrite List.Forall_forall in Hy. now apply Hy.
    + apply Qltb_false in E. constructor; [assumption|].
      constructor; [exact E|].
      rewrite List.Forall_forall in Hy. rewrite (List.Forall_forall ((desc key) x)).
      intros z Hz. specialize (Hy z Hz). unfold desc in *. lra.
Qed.

Lemma sort_desc_sorted (l : list A) : StronglySorted (desc key) (sort_desc key l).
Proof.
  induction l as [|x l IH]; simpl; [constructor|].
  now apply insert_desc_sorted.
Qed.

(** Stability: the elements of any one key value keep their input order. *)
Lemma insert_desc_stable (q : Q) (x : A) (l : list A) :
  List.filter (fun a => Qeq_bool (key a) q) (insert_desc key x l)
  = List.filter (fun a => Qeq_bool (key a) q) (x :: l).
Proof.
  induction l as [|y l IH]; [reflexivity|].
  simpl insert_desc. destruct (Qltb (key x) (key y)) eqn:E; [|reflexivity].
  apply Qltb_true in E.
  simpl. rewrite IH. simpl.
  destruct (Qeq_bool (key y) q) eqn:Ey, (Qeq_bool (key x) q) eqn:Ex;
    try reflexivity.
  apply Qeq_bool_iff in Ey, Ex. rewrite Ey, Ex in E. lra.
Qed.

Lemma sort_desc_stable (q : Q) (l : list A) :
  List.filter (fun a => Qeq_bool (key a) q) (sort_desc key l)
  = List.filter (fun a => Qeq_bool (key a) q) l.
Proof.
  induction l as [|x l IH]; [reflexivity|].
  simpl sort_desc. rewrite insert_desc_stable. simpl. now rewrite IH.
Qed.


End SortFacts.

(** ** Paginator *)

Lemma py_range_cons (lo hi : Z) : lo < hi -> py_range lo hi = lo :: py_range (lo + 1) hi.
Proof.
  intros H. unfold py_range.
  replace (Z.to_nat (hi - lo)) with (S (Z.to_nat (hi - (lo + 1)))) by lia.
  simpl. f_equal; [lia|].
  rewrite <- seq_shift, map_map. apply map_ext. intros i. lia.
Qed.

Lemma py_range_nil (lo hi : Z) : hi <= lo -> py_range lo hi = [].
Proof.
  intros H. unfold py_range. replace (Z.to_nat (hi - lo)) with O by lia. reflexivity.
Qed.

Lemma py_range_length (lo hi : Z) : lo <= hi -> Z.of_nat (length (py_range lo hi)) = hi - lo.
Proof. intros H. unfold py_range. rewrite length_map, length_seq. lia. Qed.

Lemma py_range_In (lo hi k : Z) : In k (py_range lo hi) <-> lo <= k < hi.
Proof.
  unfold py_range. rewrite in_map_iff. split.
  - intros [i [<- Hi]]. apply in_seq in Hi. lia.
  - intros H. exists (Z.to_nat (k - lo)). split; [lia|]. apply in_seq. lia.
Qed.

(** A prefix of a range is the range up to its length. *)
Lemma py_range_prefix (lo hi : Z) (done rest : list Z) :
  py_range lo hi = done ++ rest ->
  done = py_range lo (lo + Z.of_nat (length done)).
Proof.
  revert lo. induction done as [|p done IH]; intros lo H.
  - simpl. now rewrite py_range_nil by lia.
  - destruct (Z_lt_le_dec lo hi) as [Hlt|Hle].
    + rewrite py_range_cons in H by assumption. injection H as <- H.
      rewrite py_range_cons by (simpl length; lia). f_equal.
      rewrite (IH _ H) at 1. f_equal. simpl length. lia.
    + rewrite py_range_nil in H by assumption. discriminate.
Qed.

Section PaginatorFacts.

Variable client_request : request -> result json.
Context {S : Type}.
Variable path : string.
Variable per_page : Z.
Variable base_query : option (list (string * json)).
Variable body : Z -> json -> S -> result (ctl S).

Let rq := page_request path per_page base_query.
Let ends := ends_at client_request path per_page base_query.

Lemma scan_page_unfold (page : Z) (st : S) :
  scan_page client_request path per_page base_query body page st =
  match client_request (rq page) with
  | Raise e => Raise e
  | Ok payload =>
      match for_items body page (page_items payload) st with
      | Raise e => Raise e
      | Ok (Break st') => Ok (Finished st')
      | Ok (Continue st') =>
          Ok (if total_reached payload page || is_nil (page_items payload)
              then Finished st' else Running st')
      end
  end.
Proof.
  unfold scan_page, rq. destruct (client_request _) as [payload|e]; [|reflexivity].
  simpl. rewrite extract_list_items_spec. simpl. fold (page_items payload).
  destruct (for_items body page (page_items payload) st) as [[st'|st']|e];
    try reflexivity.
  simpl. rewrite stops_after_spec. simpl. fold (total_reached payload page).
  now destruct (page_items payload).
Qed.

Lemma scan_page_running (page : Z) (st st' : S) :
  scan_page client_request path per_page base_query body page st = Ok (Running st') ->
  ends page = false /\
  exists payload, client_request (rq page) = Ok payload /\
    for_items body page (page_items payload) st = Ok (Continue st').
Proof.
  rewrite scan_page_unfold. unfold ends, ends_at. fold rq.
  destruct (client_request (rq page)) as [payload|e]; [|discriminate].
  destruct (for_items body page (page_items payload) st) as [[s1|s1]|e] eqn:Ef;
    try discriminate.
  destruct (total_reached payload page || is_nil (page_items payload));
    [discriminate|].
  intros [= ->]. split; [reflexivity|]. eauto.
Qed.

(** The requests of a run: the pages of a non-empty prefix [done] of
    [pages], in order; the generator did not end at any page of [done] but
    possibly the last; when pages are left over, the run is finished or
    has failed. *)
Lemma scan_pages_trace (pages : list Z) (st : S) (tr : list request)
    (r : result (flow S)) (tr' : list request) :
  scan_pages client_request path per_page base_query body pages st tr = (r, tr') ->
  exists done rest,
    pages = done ++ rest /\
    tr' = tr ++ map rq done /\
    (forall p, In p (removelast done) -> ends p = false) /\
    (pages <> [] -> done <> []) /\
    (rest <> [] -> forall s, r <> Ok (Running s)).
Proof.
  revert st tr. induction pages as [|page pages IH]; intros st tr H; simpl in H.
  - injection H as <- <-. exists [], [].
    split; [reflexivity|]. split; [simpl; now rewrite app_nil_r|].
    split; [intros p []|]. split; [tauto|]. intros Hn. now contradiction Hn.
  - destruct (scan_page client_request path per_page base_query body page st)
      as [[st'|st']|e] eqn:E.
    + apply IH in H. destruct H as (done & rest & -> & -> & Hends & Hne & Hrest).
      exists (page :: done), rest. split; [reflexivity|].
      split; [simpl; now rewrite <- app_assoc|].
      split; [|split; [discriminate|exact Hrest]].
      intros p Hp. destruct done as [|d done]; [contradiction|].
      destruct Hp as [<-|Hp]; [|now apply Hends].
      now apply scan_page_running in E.
    + injection H as <- <-. exists [page], pages.
      repeat split; try discriminate; try contradiction.
    + injection H as <- <-. exists [page], pages.
      repeat split; try discriminate; try contradiction.
Qed.

(** With a consumer that takes every record, the run goes on until the
    generator ends or the pages are used up. *)
Lemma scan_pages_exhaustive (pages : list Z) (st : S) (tr : list request)
    (r : result (flow S)) (tr' : list request) :
  never_breaks body ->
  scan_pages client_request path per_page base_query body pages st tr = (r, tr') ->
  exists done rest,
    pages = done ++ rest /\
    tr' = tr ++ map rq done /\
    (rest = [] \/ exists p, List.last done p = p /\ In p done /\ ends p = true).
Proof.
  intros Hbody. revert st tr. induction pages as [|page pages IH]; intros st tr H;
    simpl in H.
  - injection H as <- <-. exists [], [].
    split; [reflexivity|]. split; [simpl; now rewrite app_nil_r|]. now left.
  - destruct (scan_page client_request path per_page base_query body page st)
      as [[st'|st']|e] eqn:E.
    + apply IH in H. destruct H as (done & rest & -> & -> & Hlast).
      exists (page :: done), rest. split; [reflexivity|].
      split; [simpl; now rewrite <- app_assoc|].
      destruct Hlast as [->|(p & Hl & Hin & Hp)]; [now left|right].
      exists p. destruct done as [|d done]; [contradiction|].
      repeat split; [exact Hl|now right|exact Hp].
    + injection H as <- <-. exists [page], pages.
      split; [reflexivity|]. split; [reflexivity|]. right. exists page.
      split; [reflexivity|]. split; [now left|].
      rewrite scan_page_unfold in E. unfold ends, ends_at. fold rq.
      destruct (client_request (rq page)) as [payload|]; [|reflexivity].
      assert (Hc : exists s, for_items body page (page_items payload) st = Ok (Continue s)).
      { clear E. generalize (page_items payload) st.
        intros items. induction items as [|it items IHi]; intros s0; simpl; eauto.
        destruct (Hbody page it s0) as [s1 ->]. simpl. apply IHi. }
      destruct Hc as [s Hc]. rewrite Hc in E.
      destruct (total_reached payload page || is_nil (page_items payload));
        [reflexivity|discriminate].
    + injection H as <- <-. exists [page], pages.
      split; [reflexivity|]. split; [reflexivity|]. right. exists page.
      split; [reflexivity|]. split; [now left|].
      rewrite scan_page_unfold in E. unfold ends, ends_at. fold rq.
      destruct (client_request (rq page)) as [payload|]; [|reflexivity].
      assert (Hc : exists s, for_items body page (page_items payload) st = Ok (Continue s)).
      { clear E. generalize (page_items payload) st.
        intros items. induction items as [|it items IHi]; intros s0; simpl; eauto.
        destruct (Hbody page it s0) as [s1 ->]. simpl. apply IHi. }
      destruct Hc as [s Hc]. rewrite Hc in E. 
      destruct (total_reached payload page || is_nil (page_items payload));
        discriminate.
Qed.

End PaginatorFacts.

(** ** The generator and its consumer *)

Section ConsumerFacts.

Variable client_request : request -> result json.
Context {S : Type}.
Variable path : string.
Variable per_page : Z.
Variable base_query : option (list (string * json)).
Variable body : Z -> json -> S -> result (ctl S).

Lemma for_items_cons {T : Type} (b : Z -> json -> T -> result (ctl T))
    (page : Z) (item : json) (items : list json) (st : T) :
  for_items b page (item :: items) st =
  match b page item st with
  | Raise e => Raise e
  | Ok (Break st') => Ok (Break st')
  | Ok (Continue st') => for_items b page items st'
  end.
Proof. simpl. now destruct (b page item st) as [[]|]. Qed.

Lemma logged_eq (page : Z) (item : json) (sl : S * list (Z * json)) :
  logged body page item sl =
  match body page item (fst sl) with
  | Raise e => Raise e
  | Ok c => Ok (ctl_map (fun s => (s, snd sl ++ [(page, item)])) c)
  end.
Proof. unfold logged. now destruct (body page item (fst sl)) as [[]|]. Qed.

(** The log does not change the run. *)
Lemma for_items_logged (page : Z) (items : list json) (sl : S * list (Z * json)) :
  result_map (ctl_map fst) (for_items (logged body) page items sl)
  = for_items body page items (fst sl).
Proof.
  revert sl. induction items as [|item items IH]; intros sl; [reflexivity|].
  rewrite !for_items_cons, logged_eq.
  destruct (body page item (fst sl)) as [[s|s]|e]; try reflexivity.
  apply IH.
Qed.

Lemma scan_page_logged (page : Z) (sl : S * list (Z * json)) :
  result_map (flow_map fst)
    (scan_page client_request path per_page base_query (logged body) page sl)
  = scan_page client_request path per_page base_query body page (fst sl).
Proof.
  rewrite !scan_page_unfold.
  destruct (client_request _) as [payload|e]; [|reflexivity].
  rewrite <- for_items_logged.
  destruct (for_items (logged body) page (page_items payload) sl) as [[s|s]|e];
    simpl; try reflexivity.
  now destruct (total_reached payload page || is_nil (page_items payload)).
Qed.

Lemma scan_pages_logged (pages : list Z) (sl : S * list (Z * json))
    (tr : list request) :
  (let '(r, tr') :=
     scan_pages client_request path per_page base_query (logged body) pages sl tr in
   (result_map (flow_map fst) r, tr'))
  = scan_pages client_request path per_page base_query body pages (fst sl) tr.
Proof.
  revert sl tr. induction pages as [|page pages IH]; intros sl tr; [reflexivity|].
  simpl. rewrite <- scan_page_logged.
  destruct (scan_page client_request path per_page base_query (logged body) page sl)
    as [[s|s]|e]; simpl; try reflexivity.
  apply IH.
Qed.

(** Invariants of the consumer's state: [Ic] holds as long as the loop
    continues, [Ib] after the [break]. *)
Lemma for_items_invariant (Ic Ib : S -> Prop) (page : Z) (items : list json)
    (st : S) (c : ctl S) :
  (forall item s c', In item items -> Ic s -> body page item s = Ok c' ->
                     match c' with Continue s' => Ic s' | Break s' => Ib s' end) ->
  Ic st -> for_items body page items st = Ok c ->
  match c with Continue s' => Ic s' | Break s' => Ib s' end.
Proof.
  revert st. induction items as [|item items IH]; intros st Hstep HI H.
  - simpl in H. now injection H as <-.
  - rewrite for_items_cons in H.
    destruct (body page item st) as [[s|s]|e] eqn:E; try discriminate.
    + apply (IH s); auto.
      * intros it s0 c' Hin. apply Hstep. now right.
      * apply (Hstep item st (Continue s)); auto. now left.
    + injection H as <-. apply (Hstep item st (Break s)); auto. now left.
Qed.

(** At the end of a run either [Ic] holds, or the consumer broke at the
    page [p] of the last request and [Ib p] holds. *)
Lemma scan_pages_invariant (Ic : S -> Prop) (Ib : Z -> S -> Prop)
    (pages : list Z) (st : S) (tr : list request) (f : flow S)
    (tr' : list request) :
  (forall page item s c,
     yields client_request path per_page base_query page item ->
     Ic s -> body page item s = Ok c ->
     match c with Continue s' => Ic s' | Break s' => Ib page s' end) ->
  Ic st ->
  scan_pages client_request path per_page base_query body pages st tr = (Ok f, tr') ->
  Ic (flow_state f)
  \/ exists p tr0,
       tr' = tr0 ++ [page_request path per_page base_query p]
       /\ Ib p (flow_state f).
Proof.
  intros Hstep. revert st tr. induction pages as [|page pages IH]; intros st tr HI H;
    simpl in H.
  - injection H as <- <-. now left.
  - assert (Hp : forall f', scan_page client_request path per_page base_query body page st
                            = Ok f' ->
                 match f' with
                 | Running s => Ic s
                 | Finished s => Ic s \/ Ib page s
                 end).
    { intros f'. rewrite scan_page_unfold.
      destruct (client_request _) as [payload|e] eqn:Ec; [|discriminate].
      destruct (for_items body page (page_items payload) st) as [c|e] eqn:Ef;
        [|discriminate].
      assert (Hc : match c with Continue s' => Ic s' | Break s' => Ib page s' end).
      { apply (for_items_invariant Ic (Ib page) page (page_items payload) st c); auto.
        intros item s c' Hin. apply Hstep. exists payload. auto. }
      destruct c as [s|s].
      - destruct (total_reached payload page || is_nil (page_items payload));
          intros [= <-]; auto.
      - intros [= <-]. auto. }
    destruct (scan_page client_request path per_page base_query body page st)
      as [[s|s]|e] eqn:E.
    + apply (IH s _ (Hp _ eq_refl) H).
    + injection H as <- <-. destruct (Hp _ eq_refl) as [Hs|Hs]; [now left|].
      right. exists page, tr. auto.
    + discriminate.
Qed.

(** A consumer that does not raise on the yielded records makes the run
    succeed as long as the client answers. *)
Lemma scan_pages_succeeds (I : S -> Prop) (pages : list Z) (st : S)
    (tr : list request) :
  (forall rq, exists payload, client_request rq = Ok payload) ->
  (forall page item s,
     yields client_request path per_page base_query page item ->
     I s -> exists c, body page item s = Ok c /\ I (ctl_state c)) ->
  I st ->
  exists f tr', scan_pages client_request path per_page base_query body pages st tr
                = (Ok f, tr').
Proof.
  intros Hclient Hstep. revert st tr.
  induction pages as [|page pages IH]; intros st tr HI; simpl; [eauto|].
  assert (Hp : exists f, scan_page client_request path per_page base_query body page st
                         = Ok f /\ I (flow_state f)).
  { rewrite scan_page_unfold.
    destruct (Hclient (page_request path per_page base_query page)) as [payload Ec].
    rewrite Ec.
    assert (Hf : exists c, for_items body page (page_items payload) st = Ok c
                           /\ I (ctl_state c)).
    { assert (Hy : forall item, In item (page_items payload) ->
                     yields client_request path per_page base_query page item)
        by (intros item Hin; exists payload; auto).
      revert Hy st HI. generalize (page_items payload).
      induction l as [|item items IHi]; intros Hy st HI; simpl; [eauto|].
      destruct (Hstep page item st (Hy item (or_introl eq_refl)) HI) as [c [-> Hc]].
      simpl. destruct c as [s|s]; [|eauto].
      apply IHi; auto. intros it Hin. apply Hy. now right. }
    destruct Hf as [[s|s] [-> Hc]]; [|eauto].
    destruct (total_reached payload page || is_nil (page_items payload)); eauto. }
  destruct Hp as [[s|s] [-> Hs]]; eauto.
Qed.

End ConsumerFacts.

(** ** Ranker *)

Lemma app_snoc_split {A : Type} (l l1 l2 : list A) (a x : A) :
  l ++ [a] = l1 ++ x :: l2 ->
  (l2 = [] /\ l1 = l /\ x = a) \/ (exists l2', l2 = l2' ++ [a] /\ l = l1 ++ x :: l2').
Proof.
  intros H. destruct (@exists_last _ (x :: l2)) as (l2' & b & Hl); [discriminate|].
  rewrite Hl, app_assoc in H. apply app_inj_tail in H. destruct H as [-> ->].
  destruct l2' as [|y l2'].
  - left. injection Hl as -> ->. rewrite app_nil_r. auto.
  - right. injection Hl as <- ->. eauto.
Qed.

Lemma firstn_In {A : Type} (n : nat) (l : list A) (x : A) :
  In x (firstn n l) -> In x l.
Proof.
  revert n. induction l as [|y l IH]; intros [|n]; simpl; try tauto.
  intros [->|H]; [now left|right; eauto].
Qed.

Section SearchFacts.

Variable ratio : string -> string -> Q.
Variable py_repr : json -> string.
Variable ellipsis : string.
Variable client_request : request -> result json.

Lemma iter_paginated_unfold {S : Type} (path : string) (per_page max_pages : Z)
    (base_query : option (list (string * json)))
    (body : Z -> json -> S -> result (ctl S)) (st : S) :
  _iter_paginated client_request path per_page max_pages base_query body st =
  (let '(r, tr) :=
     scan_pages client_request path (clamp_per_page per_page) base_query body
       (py_range 1 (clamp_max_pages max_pages + 1)) st [] in
   (result_map flow_state r, tr)).
Proof.
  unfold _iter_paginated, clamp_per_page, clamp_max_pages.
  now destruct (scan_pages _ _ _ _ _ _ _ _) as [[f|e] tr].
Qed.

(** The log does not change what [_iter_paginated] returns. *)
Lemma iter_paginated_logged {S : Type} (path : string) (per_page max_pages : Z)
    (base_query : option (list (string * json)))
    (body : Z -> json -> S -> result (ctl S)) (sl : S * list (Z * json)) :
  _iter_paginated client_request path per_page max_pages base_query body (fst sl) =
  (let '(r, tr) :=
     _iter_paginated client_request path per_page max_pages base_query
       (logged body) sl in
   (result_map fst r, tr)).
Proof.
  rewrite !iter_paginated_unfold.
  rewrite <- (scan_pages_logged client_request path (clamp_per_page per_page)
                base_query body _ sl []).
  destruct (scan_pages _ _ _ _ (logged body) _ _ _) as [[[s|s]|e] tr]; reflexivity.
Qed.

Section OneSearch.

Variables (path kind query : string) (limit per_page : Z) (min_score : Q).

Let body := search_body ratio py_repr kind query limit min_score.
Let accepted := accepted_of ratio py_repr kind query min_score.
Let exit_test := early_exit ratio py_repr kind query limit min_score.

(** One step of the loop: the counters, the accepted matches and the
    [break]. *)
Lemma search_body_spec (page : Z) (attrs : json) (st : scan_state)
    (c : ctl scan_state) :
  body page attrs st = Ok c ->
  candidates_scanned (ctl_state c) = candidates_scanned st + 1
  /\ pages_scanned (ctl_state c) = pages_scanned st ∪ {[page]}
  /\ scored (ctl_state c) = scored st ++ accepted attrs
  /\ is_break c =
     match best_score_of ratio py_repr kind query attrs with
     | Some (score, _) =>
         Qle_bool (995 # 10) score
         && (limit <=? Z.of_nat (length (scored st ++ accepted attrs)))
     | None => false
     end.
Proof.
  unfold body, accepted, search_body, accepted_of, best_score_of, fields_of.
  assert (Hrec : forall fields st1,
    let c' := score_record ratio py_repr query limit min_score attrs fields st1 in
    let '(score, matched_on) := best_of ratio py_repr query fields in
    let acc := if Qltb score min_score then [] else [(score, attrs, matched_on)] in
    candidates_scanned (ctl_state c') = candidates_scanned st1
    /\ pages_scanned (ctl_state c') = pages_scanned st1
    /\ scored (ctl_state c') = scored st1 ++ acc
    /\ is_break c' =
       Qle_bool (995 # 10) score
       && (limit <=? Z.of_nat (length (scored st1 ++ acc)))).
  { intros fields st1. unfold score_record, consider.
    destruct (best_of ratio py_repr query fields) as [score matched_on].
    destruct (Qltb score min_score); simpl; rewrite ?app_nil_r;
      match goal with |- context [if ?b then Break _ else Continue _] =>
        destruct b eqn:E end; simpl; rewrite ?app_nil_r in *; auto. }
  destruct (String.eqb kind "user").
  - destruct (user_fields py_repr attrs) as [fields|e]; [|discriminate].
    simpl. intros [= <-]. specialize (Hrec fields). cbv zeta in Hrec.
    destruct (best_of ratio py_repr query fields) as [score matched_on].
    exact (Hrec _).
  - destruct (String.eqb kind "server").
    + destruct (server_fields py_repr attrs) as [fields|e]; [|discriminate].
      simpl. intros [= <-]. specialize (Hrec fields). cbv zeta in Hrec.
      destruct (best_of ratio py_repr query fields) as [score matched_on].
      exact (Hrec _).
    + intros [= <-]. simpl. rewrite app_nil_r. auto.
Qed.

(** On a mapping the step does not raise. *)
Lemma search_body_total (page : Z) (attrs : json) (st : scan_state) :
  is_dict attrs -> exists c, body page attrs st = Ok c.
Proof.
  intros Hd. destruct attrs; try discriminate.
  unfold body, search_body.
  destruct (String.eqb kind "user"); [simpl; eauto|].
  destruct (String.eqb kind "server"); simpl; eauto.
Qed.

Lemma page_items_dict (payload item : json) :
  In item (page_items payload) -> is_dict item.
Proof.
  intros Hin. destruct (extract_list_items_total payload) as [items [He Hf]].
  rewrite extract_list_items_spec in He. injection He as <-.
  rewrite List.Forall_forall in Hf. now apply Hf.
Qed.

Variable max_pages : Z.

Let agrees :=
  log_agrees ratio py_repr client_request path kind query
    (clamp_per_page per_page) min_score.
Let Ic (sl : scan_state * list (Z * json)) : Prop :=
  agrees sl /\ no_exit ratio py_repr kind query limit min_score (snd sl).
Let Ib (p : Z) (sl : scan_state * list (Z * json)) : Prop :=
  agrees sl /\ exit_at ratio py_repr kind query limit min_score p (snd sl).

Lemma logged_body_step (page : Z) (item : json)
    (sl : scan_state * list (Z * json)) (c : ctl (scan_state * list (Z * json))) :
  yields client_request path (clamp_per_page per_page) None page item ->
  Ic sl -> logged body page item sl = Ok c ->
  match c with Continue s' => Ic s' | Break s' => Ib page s' end.
Proof.
  intros Hy [(A1 & A2 & A3 & A4) Hno]. rewrite logged_eq.
  destruct (body page item (fst sl)) as [c0|e] eqn:E; [|discriminate].
  intros [= <-]. apply search_body_spec in E. destruct E as (H1 & H2 & H3 & H4).
  destruct sl as [st log]. simpl in *.
  assert (Hag : forall s, candidates_scanned s = candidates_scanned st + 1 ->
                  pages_scanned s = pages_scanned st ∪ {[page]} ->
                  scored s = scored st ++ accepted item ->
                  agrees (s, log ++ [(page, item)])).
  { intros s E1 E2 E3. unfold agrees, log_agrees. simpl.
    rewrite E1, E2, E3, A1, A2, A3, length_app, !map_app. simpl.
    repeat split.
    - lia.
    - rewrite list_to_set_app_L. simpl. now rewrite union_empty_r_L.
    - unfold accepted_among. rewrite flat_map_app. simpl.
      now rewrite app_nil_r.
    - apply Forall_app. split; [exact A4|]. constructor; [exact Hy|constructor]. }
  assert (Hex : early_exit ratio py_repr kind query limit min_score (map snd log) item
                = is_break c0).
  { rewrite H4. unfold early_exit, accepted_among.
    rewrite flat_map_app. simpl. rewrite app_nil_r.
    rewrite A3. reflexivity. }
  destruct c0 as [s|s]; simpl in *.
  - split; [now apply Hag|].
    intros l1 x l2 Hl. apply app_snoc_split in Hl.
    destruct Hl as [(-> & -> & ->)|(l2' & -> & ->)]; [exact Hex|].
    now apply (Hno l1 x l2').
  - split; [now apply Hag|]. exists log, item. auto.
Qed.

(** The logged run of the loop of a search: it returns what the loop
    returns, its log agrees with the final state, and either no record met
    the early-exit test or the last one did, on the page of the last
    request. *)
Lemma search_loop_run :
  match _iter_paginated client_request path per_page max_pages None
          (logged body) (scan_start, []) with
  | (Ok sl, tr) =>
      _iter_paginated client_request path per_page max_pages None body scan_start
      = (Ok (fst sl), tr)
      /\ agrees sl
      /\ (no_exit ratio py_repr kind query limit min_score (snd sl)
          \/ exists p tr0,
               tr = tr0 ++ [page_request path (clamp_per_page per_page) None p]
               /\ exit_at ratio py_repr kind query limit min_score p (snd sl))
  | (Raise e, tr) =>
      _iter_paginated client_request path per_page max_pages None body scan_start
      = (Raise e, tr)
  end.
Proof.
  pose proof (iter_paginated_logged path per_page max_pages None body
                (scan_start, [])) as Hl.
  simpl fst in Hl. rewrite Hl. clear Hl.
  rewrite iter_paginated_unfold.
  destruct (scan_pages client_request path (clamp_per_page per_page) None
              (logged body) (py_range 1 (clamp_max_pages max_pages + 1))
              (scan_start, []) []) as [[f|e] tr] eqn:E; [|reflexivity].
  simpl. split; [reflexivity|].
  apply (scan_pages_invariant client_request path (clamp_per_page per_page) None
           (logged body) Ic Ib) in E.
  - destruct E as [[Ha Hn]|(p & tr0 & -> & Ha & He)]; split; eauto.
  - intros page item s c Hy. now apply logged_body_step.
  - split.
    + unfold agrees, log_agrees. simpl. repeat split. constructor.
    + intros l1 x l2 Hl. now destruct l1.
Qed.

End OneSearch.

Lemma compact_user_total (attrs : json) (score : Q) (matched_on : option string) :
  is_dict attrs ->
  exists m, _compact_user py_repr attrs (Some score) matched_on = Ok m
            /\ reported_score m = Some (Py.round1 score).
Proof.
  intros Hd. destruct attrs; try discriminate.
  unfold _compact_user. simpl. eexists. split; reflexivity.
Qed.

Lemma compact_server_total (attrs : json) (score : Q) (matched_on : option string) :
  is_dict attrs ->
  exists m, _compact_server py_repr ellipsis attrs (Some score) matched_on = Ok m
            /\ reported_score m = Some (Py.round1 score).
Proof.
  intros Hd. destruct attrs; try discriminate.
  unfold _compact_server. simpl. eexists. split; reflexivity.
Qed.

Lemma summarize_total (kind : string) (l : list (Q * json * option string)) :
  Forall (fun t => is_dict (snd (fst t))) l ->
  exists ms, summarize py_repr ellipsis kind l = Ok ms /\ Forall2 reports ms l.
Proof.
  induction 1 as [|[[score attrs] matched_on] l Hd _ (ms & IH & HF)].
  - exists []. split; [reflexivity|constructor].
  - simpl in Hd.
    assert (Hm : exists m,
               (if String.eqb kind "user"
                then _compact_user py_repr attrs (Some score) matched_on
                else _compact_server py_repr ellipsis attrs (Some score) matched_on)
               = Ok m /\ reported_score m = Some (Py.round1 score)).
    { destruct (String.eqb kind "user");
        [now apply compact_user_total|now apply compact_server_total]. }
    destruct Hm as (m & Hm & Hr). exists (m :: ms). split.
    + change (summarize py_repr ellipsis kind ((score, attrs, matched_on) :: l))
        with ((if String.eqb kind "user"
               then _compact_user py_repr attrs (Some score) matched_on
               else _compact_server py_repr ellipsis attrs (Some score) matched_on)
              ≫= fun m => summarize py_repr ellipsis kind l ≫= fun ms => Ok (m :: ms)).
      rewrite Hm. simpl. rewrite IH. reflexivity.
    + constructor; [exact Hr|exact HF].
Qed.

Lemma top_matches_In (limit : Z) (st : scan_state) (t : Q * json * option string) :
  In t (top_matches limit st) -> In t (scored st).
Proof.
  unfold top_matches. intros H. apply firstn_In in H.
  now apply (Permutation_in _ (sort_desc_perm _ _)) in H.
Qed.

(** The end of a search does not raise when the kept records are mappings. *)
Lemma finalize_spec (kind query : string) (limit : Z) (st : scan_state) :
  query <> "" ->
  Forall (fun t => is_dict (snd (fst t))) (scored st) ->
  exists ms,
    finalize py_repr ellipsis kind query limit st
    = Ok (search_result query ms (candidates_scanned st)
            (Z.of_nat (size (pages_scanned st))))
    /\ Forall2 reports ms (top_matches limit st).
Proof.
  intros Hq Hd. unfold finalize.
  destruct (summarize_total kind (top_matches limit st)) as (ms & -> & HF).
  { rewrite List.Forall_forall in *. intros t Ht. apply Hd.
    now apply top_matches_In in Ht. }
  exists ms. split; [|exact HF]. simpl. unfold search_result.
  destruct query; [contradiction|reflexivity].
Qed.

Lemma accepted_of_attrs (kind query : string) (min_score : Q) (attrs : json)
    (t : Q * json * option string) :
  In t (accepted_of ratio py_repr kind query min_score attrs) ->
  snd (fst t) = attrs
  /\ (min_score <= match_score t)%Q
  /\ best_score_of ratio py_repr kind query attrs = Some (match_score t, snd t).
Proof.
  unfold accepted_of.
  destruct (best_score_of ratio py_repr kind query attrs) as [[score matched_on]|];
    [|contradiction].
  destruct (Qltb score min_score) eqn:E; [contradiction|].
  intros [<-|[]]. apply Qltb_false in E. auto.
Qed.

End SearchFacts.


Lemma lstrip_empty_iff (s : string) :
  PyStr.lstrip s = "" <-> PyStr.all_chars PyStr.is_space s = true.
Proof.
  induction s as [|c s IH]; simpl; [tauto|].
  destruct (PyStr.is_space c); simpl; [exact IH|]. split; discriminate.
Qed.

Lemma rstrip_empty_iff (s : string) :
  PyStr.rstrip s = "" <-> PyStr.all_chars PyStr.is_space s = true.
Proof.
  induction s as [|c s IH]; simpl; [tauto|].
  destruct (PyStr.is_space c); simpl.
  - rewrite <- IH. destruct (PyStr.rstrip s); simpl; split; congruence.
  - split; discriminate.
Qed.

Lemma lstrip_all_space (s : string) :
  PyStr.all_chars PyStr.is_space (PyStr.lstrip s)
  = PyStr.all_chars PyStr.is_space s.
Proof.
  induction s as [|c s IH]; simpl; [reflexivity|].
  destruct (PyStr.is_space c) eqn:E; simpl; [exact IH|]. now rewrite E.
Qed.

(** The trimmed text is empty exactly for a text of blanks only. *)
Lemma strip_empty_iff (s : string) :
  PyStr.strip s = "" <-> PyStr.all_chars PyStr.is_space s = true.
Proof.
  unfold PyStr.strip. now rewrite rstrip_empty_iff, lstrip_all_space.
Qed.

Lemma py_range_snoc (lo hi : Z) : lo <= hi ->
  py_range lo (hi + 1) = py_range lo hi ++ [hi].
Proof.
  intros H. unfold py_range.
  replace (Z.to_nat (hi + 1 - lo)) with (S (Z.to_nat (hi - lo))) by lia.
  rewrite seq_S, map_app. simpl. do 2 f_equal. lia.
Qed.

Lemma size_distinct (l : list Z) :
  size (list_to_set l : gset Z) = length (remove_dups l).
Proof.
  rewrite <- (size_list_to_set (C := gset Z) (remove_dups l))
    by apply NoDup_remove_dups.
  f_equal. apply set_eq. intros x.
  now rewrite !elem_of_list_to_set, elem_of_remove_dups.
Qed.

Lemma clamps_in_range (limit per_page max_pages : Z) :
  1 <= clamp_limit limit <= 50
  /\ 1 <= clamp_per_page per_page <= 100
  /\ 1 <= clamp_max_pages max_pages
  /\ max_pages <= clamp_max_pages max_pages.
Proof. unfold clamp_limit, clamp_per_page, clamp_max_pages. lia. Qed.

Section TraceFacts.

Variable client_request : request -> result json.
Context {S : Type}.
Variables (path : string) (per_page max_pages : Z).
Variable base_query : option (list (string * json)).
Variable body : Z -> json -> S -> result (ctl S).
Variable st : S.

(** The requests of [_iter_paginated]: the pages 1 to [n] in order, for
    some [n] from 1 to the page budget, the generator not ending at a page
    before [n]; with a consumer that takes every record, [n] is the budget
    or the page where the generator ends. *)
Lemma iter_paginated_trace :
  exists n,
    1 <= n <= clamp_max_pages max_pages
    /\ snd (_iter_paginated client_request path per_page max_pages base_query body st)
       = requests_upto path (clamp_per_page per_page) base_query n
    /\ (forall k, 1 <= k < n ->
        ends_at client_request path (clamp_per_page per_page) base_query k = false)
    /\ (never_breaks body ->
        n = clamp_max_pages max_pages
        \/ ends_at client_request path (clamp_per_page per_page) base_query n = true).
Proof.
  rewrite iter_paginated_unfold.
  set (pp := clamp_per_page per_page). set (mp := clamp_max_pages max_pages).
  assert (Hmp : 1 <= mp) by (unfold mp, clamp_max_pages; lia).
  destruct (scan_pages client_request path pp base_query body
              (py_range 1 (mp + 1)) st []) as [r tr] eqn:E.
  pose proof E as E'.
  apply scan_pages_trace in E.
  destruct E as (done & rest & Hsplit & -> & Hends & Hne & _).
  pose proof (py_range_prefix _ _ _ _ Hsplit) as Hdone.
  assert (Hlen : 1 <= Z.of_nat (length done) <= mp).
  { split.
    - destruct done; [|simpl; lia]. exfalso. apply Hne; [|reflexivity].
      rewrite py_range_cons by lia. discriminate.
    - apply (f_equal (@length Z)) in Hsplit. rewrite length_app in Hsplit.
      pose proof (py_range_length 1 (mp + 1)). lia. }
  set (n := Z.of_nat (length done)) in *.
  exists n. split; [exact Hlen|]. simpl.
  split; [unfold requests_upto; now rewrite Hdone, Z.add_comm|].
  split.
  - intros k Hk. apply Hends. rewrite Hdone.
    replace (1 + n) with (n + 1) by lia.
    rewrite py_range_snoc by lia. rewrite removelast_last.
    apply py_range_In. lia.
  - intros Hnb. apply (scan_pages_exhaustive _ _ _ _ _ _ _ _ _ _ Hnb) in E'.
    destruct E' as (done' & rest' & Hsplit' & Htr & Hlast).
    assert (done' = done).
    { apply app_inv_head in Htr.
      assert (Hl : length done' = length done)
        by (apply (f_equal (@length request)) in Htr; now rewrite !length_map in Htr).
      rewrite Hsplit in Hsplit'.
      apply (f_equal (firstn (length done))) in Hsplit'.
      rewrite firstn_app, Nat.sub_diag, firstn_all in Hsplit'.
      rewrite <- Hl, firstn_app, Nat.sub_diag, firstn_all in Hsplit'.
      simpl in Hsplit'. now rewrite !app_nil_r in Hsplit'. }
    subst done'.
    destruct Hlast as [->|(p & Hl & _ & Hp)].
    + left. rewrite app_nil_r in Hsplit'.
      apply (f_equal (@length Z)) in Hsplit'.
      pose proof (py_range_length 1 (mp + 1)). lia.
    + right. rewrite Hdone in Hl.
      replace (1 + n) with (n + 1) in Hl by lia.
      rewrite py_range_snoc in Hl by lia. rewrite last_last in Hl. now subst p.
Qed.

End TraceFacts.


(** ** Searches *)

Section SearchTheorems.

Variable ratio : string -> string -> Q.
Variable py_repr : json -> string.
Variable ellipsis : string.
Variable client_request : request -> result json.
Variables (path query kind : string) (limit max_pages per_page : Z) (min_score : Q).

Let q := PyStr.strip query.
Let lim := clamp_limit limit.
Let pp := clamp_per_page per_page.
Let mp := clamp_max_pages max_pages.
Let rq := page_request path pp None.
Let log :=
  search_log ratio py_repr client_request path query limit max_pages per_page
    min_score kind.
Let accepted :=
  search_accepted ratio py_repr client_request path query limit max_pages per_page
    min_score kind.
Let top :=
  search_top ratio py_repr client_request path query limit max_pages per_page
    min_score kind.
Let search :=
  _fuzzy_search ratio py_repr ellipsis client_request path query limit max_pages
    per_page min_score kind.

Lemma fuzzy_search_empty : q = "" ->
  search = (Raise (ValueError "query must be a non-empty string"), []).
Proof.
  unfold search, _fuzzy_search. fold q. intros ->. reflexivity.
Qed.

Lemma fuzzy_search_unfold : q <> "" ->
  search =
  match _iter_paginated client_request path per_page max_pages None
          (search_body ratio py_repr kind q lim min_score) scan_start with
  | (Ok st, tr) => (finalize py_repr ellipsis kind q lim st, tr)
  | (Raise e, tr) => (Raise e, tr)
  end.
Proof.
  unfold search, _fuzzy_search. fold q. intros Hq.
  apply is_empty_false in Hq. rewrite Hq. reflexivity.
Qed.

Lemma search_ok_query (out : json) : fst search = Ok out -> q <> "".
Proof.
  intros H Hq. rewrite (fuzzy_search_empty Hq) in H. discriminate.
Qed.


(** A search that gets past the query check either fails in the loop,
    with an empty log, or returns the summaries of the top accepted matches
    of its log with the statistics of the log. *)
Lemma search_outcome : q <> "" ->
  (exists e, fst search = Raise e /\ log = []
             /\ fst (_iter_paginated client_request path per_page max_pages None
                       (search_body ratio py_repr kind q lim min_score) scan_start)
                = Raise e)
  \/ (exists ms,
        fst search
        = Ok (search_result q ms (Z.of_nat (length log))
                (Z.of_nat (size (list_to_set (map fst log) : gset Z))))
        /\ Forall2 reports ms top
        /\ Forall (fun pr => yields client_request path pp None (fst pr) (snd pr)) log
        /\ (no_exit ratio py_repr kind q lim min_score log
            \/ exists p tr0,
                 snd search = tr0 ++ [rq p]
                 /\ exit_at ratio py_repr kind q lim min_score p log)).
Proof.
  intros Hq. rewrite (fuzzy_search_unfold Hq).
  pose proof (search_loop_run ratio py_repr client_request path kind q lim
                per_page min_score max_pages) as Hrun.
  unfold top, search_top, accepted, search_accepted, log, search_log. fold q lim.
  rewrite (proj2 (is_empty_false q) Hq).
  destruct (_iter_paginated client_request path per_page max_pages None
              (logged (search_body ratio py_repr kind q lim min_score))
              (scan_start, [])) as [[[st lg]|e] tr].
  - destruct Hrun as (-> & (A1 & A2 & A3 & A4) & Hex). simpl in *. right.
    destruct (finalize_spec py_repr ellipsis kind q lim st Hq) as (ms & Hfin & HF).
    { rewrite A3. unfold accepted_among. rewrite List.Forall_forall.
      intros t Ht. apply in_flat_map in Ht. destruct Ht as (attrs & Hin & Ht).
      apply accepted_of_attrs in Ht. destruct Ht as (-> & _).
      apply in_map_iff in Hin. destruct Hin as ([p a] & <- & Hin).
      rewrite List.Forall_forall in A4. destruct (A4 _ Hin) as (payload & _ & Hi).
      now apply page_items_dict in Hi. }
    exists ms. rewrite Hfin, A1, A2. simpl. split; [reflexivity|].
    split; [|split; [exact A4|exact Hex]].
    unfold top_matches in HF. now rewrite A3 in HF.
  - rewrite Hrun. left. exists e. auto.
Qed.

(** A search with a non-empty query completes when the client answers
    every request. *)
Lemma search_completes : q <> "" ->
  (forall r, exists payload, client_request r = Ok payload) ->
  exists out, fst search = Ok out.
Proof.
  intros Hq Hclient.
  destruct (search_outcome Hq) as [(e & _ & _ & He)|(ms & Hs & _)]; [|eauto].
  exfalso. rewrite iter_paginated_unfold in He.
  destruct (scan_pages_succeeds client_request path (clamp_per_page per_page) None
              (search_body ratio py_repr kind q lim min_score) (fun _ => True)
              (py_range 1 (clamp_max_pages max_pages + 1)) scan_start [] Hclient)
    as (f & tr & Hrun); [|exact I|].
  - intros page item s (payload & _ & Hin) _.
    apply page_items_dict in Hin.
    destruct (search_body_total ratio py_repr kind q lim min_score page item s Hin)
      as [c Hc].
    eauto.
  - rewrite Hrun in He. discriminate.
Qed.

(** C4. A query that is empty or made of blanks only is rejected with the
    [ValueError] of the query check, and no request has been sent: no page
    is fetched and no record is scanned. *)
Theorem empty_query_rejected :
  PyStr.all_chars PyStr.is_space query = true ->
  PyStr.strip query = ""
  /\ search = (Raise (ValueError "query must be a non-empty string"), []).
Proof.
  intros H. apply strip_empty_iff in H. split; [exact H|].
  now apply fuzzy_search_empty.
Qed.

Lemma search_trace : q <> "" ->
  snd search
  = snd (_iter_paginated client_request path per_page max_pages None
           (search_body ratio py_repr kind q lim min_score) scan_start).
Proof.
  intros Hq. rewrite (fuzzy_search_unfold Hq).
  now destruct (_iter_paginated _ _ _ _ _ _ _) as [[st|e] tr].
Qed.


(** C10. In the result of a completed search [scanned.items] is the number
    of pairs that the paginator yielded to the loop, whether the record was
    accepted or not, and [scanned.pages] is the number of distinct page
    numbers among them; every such pair is a record of the payload of its
    page, so that a page fetched with zero records counts in neither. *)
Theorem scan_statistics (out : json) :
  fst search = Ok out ->
  member (member out "scanned") "items" = JInt (Z.of_nat (length log))
  /\ member (member out "scanned") "pages"
     = JInt (Z.of_nat (length (remove_dups (map fst log))))
  /\ (forall p attrs, In (p, attrs) log -> yields client_request path pp None p attrs)
  /\ (forall p payload,
        client_request (rq p) = Ok payload -> page_items payload = [] ->
        ~ In p (map fst log))
  /\ (length accepted <= length log)%nat.
Proof.
  intros Hout. pose proof (search_ok_query out Hout) as Hq.
  destruct (search_outcome Hq) as [(e & He & _)|(ms & Hs & _ & Hy & _)];
    [congruence|].
  rewrite Hs in Hout. injection Hout as <-.
  rewrite List.Forall_forall in Hy.
  split; [reflexivity|]. split; [simpl; now rewrite size_distinct|].
  split; [intros p attrs Hin; exact (Hy _ Hin)|]. split.
  - intros p payload Hc Hnil Hin. apply in_map_iff in Hin.
    destruct Hin as ([p' attrs] & Hp & Hin). simpl in Hp. subst p'.
    destruct (Hy _ Hin) as (payload' & Hc' & Hi). simpl in *.
    fold pp rq in Hc'. rewrite Hc in Hc'. injection Hc' as <-.
    now rewrite Hnil in Hi.
  - unfold accepted, search_accepted. fold log q.
    rewrite <- (length_map snd log). generalize (map snd log). intros l.
    unfold accepted_among.
    induction l as [|a l IH]; simpl; [lia|]. rewrite length_app.
    assert (length (accepted_of ratio py_repr kind q min_score a) <= 1)%nat; [|lia].
    unfold accepted_of.
    destruct (best_score_of ratio py_repr kind q a) as [[sc mo]|]; [|simpl; lia].
    destruct (Qltb sc min_score); simpl; lia.
Qed.


(** C8, amended. Extraction degrades on a malformed envelope and never
    raises: whatever the payload, the item list, the pagination mapping and
    the stopping test are computed without an exception; when [data] is absent
    or not a list the page is empty; a mapping in [data] without an
    [attributes] mapping is itself the record (an element that is not a
    mapping yields no record); when [meta.pagination] is absent or is not a
    mapping, or its [total_pages] is not an integer, the total is unknown
    and the zero-items rule alone decides the stop. A search whose requests
    are all answered, with payloads of any shape, therefore completes. *)
Theorem envelope_degrades (payload : json) :
  (exists items, _extract_list_items payload = Ok items /\ Forall is_dict items) /\
  (exists p, _extract_pagination payload = Ok p /\ is_dict p) /\
  (forall page items, exists b, stops_after payload page items = Ok b) /\
  (Py.isinstance_list (member payload "data") = false ->
   _extract_list_items payload = Ok []) /\
  (forall l, member payload "data" = JList l ->
   _extract_list_items payload = Ok (flat_map record_of_item l)) /\
  (forall item, is_dict item ->
   Py.isinstance_dict (member item "attributes") = false ->
   record_of_item item = [item]) /\
  (declared_pagination payload = None ->
   _extract_pagination payload = Ok (JDict []) /\
   forall page items,
     stops_after payload page items = Ok (negb (Py.truthy (JList items)))) /\
  (forall p, declared_pagination payload = Some p ->
   Py.isinstance_int (member p "total_pages") = false ->
   forall page items,
     stops_after payload page items = Ok (negb (Py.truthy (JList items)))) /\
  (q <> "" -> (forall r, exists answer, client_request r = Ok answer) ->
   exists out, fst search = Ok out).
Proof.
  pose proof (extraction_degrades payload) as (H1 & H2 & H3 & H4 & H5 & H6 & H7 & H8).
  repeat (split; [assumption|]). apply search_completes.
Qed.

End SearchTheorems.

(** ** The properties on the sample panel *)


Lemma empty_query_rejected_witness :
  _fuzzy_search Difflib.ratio repr_unused ellipsis_utf8 sample_panel
    users_path "   " 10 5 100 55 "user"
  = (Raise (ValueError "query must be a non-empty string"), []).
Proof.
  apply (empty_query_rejected Difflib.ratio repr_unused ellipsis_utf8 sample_panel
           users_path "   " "user" 10 5 100 55).
  reflexivity.
Defined.

Lemma scan_statistics_witness :
  exists out,
    fst (_fuzzy_search Difflib.ratio repr_unused ellipsis_utf8 sample_panel
           users_path "john" 10 5 100 55 "user") = Ok out
    /\ member (member out "scanned") "items"
       = JInt (Z.of_nat (length
           (search_log Difflib.ratio repr_unused sample_panel users_path "john"
              10 5 100 55 "user"))).
Proof.
  eexists.
  assert (Hout : fst (_fuzzy_search Difflib.ratio repr_unused ellipsis_utf8
                        sample_panel users_path "john" 10 5 100 55 "user")
                 = Ok _) by (vm_compute; reflexivity).
  split; [exact Hout|].
  apply (scan_statistics Difflib.ratio repr_unused ellipsis_utf8 sample_panel
           users_path "john" "user" 10 5 100 55 _ Hout).
Defined.

(** On the sample panel: three records scanned on two pages, although
    three pages were requested. *)
Example sample_search :
  _fuzzy_search Difflib.ratio repr_unused ellipsis_utf8 sample_panel
    users_path "john" 10 5 100 55 "user"
  = (Ok (search_result "john"
           [JDict [("score", JFloat (1000 # 10)); ("matched_on", JStr "username");
                   ("id", JInt 3); ("username", JStr "john");
                   ("name", JStr "Johnny Doe")];
            JDict [("score", JFloat (908 # 10)); ("matched_on", JStr "name");
                   ("id", JInt 1); ("username", JStr "jsmith");
                   ("name", JStr "John Smith")]]
           3 2),
     requests_upto users_path 100 None 3).
Proof. vm_compute. reflexivity. Qed.

(** A panel that answers every request with a payload without [data]. *)
Lemma envelope_degrades_witness :
  _extract_list_items (JDict [("data", JStr "oops")]) = Ok []
  /\ exists out,
       fst (_fuzzy_search Difflib.ratio repr_unused ellipsis_utf8
              (fun _ => Ok (JDict [("data", JStr "oops")]))
              users_path "john" 10 5 100 55 "user") = Ok out.
Proof.
  pose proof (envelope_degrades Difflib.ratio repr_unused ellipsis_utf8
                (fun _ => Ok (JDict [("data", JStr "oops")]))
                users_path "john" "user" 10 5 100 55
                (JDict [("data", JStr "oops")]))
    as (_ & _ & _ & H4 & _ & _ & _ & _ & H9).
  split.
  - apply H4. reflexivity.
  - apply H9; [vm_compute; discriminate|]. intros r. eexists. reflexivity.
Defined.

(** C8 as stated fails on an element of [data] that is not a mapping: it
    has no [attributes] mapping, and it is skipped instead of being used as
    the record. *)
Lemma non_mapping_item_skipped :
  Py.isinstance_dict (member (JInt 42) "attributes") = false
  /\ _extract_list_items (JDict [("data", JList [JInt 42])]) = Ok []
  /\ _extract_list_items (JDict [("data", JList [JInt 42])]) <> Ok [JInt 42].
Proof. repeat split. discriminate. Qed.

(** The page budget bounds the requests although three pages are
    declared. *)
Example budget_bounds_requests :
  snd (ptero_ai_search_users Difflib.ratio repr_unused ellipsis_utf8 sample_panel
         "smith" default_limit 1 default_per_page default_min_score)
  = requests_upto users_path 100 None 1.
Proof. vm_compute. reflexivity. Qed.

(** A limit of 1 and the exact match "john" on page 2 end the scan there. *)
Example early_exit_example :
  ptero_ai_search_users Difflib.ratio repr_unused ellipsis_utf8 sample_panel
    "john" 1 default_max_pages default_per_page default_min_score
  = (Ok (search_result "john"
           [JDict [("score", JFloat (1000 # 10)); ("matched_on", JStr "username");
                   ("id", JInt 3); ("username", JStr "john");
                   ("name", JStr "Johnny Doe")]]
           3 2),
     requests_upto users_path 100 None 2).
Proof. vm_compute. reflexivity. Qed.

(** * Further properties *)

(** ** Characters *)

Lemma alnum_lower_fixed (c : ascii) :
  PyStr.is_alnum c = true -> PyStr.lower_char c = c.
Proof.
  destruct c as [[] [] [] [] [] [] [] []]; vm_compute; congruence.
Qed.

Lemma lower_char_idem (c : ascii) :
  PyStr.lower_char (PyStr.lower_char c) = PyStr.lower_char c.
Proof. destruct c as [[] [] [] [] [] [] [] []]; reflexivity. Qed.

Lemma lower_char_space (c : ascii) :
  PyStr.is_space (PyStr.lower_char c) = PyStr.is_space c.
Proof. destruct c as [[] [] [] [] [] [] [] []]; reflexivity. Qed.

Lemma space_not_alnum (c : ascii) : PyStr.is_space c = true -> PyStr.is_alnum c = false.
Proof.
  intros H. destruct (PyStr.is_alnum c) eqn:E; [|reflexivity].
  apply alnum_not_space in E. congruence.
Qed.

(** ** Normalizer: shape and idempotence *)

Lemma sub_space_cons (b : bool) (c : ascii) (s : string) :
  PyStr.sub_non_alnum " " b (String c s) =
  if PyStr.is_alnum c then String c (PyStr.sub_non_alnum " " false s)
  else if b then PyStr.sub_non_alnum " " true s
  else String " " (PyStr.sub_non_alnum " " true s).
Proof. reflexivity. Qed.

Lemma sub_loose (s : string) (b : bool) :
  loose_ok b (PyStr.sub_non_alnum " " b s) = true.
Proof.
  revert b. induction s as [|c s IH]; intros b; [reflexivity|].
  rewrite sub_space_cons. destruct (PyStr.is_alnum c) eqn:E.
  - simpl. rewrite E. apply IH.
  - destruct b; [apply IH|]. simpl. apply IH.
Qed.

Lemma loose_char (b : bool) (c : ascii) (s : string) :
  loose_ok b (String c s) = true ->
  (PyStr.is_alnum c = true /\ loose_ok false s = true)
  \/ (c = " "%char /\ b = false /\ loose_ok true s = true).
Proof.
  simpl. destruct (PyStr.is_alnum c); [auto|].
  intros H. apply andb_true_iff in H. destruct H as [H Hs].
  apply andb_true_iff in H. destruct H as [Hc Hb].
  apply Ascii.eqb_eq in Hc. apply negb_true_iff in Hb. auto.
Qed.

Lemma words_char (b : bool) (c : ascii) (s : string) :
  words_ok b (String c s) = true ->
  (PyStr.is_alnum c = true /\ words_ok false s = true)
  \/ (c = " "%char /\ b = false /\ words_ok true s = true).
Proof.
  simpl. destruct (PyStr.is_alnum c); [auto|].
  intros H. apply andb_true_iff in H. destruct H as [H Hs].
  apply andb_true_iff in H. destruct H as [Hc Hb].
  apply Ascii.eqb_eq in Hc. apply negb_true_iff in Hb. auto.
Qed.

Lemma lstrip_loose (s : string) (b : bool) :
  loose_ok b s = true -> loose_ok true (PyStr.lstrip s) = true.
Proof.
  revert b. induction s as [|c s IH]; intros b H; [reflexivity|].
  destruct (loose_char _ _ _ H) as [[Ha Hs]|(-> & -> & Hs)].
  - simpl. rewrite (alnum_not_space _ Ha). simpl. now rewrite Ha.
  - simpl. now apply (IH true).
Qed.

Lemma rstrip_words (s : string) (b : bool) :
  loose_ok b s = true ->
  PyStr.rstrip s = "" \/ words_ok b (PyStr.rstrip s) = true.
Proof.
  revert b. induction s as [|c s IH]; intros b H; [now left|].
  destruct (loose_char _ _ _ H) as [[Ha Hs]|(-> & -> & Hs)].
  - right. simpl. rewrite (alnum_not_space _ Ha). simpl. rewrite Ha.
    destruct (IH false Hs) as [->|Hw]; [reflexivity|exact Hw].
  - simpl. destruct (IH true Hs) as [->|Hw]; [now left|right].
    destruct (PyStr.rstrip s) eqn:E; [discriminate|]. simpl PyStr.is_empty.
    simpl. simpl in Hw. exact Hw.
Qed.

Lemma normalize_is_normal (text : string) : is_normal (_normalize text) = true.
Proof.
  unfold _normalize, _NON_ALNUM_RE_sub, PyStr.strip.
  pose proof (sub_loose (PyStr.lower text) false) as H.
  apply lstrip_loose in H. apply rstrip_words in H.
  destruct H as [->|H]; [reflexivity|].
  unfold is_normal. now destruct (PyStr.rstrip _).
Qed.

Lemma words_loose (s : string) (b : bool) : words_ok b s = true -> loose_ok b s = true.
Proof.
  revert b. induction s as [|c s IH]; intros b H; [reflexivity|].
  destruct (words_char _ _ _ H) as [[Ha Hs]|(-> & -> & Hs)]; simpl.
  - rewrite Ha. now apply IH.
  - now apply IH.
Qed.

Lemma loose_lower (s : string) (b : bool) : loose_ok b s = true -> PyStr.lower s = s.
Proof.
  revert b. induction s as [|c s IH]; intros b H; [reflexivity|].
  destruct (loose_char _ _ _ H) as [[Ha Hs]|(-> & -> & Hs)]; simpl.
  - rewrite (alnum_lower_fixed _ Ha). f_equal. now apply (IH false).
  - f_equal. now apply (IH true).
Qed.

Lemma words_sub (s : string) (b : bool) :
  words_ok b s = true -> PyStr.sub_non_alnum " " b s = s.
Proof.
  revert b. induction s as [|c s IH]; intros b H; [reflexivity|].
  rewrite sub_space_cons.
  destruct (words_char _ _ _ H) as [[Ha Hs]|(-> & -> & Hs)].
  - rewrite Ha. f_equal. now apply IH.
  - simpl. f_equal. now apply IH.
Qed.

Lemma words_rstrip (s : string) (b : bool) :
  words_ok b s = true -> PyStr.rstrip s = s.
Proof.
  revert b. induction s as [|c s IH]; intros b H; [reflexivity|].
  destruct (words_char _ _ _ H) as [[Ha Hs]|(-> & -> & Hs)]; simpl.
  - rewrite (alnum_not_space _ Ha). simpl. f_equal. now apply (IH false).
  - rewrite (IH true Hs). destruct s; [discriminate|reflexivity].
Qed.

Lemma normal_fixed (s : string) : is_normal s = true -> _normalize s = s.
Proof.
  destruct s as [|c s]; [reflexivity|]. unfold is_normal. intros H.
  unfold _normalize, _NON_ALNUM_RE_sub, PyStr.strip.
  rewrite (loose_lower _ _ (words_loose _ _ H)).
  destruct (words_char _ _ _ H) as [[Ha Hs]|(_ & Hb & _)]; [|discriminate].
  rewrite sub_space_cons, Ha, (words_sub _ _ Hs).
  simpl PyStr.lstrip. rewrite (alnum_not_space _ Ha).
  now apply (words_rstrip _ true).
Qed.

(** X1. A normalized form is made of words of [a-z0-9] separated by single
    spaces, with no space at either end; [_normalize] leaves such a text
    unchanged, so that it is idempotent. *)
Theorem normalize_idempotent (text : string) :
  is_normal (_normalize text) = true
  /\ _normalize (_normalize text) = _normalize text
  /\ (forall s, is_normal s = true -> _normalize s = s).
Proof.
  split; [apply normalize_is_normal|].
  split; [apply normal_fixed, normalize_is_normal|apply normal_fixed].
Qed.

Lemma normalize_idempotent_witness : _normalize "john smith 42" = "john smith 42".
Proof.
  exact (proj2 (proj2 (normalize_idempotent "")) "john smith 42" eq_refl).
Defined.

(** ** Compact form *)

Lemma sub_empty_only_alnum (s : string) (b : bool) :
  PyStr.sub_non_alnum "" b s = only_alnum s.
Proof.
  revert b. induction s as [|c s IH]; intros b; [reflexivity|].
  simpl. destruct (PyStr.is_alnum c); [now rewrite IH|].
  destruct b; apply IH.
Qed.

Lemma only_alnum_sub_space (s : string) (b : bool) :
  only_alnum (PyStr.sub_non_alnum " " b s) = only_alnum s.
Proof.
  revert b. induction s as [|c s IH]; intros b; [reflexivity|].
  rewrite sub_space_cons. simpl. destruct (PyStr.is_alnum c) eqn:E.
  - simpl. rewrite E. now rewrite IH.
  - destruct b; [apply IH|]. simpl. apply IH.
Qed.

Lemma only_alnum_lstrip (s : string) : only_alnum (PyStr.lstrip s) = only_alnum s.
Proof.
  induction s as [|c s IH]; [reflexivity|]. simpl.
  destruct (PyStr.is_space c) eqn:E; [|reflexivity].
  now rewrite (space_not_alnum _ E).
Qed.

Lemma only_alnum_rstrip (s : string) : only_alnum (PyStr.rstrip s) = only_alnum s.
Proof.
  induction s as [|c s IH]; [reflexivity|]. simpl.
  destruct (PyStr.is_space c) eqn:E; simpl.
  - rewrite (space_not_alnum _ E).
    destruct (PyStr.rstrip s) eqn:Er; simpl in *; [exact IH|].
    now rewrite (space_not_alnum _ E).
  - now rewrite IH.
Qed.

Lemma only_alnum_all (s : string) :
  PyStr.all_chars PyStr.is_alnum (only_alnum s) = true.
Proof.
  induction s as [|c s IH]; [reflexivity|]. simpl.
  destruct (PyStr.is_alnum c) eqn:E; [|exact IH]. simpl. now rewrite E.
Qed.

Lemma all_alnum_fixed (s : string) :
  PyStr.all_chars PyStr.is_alnum s = true ->
  PyStr.lower s = s /\ only_alnum s = s.
Proof.
  induction s as [|c s IH]; [auto|]. simpl. intros H.
  apply andb_true_iff in H. destruct H as [Hc Hs].
  destruct (IH Hs) as [H1 H2].
  rewrite Hc, (alnum_lower_fixed _ Hc), H1, H2. auto.
Qed.

Lemma only_alnum_length (s : string) :
  (String.length (only_alnum s) <= String.length s)%nat.
Proof.
  induction s as [|c s IH]; [reflexivity|]. simpl.
  destruct (PyStr.is_alnum c); simpl; lia.
Qed.

Lemma lower_length (s : string) : String.length (PyStr.lower s) = String.length s.
Proof. induction s as [|c s IH]; simpl; congruence. Qed.

Lemma compact_normalize (text : string) : _compact (_normalize text) = _compact text.
Proof.
  unfold _compact, _NON_ALNUM_RE_sub. rewrite !sub_empty_only_alnum.
  pose proof (normalize_is_normal text) as Hn.
  assert (Hl : PyStr.lower (_normalize text) = _normalize text).
  { destruct (_normalize text) eqn:E; [reflexivity|].
    apply (loose_lower _ true), words_loose. exact Hn. }
  rewrite Hl. unfold _normalize, _NON_ALNUM_RE_sub, PyStr.strip.
  now rewrite only_alnum_rstrip, only_alnum_lstrip, only_alnum_sub_space.
Qed.

(** X2. A compact form holds characters of [a-z0-9] only and is no longer
    than the text; [_compact] is idempotent, and the compact form of a text
    is also the compact form of its normalized form. *)
Theorem compact_of_normalize (text : string) :
  PyStr.all_chars PyStr.is_alnum (_compact text) = true
  /\ (String.length (_compact text) <= String.length text)%nat
  /\ _compact (_compact text) = _compact text
  /\ _compact (_normalize text) = _compact text.
Proof.
  split; [|split; [|split; [|apply compact_normalize]]];
    unfold _compact, _NON_ALNUM_RE_sub; rewrite !sub_empty_only_alnum.
  - apply only_alnum_all.
  - rewrite <- (lower_length text). apply only_alnum_length.
  - destruct (all_alnum_fixed _ (only_alnum_all (PyStr.lower text))) as [-> ->].
    reflexivity.
Qed.

(** ** Token score *)

Lemma fraction_range (h n : nat) :
  (0 < n)%nat -> (h <= n)%nat ->
  let v := (inject_Z (Z.of_nat h) / inject_Z (Z.of_nat n) * 100)%Q in
  (0 <= v <= 100)%Q /\ (v == 100 <-> h = n)%Q /\ (v == 0 <-> h = O)%Q.
Proof.
  intros Hn Hh. destruct n as [|n]; [lia|].
  change (Z.of_nat (S n)) with (Z.pos (Pos.of_succ_nat n)).
  unfold Qdiv, Qmult, Qinv, Qle, Qeq, inject_Z. simpl.
  repeat split; intros; lia.
Qed.

Lemma filter_all (A : Type) (f : A -> bool) (l : list A) :
  List.length (List.filter f l) = List.length l <-> forallb f l = true.
Proof.
  induction l as [|x l IH]; simpl; [tauto|].
  pose proof (List.filter_length_le f l) as Hle.
  destruct (f x); simpl.
  - rewrite <- IH. lia.
  - split; [lia|discriminate].
Qed.

Lemma filter_none (A : Type) (f : A -> bool) (l : list A) :
  List.length (List.filter f l) = O <-> forallb (fun x => negb (f x)) l = true.
Proof.
  induction l as [|x l IH]; simpl; [tauto|].
  destruct (f x); simpl; [split; [lia|discriminate]|exact IH].
Qed.

Lemma prefix_refl (s : string) : String.prefix s s = true.
Proof.
  induction s as [|c s IH]; [reflexivity|]. simpl.
  now destruct (ascii_dec c c).
Qed.

Lemma token_hit_self (l : list string) (t : string) :
  In t l -> token_hit l t = true.
Proof.
  intros H. unfold token_hit. apply existsb_exists. exists t. split; [exact H|].
  unfold PyStr.startswith. now rewrite prefix_refl.
Qed.

Lemma snoc_not_empty (tok : string) (c : ascii) :
  PyStr.is_empty (tok +:+ String c "") = false.
Proof. destruct tok; reflexivity. Qed.

Lemma split_from_nonempty (s tok : string) :
  PyStr.is_empty tok = false \/ PyStr.all_chars PyStr.is_space s = false ->
  PyStr.split_from tok s <> [].
Proof.
  revert tok. induction s as [|c s IH]; intros tok H; simpl.
  - destruct H as [->|H]; [discriminate|discriminate].
  - destruct (PyStr.is_space c) eqn:E.
    + destruct (PyStr.is_empty tok) eqn:Et; [|discriminate].
      apply IH. destruct H as [H|H]; [discriminate|]. right.
      simpl in H. now rewrite E in H.
    + apply IH. left. apply snoc_not_empty.
Qed.

Lemma normalize_tokens (text : string) :
  _normalize text <> "" -> PyStr.split (_normalize text) <> [].
Proof.
  intros H. pose proof (normalize_is_normal text) as Hn.
  destruct (_normalize text) as [|c s]; [congruence|].
  apply split_from_nonempty. right.
  destruct (words_char _ _ _ Hn) as [[Ha _]|(_ & Hb & _)]; [|discriminate].
  simpl. now rewrite (alnum_not_space _ Ha).
Qed.

(** X3. The token score lies in [0, 100]. When both texts have tokens it
    is 100 exactly when every token of the query is a prefix or a part of
    some token of the candidate, and 0 exactly when none is; the token
    score of a text with itself is 100 unless its normalized form is
    empty. *)
Theorem token_match_score_range (query candidate : string) :
  let q_tokens := PyStr.split (_normalize query) in
  let c_tokens := PyStr.split (_normalize candidate) in
  (0 <= _token_match_score query candidate <= 100)%Q
  /\ (q_tokens <> [] -> c_tokens <> [] ->
      (_token_match_score query candidate == 100
       <-> forallb (token_hit c_tokens) q_tokens = true)%Q
      /\ (_token_match_score query candidate == 0
          <-> forallb (fun qt => negb (token_hit c_tokens qt)) q_tokens = true)%Q)
  /\ (_normalize query <> "" -> (_token_match_score query query == 100)%Q).
Proof.
  intros q_tokens c_tokens.
  assert (Hgen : forall q c : list string, q <> [] -> c <> [] ->
    let v := (inject_Z (Z.of_nat (List.length (List.filter (token_hit c) q)))
              / inject_Z (Z.of_nat (List.length q)) * 100)%Q in
    (0 <= v <= 100)%Q
    /\ (v == 100 <-> forallb (token_hit c) q = true)%Q
    /\ (v == 0 <-> forallb (fun qt => negb (token_hit c qt)) q = true)%Q).
  { intros q c Hq Hc v.
    destruct (fraction_range (List.length (List.filter (token_hit c) q)) (List.length q))
      as (Hr & H100 & H0).
    - destruct q; [congruence|simpl; lia].
    - apply List.filter_length_le.
    - fold v in Hr, H100, H0. split; [exact Hr|]. split.
      + rewrite H100. apply filter_all.
      + rewrite H0. apply filter_none. }
  assert (Hunfold : forall q c, PyStr.split (_normalize q) <> [] ->
    PyStr.split (_normalize c) <> [] ->
    _token_match_score q c =
    (inject_Z (Z.of_nat (List.length
       (List.filter (token_hit (PyStr.split (_normalize c))) (PyStr.split (_normalize q)))))
     / inject_Z (Z.of_nat (List.length (PyStr.split (_normalize q)))) * 100)%Q).
  { intros q c Hq Hc. unfold _token_match_score.
    destruct (PyStr.split (_normalize q)); [congruence|].
    destruct (PyStr.split (_normalize c)); [congruence|reflexivity]. }
  split; [|split].
  - destruct q_tokens eqn:Eq.
    { unfold _token_match_score. fold q_tokens. rewrite Eq. split; discriminate. }
    destruct c_tokens eqn:Ec.
    { unfold _token_match_score. fold q_tokens c_tokens. rewrite Eq, Ec.
      split; discriminate. }
    rewrite Hunfold; fold q_tokens c_tokens; rewrite ?Eq, ?Ec; try discriminate.
    apply Hgen; discriminate.
  - intros Hq Hc. rewrite (Hunfold _ _ Hq Hc). fold q_tokens c_tokens.
    destruct (Hgen q_tokens c_tokens Hq Hc) as (_ & H1 & H2). now split.
  - intros Hn. pose proof (normalize_tokens _ Hn) as Ht.
    rewrite (Hunfold _ _ Ht Ht).
    apply (Hgen _ _ Ht Ht). apply forallb_forall. intros t Hin.
    now apply token_hit_self.
Qed.

Lemma token_match_score_range_witness :
  (_token_match_score "Smith, John" "john smith" == 100)%Q
  /\ (_token_match_score "John" "John" == 100)%Q.
Proof.
  split.
  - pose proof (token_match_score_range "Smith, John" "john smith") as H.
    cbv zeta in H. destruct H as (_ & H & _).
    apply H; [vm_compute; discriminate|vm_compute; discriminate|reflexivity].
  - pose proof (token_match_score_range "John" "John") as H.
    cbv zeta in H. destruct H as (_ & _ & H).
    apply H. vm_compute. discriminate.
Defined.

(** ** Summaries *)

Lemma Ok_inj (A : Type) (a b : A) : Ok a = Ok b -> a = b.
Proof. now intros [= ->]. Qed.

Lemma lookup_absent (l : list (string * json)) (k : string) :
  ~ In k (map fst l) -> Py.lookup l k = None.
Proof.
  induction l as [|[k' v] l IH]; simpl; [reflexivity|]. intros H.
  destruct (String.eqb k' k) eqn:E.
  - apply String.eqb_eq in E. tauto.
  - apply IH. tauto.
Qed.

Lemma strip_nones_lookup (l : list (string * json)) (k : string) :
  List.NoDup (map fst l) ->
  Py.lookup (_strip_nones l) k =
  match Py.lookup l k with
  | Some v => if kept v then Some v else None
  | None => None
  end.
Proof.
  induction l as [|[k' v] l IH]; simpl; [reflexivity|]. intros Hnd.
  apply List.NoDup_cons_iff in Hnd. destruct Hnd as [Hk Hnd].
  destruct (kept v) eqn:Ev; simpl.
  - destruct (String.eqb k' k); [now rewrite Ev|now apply IH].
  - rewrite (IH Hnd). destruct (String.eqb k' k) eqn:E; [|reflexivity].
    apply String.eqb_eq in E. subst k'. now rewrite (lookup_absent _ _ Hk), Ev.
Qed.

Lemma strip_nones_member (l : list (string * json)) (k : string) :
  List.NoDup (map fst l) ->
  member (JDict (_strip_nones l)) k =
  if kept (member (JDict l) k) then member (JDict l) k else JNull.
Proof.
  intros Hnd. simpl. rewrite (strip_nones_lookup _ _ Hnd).
  destruct (Py.lookup l k) as [v|]; [|reflexivity].
  now destruct (kept v).
Qed.

Lemma strip_nones_no_blank (l : list (string * json)) : no_blank (_strip_nones l).
Proof.
  unfold no_blank, _strip_nones. apply List.Forall_forall.
  intros kv H. now apply List.filter_In in H.
Qed.

Lemma strip_nones_keys (l : list (string * json)) :
  sublist (map fst (_strip_nones l)) (map fst l).
Proof.
  induction l as [|[k v] l IH]; simpl; [constructor|].
  destruct (kept v); simpl; now constructor.
Qed.

Lemma strip_nones_idem (l : list (string * json)) :
  _strip_nones (_strip_nones l) = _strip_nones l.
Proof.
  induction l as [|[k v] l IH]; simpl; [reflexivity|].
  destruct (kept v) eqn:E; simpl; [rewrite E; f_equal|]; exact IH.
Qed.

Lemma substring_length (s : string) (n : nat) :
  String.length (String.substring 0 n s) = Nat.min n (String.length s).
Proof.
  revert n. induction s as [|c s IH]; intros [|n]; simpl; try reflexivity.
  now rewrite IH.
Qed.

Lemma append_length (s t : string) :
  String.length (s +:+ t) = (String.length s + String.length t)%nat.
Proof.
  induction s as [|c s IH]; [reflexivity|]. rewrite append_cons. simpl. now rewrite IH.
Qed.

Lemma lstrip_length (s : string) :
  (String.length (PyStr.lstrip s) <= String.length s)%nat.
Proof.
  induction s as [|c s IH]; simpl; [lia|].
  destruct (PyStr.is_space c); simpl; lia.
Qed.

Lemma lstrip_fixed_head (c : ascii) (s : string) :
  PyStr.lstrip (String c s) = String c s -> PyStr.is_space c = false.
Proof.
  simpl. destruct (PyStr.is_space c); [|reflexivity]. intros H.
  pose proof (lstrip_length s) as Hl. rewrite H in Hl. simpl in Hl. lia.
Qed.

Lemma lstrip_head (s : string) :
  PyStr.lstrip s = ""
  \/ exists c r, PyStr.lstrip s = String c r /\ PyStr.is_space c = false.
Proof.
  induction s as [|c s IH]; simpl; [now left|].
  destruct (PyStr.is_space c) eqn:E; [exact IH|right; eauto].
Qed.

Lemma rstrip_idem (s : string) : PyStr.rstrip (PyStr.rstrip s) = PyStr.rstrip s.
Proof.
  induction s as [|c s IH]; [reflexivity|]. simpl.
  destruct (PyStr.is_space c) eqn:E; simpl.
  - destruct (PyStr.rstrip s) eqn:Er; simpl; [reflexivity|].
    rewrite E. simpl in IH. rewrite IH. reflexivity.
  - rewrite E. simpl. now rewrite IH.
Qed.

Lemma strip_fixed (s : string) :
  PyStr.lstrip (PyStr.strip s) = PyStr.strip s
  /\ PyStr.rstrip (PyStr.strip s) = PyStr.strip s.
Proof.
  unfold PyStr.strip. split; [|apply rstrip_idem].
  destruct (lstrip_head s) as [->|(c & r & -> & Hc)]; [reflexivity|].
  simpl. rewrite Hc. simpl. now rewrite Hc.
Qed.

Lemma strip_idem (s : string) : PyStr.strip (PyStr.strip s) = PyStr.strip s.
Proof.
  destruct (strip_fixed s) as [H1 H2].
  unfold PyStr.strip at 1. now rewrite H1, H2.
Qed.

Lemma rstrip_append (x b : string) :
  b <> "" -> PyStr.rstrip b = b -> PyStr.rstrip (x +:+ b) = x +:+ b.
Proof.
  intros Hb Hr. induction x as [|c x IH]; [exact Hr|].
  rewrite append_cons. simpl. rewrite IH.
  destruct (x +:+ b) eqn:E.
  - destruct x; [change (b = "") in E; congruence
               |rewrite append_cons in E; discriminate].
  - simpl. now rewrite andb_false_r.
Qed.

Lemma append_assoc (x y z : string) : (x +:+ y) +:+ z = x +:+ (y +:+ z).
Proof.
  induction x as [|c x IH]; [reflexivity|]. rewrite !append_cons. now rewrite IH.
Qed.

Lemma join_trimmed (a b : string) :
  a <> "" -> b <> "" -> PyStr.lstrip a = a -> PyStr.rstrip b = b ->
  PyStr.strip (a +:+ " " +:+ b) = a +:+ " " +:+ b.
Proof.
  intros Ha Hb Hla Hrb. destruct a as [|c a]; [congruence|].
  pose proof (lstrip_fixed_head _ _ Hla) as Hc.
  unfold PyStr.strip.
  assert (Hl : PyStr.lstrip (String c a +:+ " " +:+ b) = String c a +:+ " " +:+ b).
  { rewrite append_cons. simpl. now rewrite Hc. }
  rewrite Hl, <- append_assoc. now apply rstrip_append.
Qed.

Section SummaryTheorems.

Variable py_repr : json -> string.
Variable ellipsis : string.

Lemma compact_user_dict (d : list (string * json)) (score : option Q)
    (matched_on : option string) :
  let attributes := JDict d in
  let first := member attributes "first_name" in
  let last := member attributes "last_name" in
  _compact_user py_repr attributes score matched_on =
  Ok (JDict (_strip_nones
    [("score", score_entry score);
     ("matched_on", matched_on_entry matched_on);
     ("id", member attributes "id");
     ("uuid", member attributes "uuid");
     ("external_id", member attributes "external_id");
     ("username", member attributes "username");
     ("email", member attributes "email");
     ("name",
       Py.or_else
         (JStr (PyStr.join " "
            (List.filter non_empty
               [if Py.truthy first then PyStr.strip (py_str py_repr first) else "";
                if Py.truthy last then PyStr.strip (py_str py_repr last) else ""])))
         JNull)])).
Proof. reflexivity. Qed.

Lemma compact_server_dict (d : list (string * json)) (score : option Q)
    (matched_on : option string) :
  let attributes := JDict d in
  let description := member attributes "description" in
  _compact_server py_repr ellipsis attributes score matched_on =
  Ok (JDict (_strip_nones
    [("score", score_entry score);
     ("matched_on", matched_on_entry matched_on);
     ("id", member attributes "id");
     ("identifier", member attributes "identifier");
     ("uuid", member attributes "uuid");
     ("external_id", member attributes "external_id");
     ("name", member attributes "name");
     ("description",
       if Py.isinstance_str description
       then _truncate py_repr ellipsis description 120 else JNull);
     ("suspended", member attributes "suspended")])).
Proof. reflexivity. Qed.

Lemma user_keys_nodup : List.NoDup user_summary_keys.
Proof.
  unfold user_summary_keys. repeat constructor; simpl; intuition discriminate.
Qed.

Lemma server_keys_nodup : List.NoDup server_summary_keys.
Proof.
  unfold server_summary_keys. repeat constructor; simpl; intuition discriminate.
Qed.

(** X4. The summary of an account is a mapping whose keys follow the order
    score, matched_on, id, uuid, external_id, username, email, name and
    none of whose values is [None] or the empty string; the score is the
    given one rounded to one decimal and is absent when none is given; id,
    uuid, external_id, username and email are those of the record. On a
    record that is not a mapping the call raises [AttributeError]. *)
Theorem compact_user_shape (attributes : json) (score : option Q)
    (matched_on : option string) :
  (is_dict attributes ->
   exists entries,
     _compact_user py_repr attributes score matched_on = Ok (JDict entries)
     /\ sublist (map fst entries) user_summary_keys
     /\ no_blank entries
     /\ member (JDict entries) "score" = score_entry score
     /\ (forall k, In k ["id"; "uuid"; "external_id"; "username"; "email"] ->
         passed attributes (JDict entries) k))
  /\ (~ is_dict attributes ->
      _compact_user py_repr attributes score matched_on = Raise AttributeError).
Proof.
  split.
  - intros Hd. destruct attributes as [| | | | | |d]; try discriminate.
    eexists. split; [apply compact_user_dict|]. cbv zeta.
    split; [apply (strip_nones_keys
      [("score", _); ("matched_on", _); ("id", _); ("uuid", _);
       ("external_id", _); ("username", _); ("email", _); ("name", _)])|].
    split; [apply strip_nones_no_blank|].
    split.
    + rewrite strip_nones_member by exact user_keys_nodup. simpl. now destruct score.
    + intros k Hk. unfold passed.
      rewrite strip_nones_member by exact user_keys_nodup.
      simpl in Hk.
      destruct Hk as [<-|[<-|[<-|[<-|[<-|[]]]]]]; reflexivity.
  - intros Hd. destruct attributes; try reflexivity. now destruct Hd.
Qed.

End SummaryTheorems.

Lemma compact_user_shape_witness :
  exists entries,
    _compact_user repr_unused john_smith None None = Ok (JDict entries)
    /\ map fst entries = ["id"; "username"; "name"].
Proof.
  destruct (proj1 (compact_user_shape repr_unused john_smith None None) eq_refl)
    as (entries & H & _).
  exists entries. split; [exact H|].
  vm_compute in H. injection H as <-. reflexivity.
Defined.

Lemma full_name_trimmed (x y : string) :
  let n := PyStr.join " " (List.filter non_empty [PyStr.strip x; PyStr.strip y]) in
  (n = "" <-> PyStr.strip x = "" /\ PyStr.strip y = "")
  /\ PyStr.strip n = n
  /\ (PyStr.strip x <> "" -> PyStr.strip y <> "" ->
      n = PyStr.strip x +:+ " " +:+ PyStr.strip y).
Proof.
  destruct (strip_fixed x) as [Hlx Hrx]. destruct (strip_fixed y) as [Hly Hry].
  pose proof (strip_idem x) as Hx. pose proof (strip_idem y) as Hy.
  unfold non_empty. simpl.
  destruct (PyStr.strip x) as [|c a] eqn:Ex; destruct (PyStr.strip y) as [|c' b] eqn:Ey;
    simpl.
  - repeat split; auto; congruence.
  - repeat split; try tauto; try discriminate; try congruence.
  - repeat split; try tauto; try discriminate; try congruence.
  - repeat split; try discriminate; try reflexivity.
    + intros [H _]; discriminate.
    + apply join_trimmed; try discriminate; assumption.
Qed.

Section UserName.

Variable py_repr : json -> string.

(** X5. The name of the summary of an account is the first and the last
    name of the record, each trimmed, joined by one space; a part that is
    falsy or blank is left out. The summary has no name when both parts
    are left out; a name that is present is not empty and has no white
    space at either end. *)
Theorem compact_user_name (attributes : json) (score : option Q)
    (matched_on : option string) (out : json) :
  _compact_user py_repr attributes score matched_on = Ok out ->
  let part := fun k =>
    if Py.truthy (member attributes k)
    then PyStr.strip (py_str py_repr (member attributes k)) else "" in
  (part "first_name" = "" -> part "last_name" = "" -> member out "name" = JNull)
  /\ (part "first_name" <> "" -> part "last_name" = "" ->
      member out "name" = JStr (part "first_name"))
  /\ (part "first_name" = "" -> part "last_name" <> "" ->
      member out "name" = JStr (part "last_name"))
  /\ (part "first_name" <> "" -> part "last_name" <> "" ->
      member out "name" = JStr (part "first_name" +:+ " " +:+ part "last_name"))
  /\ (forall n, member out "name" = JStr n -> n <> "" /\ PyStr.strip n = n).
Proof.
  intros Hout part.
  destruct attributes as [| | | | | |d]; try discriminate.
  rewrite compact_user_dict in Hout. cbv zeta in Hout.
  apply Ok_inj in Hout. subst out.
  rewrite strip_nones_member by exact user_keys_nodup.
  set (first := member (JDict d) "first_name") in *.
  set (last := member (JDict d) "last_name") in *.
  set (x := if Py.truthy first then py_str py_repr first else "").
  set (y := if Py.truthy last then py_str py_repr last else "").
  assert (Hf : part "first_name" = PyStr.strip x).
  { unfold part, x. fold first. now destruct (Py.truthy first). }
  assert (Hl : part "last_name" = PyStr.strip y).
  { unfold part, y. fold last. now destruct (Py.truthy last). }
  replace (if Py.truthy first then PyStr.strip (py_str py_repr first) else "")
    with (PyStr.strip x) by (unfold x; now destruct (Py.truthy first)).
  replace (if Py.truthy last then PyStr.strip (py_str py_repr last) else "")
    with (PyStr.strip y) by (unfold y; now destruct (Py.truthy last)).
  rewrite Hf, Hl. clearbody x y. clear Hf Hl part.
  destruct (full_name_trimmed x y) as (Hempty & Htrim & Hboth).
  set (n := PyStr.join " " (List.filter non_empty [PyStr.strip x; PyStr.strip y])) in *.
  match goal with
  | |- context [member (JDict ?l) "name"] =>
      change (member (JDict l) "name") with (Py.or_else (JStr n) JNull)
  end.
  assert (Hor : (if kept (Py.or_else (JStr n) JNull)
                 then Py.or_else (JStr n) JNull else JNull) =
                if PyStr.is_empty n then JNull else JStr n).
  { unfold Py.or_else. simpl. now destruct n. }
  rewrite Hor. clear Hor.
  assert (Hone : PyStr.strip x <> "" -> PyStr.strip y = "" -> n = PyStr.strip x).
  { intros Hx Hy. unfold n, non_empty. rewrite Hy. simpl.
    now destruct (PyStr.strip x). }
  assert (Htwo : PyStr.strip x = "" -> PyStr.strip y <> "" -> n = PyStr.strip y).
  { intros Hx Hy. unfold n, non_empty. rewrite Hx. simpl.
    now destruct (PyStr.strip y). }
  split; [|split; [|split; [|split]]].
  - intros Hx Hy. rewrite (proj2 Hempty (conj Hx Hy)). reflexivity.
  - intros Hx Hy. rewrite (Hone Hx Hy). now destruct (PyStr.strip x).
  - intros Hx Hy. rewrite (Htwo Hx Hy). now destruct (PyStr.strip y).
  - intros Hx Hy. rewrite (Hboth Hx Hy). destruct (PyStr.strip x); [congruence|].
    reflexivity.
  - intros m Hm. destruct n; [discriminate|]. simpl in Hm. injection Hm as <-.
    split; [discriminate|exact Htrim].
Qed.

End UserName.

Lemma compact_user_name_witness :
  exists out,
    _compact_user repr_unused john_smith None None = Ok out
    /\ member out "name" = JStr "John Smith".
Proof.
  eexists. split; [reflexivity|].
  pose proof (compact_user_name repr_unused john_smith None None _ eq_refl) as H.
  cbv zeta in H. destruct H as (_ & _ & _ & H & _).
  apply H; discriminate.
Defined.

Section ServerSummary.

Variable py_repr : json -> string.
Variable ellipsis : string.

(** X6. [_truncate] keeps [None]; it turns any other value into its text,
    unchanged when it has at most [max_len] characters. For [max_len] of
    at least 1 a longer text is cut to its first [max_len - 1] characters
    followed by the ellipsis: with the ellipsis it has [max_len]
    characters. *)
Theorem truncate_length (value : json) (max_len : Z) :
  _truncate py_repr ellipsis JNull max_len = JNull
  /\ (value <> JNull ->
      let s := py_str py_repr value in
      exists r, _truncate py_repr ellipsis value max_len = JStr r
        /\ (Z.of_nat (String.length s) <= max_len -> r = s)
        /\ (max_len < Z.of_nat (String.length s) -> 1 <= max_len ->
            r = String.substring 0 (Z.to_nat (max_len - 1)) s +:+ ellipsis
            /\ Z.of_nat (String.length r)
               = max_len - 1 + Z.of_nat (String.length ellipsis))).
Proof.
  split; [reflexivity|]. intros Hv s.
  unfold _truncate. fold s.
  replace (Py.is_none value) with false by (now destruct value).
  destruct (Z.of_nat (String.length s) <=? max_len) eqn:E.
  - exists s. split; [reflexivity|]. split; [reflexivity|]. lia.
  - eexists. split; [reflexivity|]. split; [lia|]. intros Hlt Hpos.
    unfold PyStr.slice_to.
    replace (max_len - 1 <? 0) with false by lia.
    split; [reflexivity|].
    rewrite append_length, substring_length. lia.
Qed.

Lemma truncate_120 (s : string) :
  _truncate py_repr ellipsis (JStr s) 120 =
  if Z.of_nat (String.length s) <=? 120 then JStr s
  else JStr (String.substring 0 119 s +:+ ellipsis).
Proof. reflexivity. Qed.

(** X7. The summary of a server is a mapping whose keys follow the order
    score, matched_on, id, identifier, uuid, external_id, name,
    description, suspended and none of whose values is [None] or the empty
    string; id, identifier, uuid, external_id, name and suspended are those
    of the record. A description is reported only when the record has a
    non-empty string there: as it is up to 120 characters, else as its
    first 119 characters and the ellipsis. On a record that is not a
    mapping the call raises [AttributeError]. *)
Theorem compact_server_shape (attributes : json) (score : option Q)
    (matched_on : option string) :
  (is_dict attributes ->
   exists entries,
     _compact_server py_repr ellipsis attributes score matched_on = Ok (JDict entries)
     /\ sublist (map fst entries) server_summary_keys
     /\ no_blank entries
     /\ member (JDict entries) "score" = score_entry score
     /\ (forall k,
         In k ["id"; "identifier"; "uuid"; "external_id"; "name"; "suspended"] ->
         passed attributes (JDict entries) k)
     /\ member (JDict entries) "description" =
        match member attributes "description" with
        | JStr s =>
            if PyStr.is_empty s then JNull
            else if Z.of_nat (String.length s) <=? 120 then JStr s
            else JStr (String.substring 0 119 s +:+ ellipsis)
        | _ => JNull
        end)
  /\ (~ is_dict attributes ->
      _compact_server py_repr ellipsis attributes score matched_on
      = Raise AttributeError).
Proof.
  split.
  - intros Hd. destruct attributes as [| | | | | |d]; try discriminate.
    eexists. split; [apply compact_server_dict|]. cbv zeta.
    split; [apply (strip_nones_keys
      [("score", _); ("matched_on", _); ("id", _); ("identifier", _); ("uuid", _);
       ("external_id", _); ("name", _); ("description", _); ("suspended", _)])|].
    split; [apply strip_nones_no_blank|].
    split; [|split].
    + rewrite strip_nones_member by exact server_keys_nodup. simpl. now destruct score.
    + intros k Hk. unfold passed.
      rewrite strip_nones_member by exact server_keys_nodup.
      simpl in Hk.
      destruct Hk as [<-|[<-|[<-|[<-|[<-|[<-|[]]]]]]]; reflexivity.
    + rewrite strip_nones_member by exact server_keys_nodup.
      match goal with
      | |- context [member (JDict ((?k, ?v) :: ?l)) "description"] =>
          change (member (JDict ((k, v) :: l)) "description")
            with (if Py.isinstance_str (member (JDict d) "description")
                  then _truncate py_repr ellipsis (member (JDict d) "description") 120
                  else JNull)
      end.
      destruct (member (JDict d) "description") as [| | | |s| |]; try reflexivity.
      simpl Py.isinstance_str. cbv iota. rewrite truncate_120.
      destruct (Z.of_nat (String.length s) <=? 120) eqn:E.
      * now destruct s.
      * assert (Hs : PyStr.is_empty s = false).
        { destruct s; [vm_compute in E; discriminate|reflexivity]. }
        rewrite Hs. simpl kept. apply Z.leb_gt in E.
        destruct (String.substring 0 119 s +:+ ellipsis) eqn:Er; [|reflexivity].
        apply (f_equal String.length) in Er.
        rewrite append_length, substring_length in Er.
        change (String.length "") with O in Er. lia.
  - intros Hd. destruct attributes; try reflexivity. now destruct Hd.
Qed.

End ServerSummary.

Lemma truncate_length_witness :
  _truncate repr_unused "~" (JStr "Minecraft survival") 10 = JStr "Minecraft~".
Proof.
  destruct (proj2 (truncate_length repr_unused "~" (JStr "Minecraft survival") 10))
    as (r & -> & _ & H); [discriminate|].
  cbv zeta in H. destruct H as [-> _]; [vm_compute; reflexivity|lia|reflexivity].
Defined.

Lemma compact_server_shape_witness :
  exists entries,
    _compact_server repr_unused "~"
      (JDict [("id", JInt 7); ("name", JStr "lobby"); ("description", JStr "")])
      None None = Ok (JDict entries)
    /\ map fst entries = ["id"; "name"].
Proof.
  destruct (proj1 (compact_server_shape repr_unused "~"
    (JDict [("id", JInt 7); ("name", JStr "lobby"); ("description", JStr "")])
    None None) eq_refl) as (entries & H & _).
  exists entries. split; [exact H|].
  vm_compute in H. injection H as <-. reflexivity.
Defined.

(** ** Attributes of one record, summaries and listings *)

Lemma extract_attributes_unfold (payload : json) :
  _extract_attributes payload =
  Ok (match declared_attributes payload with
      | Some a => a
      | None => JDict []
      end).
Proof.
  unfold _extract_attributes, declared_attributes.
  destruct payload as [| | | | | |d]; try reflexivity. simpl.
  destruct (Py.lookup d "attributes") as [[| | | | | |a]|] eqn:Ea; simpl;
    try rewrite Ea; try reflexivity;
    (destruct (Py.lookup d "data") as [[| | | | | |dd]|] eqn:Ed; simpl;
     try reflexivity;
     destruct (Py.lookup dd "attributes") as [[| | | | | |a]|] eqn:En; simpl;
     try rewrite En; reflexivity).
Qed.

Lemma declared_attributes_dict (payload : json) :
  is_dict (match declared_attributes payload with
           | Some a => a
           | None => JDict []
           end).
Proof.
  unfold declared_attributes.
  destruct (member payload "attributes"); try reflexivity;
    destruct (member payload "data"); try reflexivity;
    destruct (member (JDict _) "attributes"); reflexivity.
Qed.

(** X8. [_extract_attributes] never raises and always returns a mapping:
    the [attributes] mapping of the payload when there is one, else the
    [attributes] mapping of its [data] mapping, else the empty mapping;
    this last also for a payload that is not a mapping. *)
Theorem extract_attributes_spec (payload : json) :
  _extract_attributes payload =
  Ok (match declared_attributes payload with
      | Some a => a
      | None => JDict []
      end)
  /\ (exists a, _extract_attributes payload = Ok a /\ is_dict a)
  /\ (~ is_dict payload -> _extract_attributes payload = Ok (JDict [])).
Proof.
  split; [apply extract_attributes_unfold|]. split.
  - rewrite extract_attributes_unfold. eexists. split; [reflexivity|].
    apply declared_attributes_dict.
  - intros Hd. destruct payload; try reflexivity. now destruct Hd.
Qed.

Lemma extract_attributes_spec_witness :
  _extract_attributes (JInt 204) = Ok (JDict []).
Proof.
  apply (proj2 (proj2 (extract_attributes_spec (JInt 204)))). discriminate.
Defined.

Section ListingTheorems.

Variable py_repr : json -> string.
Variable ellipsis : string.
Variable client_request : request -> result json.

Lemma compact_items_total (kind : string) (items : list json) :
  Forall is_dict items ->
  exists ms,
    compact_items py_repr ellipsis kind items = Ok ms
    /\ Forall2 (fun m item =>
         (if String.eqb kind "user" then _compact_user py_repr item None None
          else _compact_server py_repr ellipsis item None None) = Ok m) ms items.
Proof.
  induction 1 as [|item items Hd _ (ms & IH & HF)]; simpl.
  - exists []. split; [reflexivity|constructor].
  - destruct item as [| | | | | |d]; try discriminate.
    destruct (String.eqb kind "user") eqn:Ek.
    + rewrite (compact_user_dict py_repr d None None). cbv zeta. simpl mbind.
      rewrite IH. simpl mbind. eexists. split; [reflexivity|].
      constructor; [|exact HF]. apply (compact_user_dict py_repr d None None).
    + rewrite (compact_server_dict py_repr ellipsis d None None). cbv zeta.
      simpl mbind. rewrite IH. simpl mbind. eexists. split; [reflexivity|].
      constructor; [|exact HF].
      apply (compact_server_dict py_repr ellipsis d None None).
Qed.

Lemma page_items_all_dict (payload : json) : Forall is_dict (page_items payload).
Proof.
  apply List.Forall_forall. intros item. apply page_items_dict.
Qed.

Lemma pagination_keys_nodup : List.NoDup pagination_keys.
Proof.
  unfold pagination_keys. repeat constructor; simpl; intuition discriminate.
Qed.

(** X9. A listing sends one request, for the page raised to at least 1 and
    a page size clamped to 1..100, and fails as that request fails.
    Whatever the payload, it returns a mapping of two keys: under users or
    servers one summary, without score, for each record of the page in
    order, however many the panel sent; under pagination those of
    current_page, per_page, total and total_pages that the payload
    declares. *)
Theorem compact_list_page (path kind : string) (page per_page : Z) :
  let rq := list_request path (Z.max 1 page) (clamp_per_page per_page) in
  let call := _compact_list py_repr ellipsis client_request path page per_page kind in
  let key := if String.eqb kind "user" then "users" else "servers" in
  snd call = [rq]
  /\ 1 <= Z.max 1 page /\ 1 <= clamp_per_page per_page <= 100
  /\ (forall e, client_request rq = Raise e -> fst call = Raise e)
  /\ (forall payload, client_request rq = Ok payload ->
      exists ms pag,
        fst call = Ok (JDict [(key, JList ms); ("pagination", JDict pag)])
        /\ Forall2 (fun m item =>
             (if String.eqb kind "user" then _compact_user py_repr item None None
              else _compact_server py_repr ellipsis item None None) = Ok m)
             ms (page_items payload)
        /\ sublist (map fst pag) pagination_keys
        /\ no_blank pag
        /\ (forall k, In k pagination_keys ->
            passed (match declared_pagination payload with
                    | Some p => p
                    | None => JDict []
                    end) (JDict pag) k)).
Proof.
  intros rq call key.
  split; [reflexivity|]. split; [lia|]. split; [unfold clamp_per_page; lia|].
  split.
  - intros e He. unfold call, _compact_list. cbv zeta. simpl fst.
    fold (clamp_per_page per_page). fold rq. now rewrite He.
  - intros payload Hp. unfold call, _compact_list. cbv zeta. simpl fst.
    fold (clamp_per_page per_page). fold rq. rewrite Hp. simpl mbind.
    rewrite extract_list_items_spec. simpl mbind.
    rewrite extract_pagination_spec. simpl mbind.
    destruct (compact_items_total kind _ (page_items_all_dict payload))
      as (ms & Hms & HF).
    unfold page_items in Hms. rewrite Hms. simpl mbind.
    set (p := match declared_pagination payload with
              | Some p => p | None => JDict [] end).
    assert (Hd : is_dict p).
    { unfold p. destruct (declared_pagination payload) eqn:E; [|reflexivity].
      now apply declared_pagination_dict in E. }
    destruct p as [| | | | | |pd] eqn:Ep; try discriminate.
    exists ms, (_strip_nones
      [("current_page", member (JDict pd) "current_page");
       ("per_page", member (JDict pd) "per_page");
       ("total", member (JDict pd) "total");
       ("total_pages", member (JDict pd) "total_pages")]).
    split; [reflexivity|]. split; [exact HF|].
    split; [apply (strip_nones_keys
      [("current_page", _); ("per_page", _); ("total", _); ("total_pages", _)])|].
    split; [apply strip_nones_no_blank|].
    intros k Hk. unfold passed.
    rewrite strip_nones_member by exact pagination_keys_nodup.
    simpl in Hk. destruct Hk as [<-|[<-|[<-|[<-|[]]]]]; reflexivity.
Qed.

(** X10. A summary tool sends one request, for the path of the account or
    server, and fails as that request fails. Whatever the payload, it
    returns a mapping without score and without matched_on, none of whose
    values is [None] or the empty string; for a payload that carries no
    attributes the mapping is empty. *)
Theorem summary_of_any_payload (id : json) :
  let user_rq := item_request ("/api/application/users/" +:+ py_str py_repr id) in
  let server_rq := item_request ("/api/application/servers/" +:+ py_str py_repr id) in
  let user_call := ptero_ai_get_user_summary py_repr client_request id in
  let server_call := ptero_ai_get_server_summary py_repr ellipsis client_request id in
  (snd user_call = [user_rq] /\ snd server_call = [server_rq])
  /\ (forall e, client_request user_rq = Raise e -> fst user_call = Raise e)
  /\ (forall e, client_request server_rq = Raise e -> fst server_call = Raise e)
  /\ (forall payload, client_request user_rq = Ok payload ->
      exists entries,
        fst user_call = Ok (JDict entries)
        /\ no_blank entries
        /\ member (JDict entries) "score" = JNull
        /\ member (JDict entries) "matched_on" = JNull
        /\ (declared_attributes payload = None -> entries = []))
  /\ (forall payload, client_request server_rq = Ok payload ->
      exists entries,
        fst server_call = Ok (JDict entries)
        /\ no_blank entries
        /\ member (JDict entries) "score" = JNull
        /\ member (JDict entries) "matched_on" = JNull
        /\ (declared_attributes payload = None -> entries = [])).
Proof.
  intros user_rq server_rq user_call server_call.
  split; [split; reflexivity|].
  split; [intros e He; unfold user_call, ptero_ai_get_user_summary; simpl fst;
          fold user_rq; now rewrite He|].
  split; [intros e He; unfold server_call, ptero_ai_get_server_summary; simpl fst;
          fold server_rq; now rewrite He|].
  split.
  - intros payload Hp. unfold user_call, ptero_ai_get_user_summary. simpl fst.
    fold user_rq. rewrite Hp. simpl mbind.
    rewrite extract_attributes_unfold. simpl mbind.
    pose proof (declared_attributes_dict payload) as Hd.
    destruct (declared_attributes payload) as [a|] eqn:Ea;
      [|exists []; split; [reflexivity|]; split; [constructor|]; repeat split].
    destruct a as [| | | | | |d]; try discriminate.
    rewrite (compact_user_dict py_repr d None None). cbv zeta.
    eexists. split; [reflexivity|]. split; [apply strip_nones_no_blank|].
    split; [now rewrite strip_nones_member by exact user_keys_nodup|].
    split; [now rewrite strip_nones_member by exact user_keys_nodup|].
    discriminate.
  - intros payload Hp. unfold server_call, ptero_ai_get_server_summary. simpl fst.
    fold server_rq. rewrite Hp. simpl mbind.
    rewrite extract_attributes_unfold. simpl mbind.
    pose proof (declared_attributes_dict payload) as Hd.
    destruct (declared_attributes payload) as [a|] eqn:Ea;
      [|exists []; split; [reflexivity|]; split; [constructor|]; repeat split].
    destruct a as [| | | | | |d]; try discriminate.
    rewrite (compact_server_dict py_repr ellipsis d None None). cbv zeta.
    eexists. split; [reflexivity|]. split; [apply strip_nones_no_blank|].
    split; [now rewrite strip_nones_member by exact server_keys_nodup|].
    split; [now rewrite strip_nones_member by exact server_keys_nodup|].
    discriminate.
Qed.

End ListingTheorems.

Lemma compact_list_page_witness :
  exists ms pag,
    fst (ptero_ai_list_users repr_unused ellipsis_utf8 sample_panel 0 1000)
    = Ok (JDict [("users", JList ms); ("pagination", JDict pag)])
    /\ length ms = 2%nat.
Proof.
  pose proof (compact_list_page repr_unused ellipsis_utf8 sample_panel
                users_path "user" 0 1000) as H.
  cbv zeta in H. destruct H as (_ & _ & _ & _ & H).
  destruct (H (envelope [john_smith; bob_jones] 3)) as (ms & pag & Hc & HF & _); [reflexivity|].
  exists ms, pag. split; [exact Hc|].
  apply Forall2_length in HF. rewrite HF. reflexivity.
Defined.

Lemma summary_of_any_payload_witness :
  fst (ptero_ai_get_user_summary repr_unused (fun _ => Ok (JStr "gone")) (JInt 7))
  = Ok (JDict []).
Proof.
  pose proof (summary_of_any_payload repr_unused ellipsis_utf8
                (fun _ => Ok (JStr "gone")) (JInt 7)) as H.
  cbv zeta in H. destruct H as (_ & _ & _ & H & _).
  destruct (H (JStr "gone") eq_refl) as (entries & -> & _ & _ & _ & He).
  now rewrite He.
Defined.

(** * [client.py] *)

(** ** [_parse_bool] *)

Lemma lower_idem (s : string) : PyStr.lower (PyStr.lower s) = PyStr.lower s.
Proof.
  induction s as [|c s IH]; [reflexivity|]. simpl. now rewrite lower_char_idem, IH.
Qed.

Lemma lstrip_lower (s : string) : PyStr.lstrip (PyStr.lower s) = PyStr.lower (PyStr.lstrip s).
Proof.
  induction s as [|c s IH]; [reflexivity|]. simpl. rewrite lower_char_space.
  now destruct (PyStr.is_space c).
Qed.

Lemma rstrip_lower (s : string) : PyStr.rstrip (PyStr.lower s) = PyStr.lower (PyStr.rstrip s).
Proof.
  induction s as [|c s IH]; [reflexivity|]. simpl. rewrite lower_char_space, IH.
  destruct (PyStr.rstrip s); simpl; now destruct (PyStr.is_space c).
Qed.

Lemma strip_lower (s : string) : PyStr.strip (PyStr.lower s) = PyStr.lower (PyStr.strip s).
Proof. unfold PyStr.strip. now rewrite lstrip_lower, rstrip_lower. Qed.

(** X11. [_parse_bool] returns the default only for [None]. A string is
    true exactly when, trimmed and lower-cased, it is one of 1, true, yes,
    y and on, whatever the default; so white space around it and the case
    of its letters do not matter, and a blank string is false. *)
Theorem parse_bool_spec (v : string) (default : bool) :
  _parse_bool None default = default
  /\ _parse_bool (Some v) default = _parse_bool (Some v) (negb default)
  /\ (_parse_bool (Some v) default = true
      <-> In (PyStr.lower (PyStr.strip v)) ["1"; "true"; "yes"; "y"; "on"])
  /\ _parse_bool (Some (PyStr.strip v)) default = _parse_bool (Some v) default
  /\ _parse_bool (Some (PyStr.lower v)) default = _parse_bool (Some v) default
  /\ (PyStr.all_chars PyStr.is_space v = true -> _parse_bool (Some v) default = false).
Proof.
  split; [reflexivity|]. split; [reflexivity|]. split; [|split; [|split]].
  - unfold _parse_bool. rewrite existsb_exists. split.
    + intros (x & Hin & Heq). apply String.eqb_eq in Heq. now subst x.
    + intros Hin. eexists. split; [exact Hin|apply String.eqb_refl].
  - unfold _parse_bool. now rewrite strip_idem.
  - unfold _parse_bool. now rewrite strip_lower, lower_idem.
  - intros Hb. apply strip_empty_iff in Hb. unfold _parse_bool. now rewrite Hb.
Qed.

Lemma parse_bool_spec_witness :
  _parse_bool (Some "  ") true = false /\ _parse_bool (Some " Yes ") false = true.
Proof.
  split.
  - apply (proj2 (proj2 (proj2 (proj2 (proj2 (parse_bool_spec "  " true)))))).
    reflexivity.
  - apply (proj1 (proj2 (proj2 (parse_bool_spec " Yes " false)))).
    vm_compute. tauto.
Defined.

(** ** [PterodactylConfig.from_env] *)

Lemma rstrip_of_last (p : ascii -> bool) (s : string) (c : ascii) :
  PyMore.last_char (PyMore.rstrip_of p s) = Some c -> p c = false.
Proof.
  induction s as [|a s IH]; [discriminate|]. simpl.
  destruct (PyMore.rstrip_of p s) as [|b r] eqn:Er.
  - destruct (p a) eqn:Ea; simpl; [discriminate|]. now intros [= <-].
  - rewrite andb_false_r. simpl. exact IH.
Qed.

Lemma rstrip_of_empty (p : ascii -> bool) (s : string) :
  PyMore.rstrip_of p s = "" <-> PyStr.all_chars p s = true.
Proof.
  induction s as [|a s IH]; simpl; [tauto|].
  destruct (p a); simpl.
  - rewrite <- IH. destruct (PyMore.rstrip_of p s); simpl; split; congruence.
  - split; discriminate.
Qed.

Lemma union_insert_set (environ dotenv : gmap string string) (k v : string) :
  is_Some (environ !! k) -> environ ∪ <[k := v]> dotenv = environ ∪ dotenv.
Proof.
  intros [x Hx]. apply map_eq. intros i. rewrite !lookup_union.
  destruct (decide (i = k)) as [->|Hne].
  - rewrite Hx. rewrite lookup_insert_eq. now destruct (dotenv !! k).
  - now rewrite lookup_insert_ne by congruence.
Qed.

Section ConfigTheorems.

Variable py_float : string -> result Q.

(** X12. A configuration that [from_env] returns has a panel URL that is
    the trimmed PANEL_URL without its trailing slashes, a token that is
    the trimmed PANEL_TOKEN and is not empty, and a user agent that is not
    empty. The timeout is 30 when PANEL_TIMEOUT is unset or blank, the
    certificates are verified when PANEL_VERIFY_SSL is unset, and the user
    agent is PterodactylMCP/0.1 when PANEL_USER_AGENT is unset or blank.
    The panel URL of the configuration is empty exactly when the trimmed
    PANEL_URL is made of slashes only. *)
Theorem from_env_config (environ dotenv : gmap string string)
    (cfg : PterodactylConfig) :
  from_env py_float environ dotenv = Ok cfg ->
  let env := load_dotenv environ dotenv in
  let url := PyStr.strip (environ_get env "PANEL_URL" "") in
  let agent := PyStr.strip (environ_get env "PANEL_USER_AGENT" default_user_agent) in
  url <> ""
  /\ panel_url cfg = PyMore.rstrip_of (PyMore.is_char "/") url
  /\ PyMore.endswith_char (panel_url cfg) "/" = false
  /\ panel_token cfg = PyStr.strip (environ_get env "PANEL_TOKEN" "")
  /\ panel_token cfg <> ""
  /\ user_agent cfg <> ""
  /\ (env !! "PANEL_USER_AGENT" = None \/ agent = "" ->
      user_agent cfg = default_user_agent)
  /\ (PyStr.strip (environ_get env "PANEL_TIMEOUT" "") = "" -> timeout cfg = 30%Q)
  /\ (env !! "PANEL_VERIFY_SSL" = None -> verify_ssl cfg = true)
  /\ (panel_url cfg = "" <-> PyStr.all_chars (PyMore.is_char "/") url = true).
Proof.
  intros H env url agent. unfold from_env in H. fold env in H. fold url in H.
  fold agent in H.
  destruct (PyStr.is_empty url) eqn:Eu; [discriminate|].
  destruct (PyStr.is_empty (PyStr.strip (environ_get env "PANEL_TOKEN" ""))) eqn:Et;
    [discriminate|].
  apply is_empty_false in Eu, Et.
  destruct (PyStr.is_empty (PyStr.strip (environ_get env "PANEL_TIMEOUT" ""))) eqn:Eo.
  - simpl in H. apply Ok_inj in H. subst cfg. simpl.
    repeat split; try assumption; try reflexivity; try (apply rstrip_of_empty).
    + unfold PyMore.endswith_char.
      destruct (PyMore.last_char _) as [c|] eqn:El; [|reflexivity].
      apply rstrip_of_last in El. unfold PyMore.is_char in El.
      now rewrite Ascii.eqb_sym.
    + destruct (PyStr.is_empty agent) eqn:Ea; [discriminate|].
      now apply is_empty_false.
    + intros [Hn|Ha].
      * unfold agent, environ_get. rewrite Hn. reflexivity.
      * now rewrite Ha.
    + intros Hn. now rewrite Hn.
  - destruct (py_float _) as [t|e] eqn:Ef; [|discriminate].
    simpl in H. apply Ok_inj in H. subst cfg. simpl.
    repeat split; try assumption; try reflexivity; try (apply rstrip_of_empty).
    + unfold PyMore.endswith_char.
      destruct (PyMore.last_char _) as [c|] eqn:El; [|reflexivity].
      apply rstrip_of_last in El. unfold PyMore.is_char in El.
      now rewrite Ascii.eqb_sym.
    + destruct (PyStr.is_empty agent) eqn:Ea; [discriminate|].
      now apply is_empty_false.
    + intros [Hn|Ha].
      * unfold agent, environ_get. rewrite Hn. reflexivity.
      * now rewrite Ha.
    + intros Hb. apply is_empty_false in Eo. congruence.
    + intros Hn. now rewrite Hn.
Qed.

(** X13. [from_env] fails with the message about PANEL_URL when that
    variable is unset or blank, whatever the token; with the message
    about PANEL_TOKEN when only the token is unset or blank; and else
    only as the conversion of PANEL_TIMEOUT to a number fails. A variable
    that the environment of the process sets is not overridden by the
    [.env] file. *)
Theorem from_env_errors (environ dotenv : gmap string string) :
  let env := load_dotenv environ dotenv in
  let url := PyStr.strip (environ_get env "PANEL_URL" "") in
  let token := PyStr.strip (environ_get env "PANEL_TOKEN" "") in
  let timeout_raw := PyStr.strip (environ_get env "PANEL_TIMEOUT" "") in
  (url = "" ->
   from_env py_float environ dotenv
   = Raise (ValueError "Missing required env var: PANEL_URL"))
  /\ (url <> "" -> token = "" ->
      from_env py_float environ dotenv
      = Raise (ValueError "Missing required env var: PANEL_TOKEN"))
  /\ (forall e, from_env py_float environ dotenv = Raise e ->
      (url = "" /\ e = ValueError "Missing required env var: PANEL_URL")
      \/ (url <> "" /\ token = ""
          /\ e = ValueError "Missing required env var: PANEL_TOKEN")
      \/ (url <> "" /\ token <> "" /\ timeout_raw <> ""
          /\ py_float timeout_raw = Raise e))
  /\ (forall k v, is_Some (environ !! k) ->
      from_env py_float environ (<[k := v]> dotenv)
      = from_env py_float environ dotenv).
Proof.
  intros env url token timeout_raw.
  split; [|split; [|split]].
  - intros Hu. unfold from_env. fold env. fold url. now rewrite Hu.
  - intros Hu Ht. unfold from_env. fold env. fold url. fold token.
    apply is_empty_false in Hu. now rewrite Hu, Ht.
  - intros e H. unfold from_env in H. fold env in H. fold url in H.
    fold token in H. fold timeout_raw in H.
    destruct (PyStr.is_empty url) eqn:Eu.
    { left. apply is_empty_true in Eu. split; [exact Eu|congruence]. }
    right. apply is_empty_false in Eu.
    destruct (PyStr.is_empty token) eqn:Et.
    { left. apply is_empty_true in Et. repeat split; try assumption. congruence. }
    right. apply is_empty_false in Et.
    destruct (PyStr.is_empty timeout_raw) eqn:Eo; [discriminate|].
    apply is_empty_false in Eo.
    destruct (py_float timeout_raw) as [t|e'] eqn:Ef; [discriminate|].
    simpl in H. repeat split; try assumption. congruence.
  - intros k v Hk. unfold from_env, load_dotenv.
    now rewrite (union_insert_set _ _ _ _ Hk).
Qed.

End ConfigTheorems.

Lemma from_env_config_witness :
  match from_env (fun _ => Raise (ValueError "could not convert string to float"))
          {[ "PANEL_URL" := " https://panel.example.com// " ]}
          {[ "PANEL_TOKEN" := "ptla_secret" ]} with
  | Ok cfg => panel_url cfg = "https://panel.example.com" /\ timeout cfg = 30%Q
  | Raise _ => False
  end.
Proof.
  destruct (from_env _ _ _) as [cfg|e] eqn:E; [|vm_compute in E; discriminate].
  pose proof (from_env_config _ _ _ _ E) as H.
  cbv zeta in H. destruct H as (_ & Hu & _ & _ & _ & _ & _ & Ht & _ & _).
  split; [rewrite Hu; vm_compute; reflexivity|apply Ht; vm_compute; reflexivity].
Defined.

Lemma from_env_errors_witness :
  from_env (fun _ => Ok 5%Q) ∅ {[ "PANEL_TOKEN" := "ptla_secret" ]}
  = Raise (ValueError "Missing required env var: PANEL_URL").
Proof.
  pose proof (from_env_errors (fun _ => Ok 5%Q) ∅ {[ "PANEL_TOKEN" := "ptla_secret" ]})
    as H.
  cbv zeta in H. destruct H as (H & _). apply H. vm_compute. reflexivity.
Defined.

(** * More on the search *)

(** ** The best field of a record *)

Section RankerTheorems.

Variable ratio : string -> string -> Q.
Variable py_repr : json -> string.

Lemma best_of_snoc (query : string) (fields : list (string * json))
    (field : string * json) :
  best_of ratio py_repr query (fields ++ [field])
  = best_step ratio py_repr query (best_of ratio py_repr query fields) field.
Proof. unfold best_of. now rewrite fold_left_app. Qed.


Lemma best_of_range (query : string) (fields : list (string * json)) :
  (0 <= fst (best_of ratio py_repr query fields) <= 100)%Q.
Proof.
  unfold best_of.
  assert (H : forall acc : Q * option string, (0 <= fst acc <= 100)%Q ->
            (0 <= fst (fold_left (best_step ratio py_repr query) fields acc) <= 100)%Q).
  { induction fields as [|[name v] fields IH]; intros acc Hacc; [exact Hacc|].
    simpl. apply IH. destruct (Py.truthy v); simpl; [|exact Hacc].
    destruct (Qltb _ _); [|exact Hacc]. apply score_bounds. }
  apply H. simpl. lra.
Qed.

End RankerTheorems.

(** ** Failures of the paginator *)

Section PaginatorFailures.

Variable client_request : request -> result json.
Context {S : Type}.
Variable path : string.
Variable base_query : option (list (string * json)).
Variable body : Z -> json -> S -> result (ctl S).

Hypothesis body_total :
  forall page item s, is_dict item -> exists c, body page item s = Ok c.

Lemma for_items_total (page : Z) (items : list json) (st : S) :
  Forall is_dict items -> exists c, for_items body page items st = Ok c.
Proof.
  intros H. revert st. induction H as [|item items Hd _ IH]; intros st.
  - simpl. eauto.
  - rewrite for_items_cons. destruct (body_total page item st Hd) as [c ->].
    destruct c; [apply IH|eauto].
Qed.

Lemma scan_pages_raise (per_page : Z) (pages : list Z) (st : S) (tr tr' : list request) (e : exn) :
  scan_pages client_request path per_page base_query body pages st tr
  = (Raise e, tr') ->
  exists done p rest,
    pages = done ++ p :: rest
    /\ tr' = tr ++ map (page_request path per_page base_query) (done ++ [p])
    /\ client_request (page_request path per_page base_query p) = Raise e.
Proof.
  revert st tr. induction pages as [|page pages IH]; intros st tr H; [discriminate|].
  simpl in H.
  destruct (scan_page client_request path per_page base_query body page st)
    as [[st'|st']|e'] eqn:Es.
  - destruct (IH _ _ H) as (done & p & rest & -> & -> & Hp).
    exists (page :: done), p, rest. split; [reflexivity|]. split; [|exact Hp].
    rewrite <- app_assoc. reflexivity.
  - discriminate.
  - injection H as <- <-. exists [], page, pages.
    split; [reflexivity|]. split; [reflexivity|].
    rewrite scan_page_unfold in Es.
    destruct (client_request _) as [payload|e0] eqn:Ec; [|congruence].
    destruct (for_items_total page (page_items payload) st) as [c Hc].
    { apply List.Forall_forall. intros item. apply page_items_dict. }
    rewrite Hc in Es. destruct c; discriminate.
Qed.

Lemma iter_paginated_raise (per_page max_pages : Z) (st : S) (e : exn) :
  fst (_iter_paginated client_request path per_page max_pages base_query body st)
  = Raise e ->
  exists n,
    1 <= n <= clamp_max_pages max_pages
    /\ snd (_iter_paginated client_request path per_page max_pages base_query body st)
       = requests_upto path (clamp_per_page per_page) base_query n
    /\ client_request (page_request path (clamp_per_page per_page) base_query n)
       = Raise e.
Proof.
  rewrite iter_paginated_unfold.
  destruct (scan_pages _ _ _ _ _ _ _ _) as [r tr] eqn:E. simpl.
  destruct r as [f|e']; [discriminate|]. intros [= ->].
  destruct (scan_pages_raise _ _ _ _ _ _ E) as (done & p & rest & Hpages & -> & Hp).
  assert (Hpre : py_range 1 (clamp_max_pages max_pages + 1) = (done ++ [p]) ++ rest).
  { rewrite Hpages, <- app_assoc. reflexivity. }
  pose proof (py_range_prefix _ _ _ _ Hpre) as Hd.
  assert (Hlen : Z.of_nat (length ((done ++ [p]) ++ rest))
                 = clamp_max_pages max_pages).
  { rewrite <- Hpre, py_range_length; unfold clamp_max_pages; lia. }
  rewrite length_app in Hlen.
  set (n := Z.of_nat (length (done ++ [p]))) in *.
  assert (Hn : 1 <= n).
  { unfold n. rewrite length_app. simpl. lia. }
  replace (1 + n) with (n + 1) in Hd by lia.
  pose proof Hd as Hd'. rewrite py_range_snoc in Hd' by lia.
  apply app_inj_tail in Hd'. destruct Hd' as [_ Hpn].
  exists n. split; [lia|]. split; [|now rewrite <- Hpn].
  simpl. unfold requests_upto. now rewrite <- Hd.
Qed.

End PaginatorFailures.

Lemma iter_paginated_no_record {S : Type} (client_request : request -> result json)
    (path : string) (per_page max_pages : Z)
    (base_query : option (list (string * json)))
    (body : Z -> json -> S -> result (ctl S)) (st : S) (payload : json) :
  client_request (page_request path (clamp_per_page per_page) base_query 1)
  = Ok payload ->
  page_items payload = [] ->
  _iter_paginated client_request path per_page max_pages base_query body st
  = (Ok st, [page_request path (clamp_per_page per_page) base_query 1]).
Proof.
  intros Hc Hitems. rewrite iter_paginated_unfold.
  rewrite py_range_cons by (unfold clamp_max_pages; lia).
  simpl scan_pages. rewrite scan_page_unfold, Hc, Hitems. simpl for_items.
  cbv iota. now rewrite orb_true_r.
Qed.

(** ** Outcomes of a search *)

Lemma Forall2_nil_r (A B : Type) (R : A -> B -> Prop) (l : list A) :
  Forall2 R l [] -> l = [].
Proof. now inversion 1. Qed.

Lemma flat_map_singletons (A B : Type) (f : A -> list B) (l : list A) :
  (forall x, In x l -> exists y, f x = [y]) ->
  length (flat_map f l) = length l.
Proof.
  induction l as [|x l IH]; intros H; [reflexivity|]. simpl.
  destruct (H x (or_introl eq_refl)) as [y ->]. simpl. f_equal.
  apply IH. intros x' Hx'. apply H. now right.
Qed.

Lemma flat_map_nils (A B : Type) (f : A -> list B) (l : list A) :
  (forall x, f x = []) -> flat_map f l = [].
Proof.
  intros H. induction l as [|x l IH]; [reflexivity|]. simpl. now rewrite H, IH.
Qed.

Lemma flat_map_length_le (A B : Type) (f : A -> list B) (l : list A) :
  (forall x, (length (f x) <= 1)%nat) ->
  (length (flat_map f l) <= length l)%nat.
Proof.
  intros H. induction l as [|x l IH]; [reflexivity|]. simpl.
  rewrite length_app. specialize (H x). lia.
Qed.

Section MoreSearch.

Variable ratio : string -> string -> Q.
Variable py_repr : json -> string.
Variable ellipsis : string.
Variable client_request : request -> result json.
Variables (path query kind : string) (limit max_pages per_page : Z) (min_score : Q).

Let q := PyStr.strip query.
Let lim := clamp_limit limit.
Let pp := clamp_per_page per_page.
Let mp := clamp_max_pages max_pages.
Let rq := page_request path pp None.
Let search :=
  _fuzzy_search ratio py_repr ellipsis client_request path query limit max_pages
    per_page min_score kind.

Lemma accepted_at_most_one (attrs : json) :
  (length (accepted_of ratio py_repr kind q min_score attrs) <= 1)%nat.
Proof.
  unfold accepted_of. destruct (best_score_of _ _ _ _ _) as [[s f]|]; [|simpl; lia].
  destruct (Qltb s min_score); simpl; lia.
Qed.

Lemma accepted_none (attrs : json) :
  (100 < min_score)%Q -> accepted_of ratio py_repr kind q min_score attrs = [].
Proof.
  intros Hm. unfold accepted_of, best_score_of.
  destruct (fields_of py_repr kind attrs) as [fields|]; [|reflexivity].
  pose proof (best_of_range ratio py_repr q fields) as Hr.
  destruct (best_of ratio py_repr q fields) as [s f]. simpl in Hr.
  assert (Hlt : Qltb s min_score = true) by (apply Qltb_true; lra).
  now rewrite Hlt.
Qed.

Lemma fields_of_dict (attrs : json) :
  kind = "user" \/ kind = "server" -> is_dict attrs ->
  exists fields, fields_of py_repr kind attrs = Some fields.
Proof.
  intros Hk Hd. destruct attrs as [| | | | | |d]; try discriminate.
  unfold fields_of. destruct Hk as [->| ->]; simpl; eauto.
Qed.

Lemma accepted_all (attrs : json) :
  kind = "user" \/ kind = "server" -> is_dict attrs -> (min_score <= 0)%Q ->
  exists t, accepted_of ratio py_repr kind q min_score attrs = [t].
Proof.
  intros Hk Hd Hm. unfold accepted_of, best_score_of.
  destruct (fields_of_dict attrs Hk Hd) as [fields ->].
  pose proof (best_of_range ratio py_repr q fields) as Hr.
  destruct (best_of ratio py_repr q fields) as [s f]. simpl in Hr.
  assert (Hlt : Qltb s min_score = false) by (apply Qltb_false; lra).
  rewrite Hlt. eauto.
Qed.

(** X15. A search that returns has at most as many matches as the clamped
    limit and as the records it scanned. With a minimum score above 100 it
    has no match; with a minimum score of 0 or less, a search for users or
    servers has as many matches as the smaller of the clamped limit and the
    number of records scanned. *)
Theorem matches_by_threshold (out : json) :
  fst search = Ok out ->
  exists ms n,
    member out "matches" = JList ms
    /\ member (member out "scanned") "items" = JInt n
    /\ Z.of_nat (length ms) <= Z.min lim n
    /\ ((100 < min_score)%Q -> ms = [])
    /\ ((min_score <= 0)%Q -> kind = "user" \/ kind = "server" ->
        Z.of_nat (length ms) = Z.min lim n).
Proof.
  intros Hout.
  assert (Hq : q <> "") by (apply (search_ok_query _ _ _ _ _ _ _ _ _ _ _ _ Hout)).
  destruct (search_outcome ratio py_repr ellipsis client_request path query kind
              limit max_pages per_page min_score Hq)
    as [(e & He & _)|(ms & Hms & Hrep & Hy & _)].
  { unfold search in Hout. congruence. }
  unfold search in Hout. rewrite Hms in Hout. apply Ok_inj in Hout. subst out.
  set (log := search_log ratio py_repr client_request path query limit max_pages
                per_page min_score kind) in *.
  exists ms, (Z.of_nat (length log)).
  split; [reflexivity|]. split; [reflexivity|].
  apply Forall2_length in Hrep.
  unfold search_top, search_accepted, accepted_among in Hrep. fold log q in Hrep.
  rewrite length_firstn, sort_desc_length in Hrep.
  assert (Hlim : 1 <= lim <= 50) by (unfold lim, clamp_limit; lia).
  fold lim in Hrep.
  split; [|split].
  - pose proof (flat_map_length_le _ _ _ (map snd log) accepted_at_most_one) as Hle.
    rewrite length_map in Hle. lia.
  - intros Hm. rewrite (flat_map_nils _ _ _ _ (fun x => accepted_none x Hm)) in Hrep.
    simpl in Hrep. rewrite Nat.min_0_r in Hrep. now destruct ms.
  - intros Hm Hk. rewrite flat_map_singletons, length_map in Hrep; [lia|].
    intros attrs Hin. apply accepted_all; try assumption.
    apply in_map_iff in Hin. destruct Hin as ([page a] & <- & Hin).
    rewrite List.Forall_forall in Hy. destruct (Hy _ Hin) as (payload & _ & Hitem).
    now apply page_items_dict in Hitem.
Qed.

(** X16. A search fails in two ways only: on a blank query, before any
    request, with the [ValueError] of the query; and as the last request
    that it sent failed, with the exception of that request. No payload
    makes it fail. *)
Theorem search_failures (e : exn) :
  fst search = Raise e ->
  (q = "" /\ e = ValueError "query must be a non-empty string" /\ snd search = [])
  \/ (q <> ""
      /\ exists n, 1 <= n <= mp
                   /\ snd search = requests_upto path pp None n
                   /\ client_request (rq n) = Raise e).
Proof.
  intros He. destruct (String.eqb_spec q "") as [Hq|Hq].
  - left. split; [exact Hq|]. unfold search in *.
    rewrite (fuzzy_search_empty ratio py_repr ellipsis client_request path query kind
               limit max_pages per_page min_score Hq) in *.
    simpl in *. split; [congruence|reflexivity].
  - right. split; [exact Hq|].
    destruct (search_outcome ratio py_repr ellipsis client_request path query kind
                limit max_pages per_page min_score Hq)
      as [(e' & He' & _ & Hit)|(ms & Hms & _)].
    + unfold search in He. rewrite He in He'. injection He' as <-.
      unfold search. rewrite (search_trace _ _ _ _ _ _ _ _ _ _ _ Hq).
      apply iter_paginated_raise; [|exact Hit].
      intros page item s Hd. now apply search_body_total.
    + unfold search in He. congruence.
Qed.

Lemma finalize_start :
  q <> "" ->
  finalize py_repr ellipsis kind q lim scan_start = Ok (search_result q [] 0 0).
Proof.
  intros Hq.
  destruct (finalize_spec py_repr ellipsis kind q lim scan_start Hq)
    as (ms & Hf & Hrep); [constructor|].
  rewrite Hf. unfold top_matches in Hrep. simpl in Hrep.
  rewrite firstn_nil in Hrep. apply Forall2_nil_r in Hrep. now subst ms.
Qed.

(** X17. When the first page of a search carries no record, the search
    sends this one request and returns no match, with 0 items and 0 pages
    scanned. *)
Theorem search_empty_first_page (payload : json) :
  q <> "" ->
  client_request (rq 1) = Ok payload ->
  page_items payload = [] ->
  search = (Ok (search_result q [] 0 0), [rq 1]).
Proof.
  intros Hq Hc Hitems. unfold search.
  rewrite (fuzzy_search_unfold _ _ _ _ _ _ _ _ _ _ _ Hq).
  fold q lim. rewrite (iter_paginated_no_record _ _ _ _ _ _ _ payload); try assumption.
  now rewrite finalize_start.
Qed.

End MoreSearch.

Lemma matches_by_threshold_witness :
  exists out ms,
    fst (_fuzzy_search Difflib.ratio repr_unused ellipsis_utf8 sample_panel
           users_path "zzz" 2 5 100 0 "user") = Ok out
    /\ member out "matches" = JList ms
    /\ length ms = 2%nat.
Proof.
  destruct (_fuzzy_search Difflib.ratio repr_unused ellipsis_utf8 sample_panel
              users_path "zzz" 2 5 100 0 "user") as [[out|e] tr] eqn:E;
    [|vm_compute in E; discriminate].
  destruct (matches_by_threshold Difflib.ratio repr_unused ellipsis_utf8 sample_panel
              users_path "zzz" "user" 2 5 100 0 out) as (ms & n & Hm & Hn & _ & _ & Hall).
  { now rewrite E. }
  exists out, ms. split; [reflexivity|]. split; [exact Hm|].
  assert (Hn3 : n = 3).
  { vm_compute in E. injection E as <- _. vm_compute in Hn. congruence. }
  specialize (Hall ltac:(vm_compute; discriminate) (or_introl eq_refl)).
  subst n. unfold clamp_limit in Hall. lia.
Defined.

Lemma search_failures_witness :
  snd (_fuzzy_search Difflib.ratio repr_unused ellipsis_utf8
         (fun _ => Raise (RuntimeError "Pterodactyl API error 500: oops"))
         users_path "john" 10 5 100 55 "user")
  = requests_upto users_path 100 None 1.
Proof.
  destruct (search_failures Difflib.ratio repr_unused ellipsis_utf8
              (fun _ => Raise (RuntimeError "Pterodactyl API error 500: oops"))
              users_path "john" "user" 10 5 100 55
              (RuntimeError "Pterodactyl API error 500: oops") eq_refl)
    as [(Hq & _)|(_ & n & _ & _ & _)].
  - vm_compute in Hq. discriminate.
  - reflexivity.
Defined.

Lemma search_empty_first_page_witness :
  _fuzzy_search Difflib.ratio repr_unused ellipsis_utf8
    (fun _ => Ok (JDict [("status", JInt 204)])) users_path " john " 10 5 100 55 "user"
  = (Ok (search_result "john" [] 0 0), [page_request users_path 100 None 1]).
Proof.
  apply (search_empty_first_page Difflib.ratio repr_unused ellipsis_utf8
           (fun _ => Ok (JDict [("status", JInt 204)])) users_path " john " "user"
           10 5 100 55 (JDict [("status", JInt 204)]));
    [vm_compute; discriminate|reflexivity|reflexivity].
Defined.

(** ** The first request of a tool *)

Section FirstRequest.

Variable ratio : string -> string -> Q.
Variable py_repr : json -> string.
Variable ellipsis : string.
Variable client_request : request -> result json.

Lemma search_first_page_fails (path query kind : string)
    (limit max_pages per_page : Z) (min_score : Q) (e : exn) :
  PyStr.strip query <> "" ->
  client_request (page_request path (clamp_per_page per_page) None 1) = Raise e ->
  _fuzzy_search ratio py_repr ellipsis client_request path query limit max_pages
    per_page min_score kind
  = (Raise e, [page_request path (clamp_per_page per_page) None 1]).
Proof.
  intros Hq Hc.
  rewrite (fuzzy_search_unfold _ _ _ _ _ _ _ _ _ _ _ Hq), iter_paginated_unfold.
  rewrite py_range_cons by (unfold clamp_max_pages; lia).
  simpl scan_pages. rewrite scan_page_unfold, Hc. reflexivity.
Qed.

Lemma compact_list_fails (path kind : string) (page per_page : Z) (e : exn) :
  client_request (list_request path (Z.max 1 page) (clamp_per_page per_page))
  = Raise e ->
  _compact_list py_repr ellipsis client_request path page per_page kind
  = (Raise e, [list_request path (Z.max 1 page) (clamp_per_page per_page)]).
Proof.
  intros Hc. unfold _compact_list. cbv zeta. fold (clamp_per_page per_page).
  now rewrite Hc.
Qed.

Lemma get_total_fails (path : string) (e : exn) :
  client_request (total_request path) = Raise e ->
  _get_total py_repr client_request path = (Raise e, [total_request path]).
Proof. intros Hc. now rewrite get_total_unfold, Hc. Qed.

(** X18. Each tool fails as its first request fails, with the exception of
    the request and without another request: a search with a query that
    is not blank, a listing, the summary of an account or of a server and
    the count of a collection. *)
Theorem first_request_failure (e : exn) :
  (forall path query kind limit max_pages per_page min_score,
     PyStr.strip query <> "" ->
     client_request (page_request path (clamp_per_page per_page) None 1) = Raise e ->
     _fuzzy_search ratio py_repr ellipsis client_request path query limit max_pages
       per_page min_score kind
     = (Raise e, [page_request path (clamp_per_page per_page) None 1]))
  /\ (forall path kind page per_page,
        client_request (list_request path (Z.max 1 page) (clamp_per_page per_page))
        = Raise e ->
        _compact_list py_repr ellipsis client_request path page per_page kind
        = (Raise e, [list_request path (Z.max 1 page) (clamp_per_page per_page)]))
  /\ (forall id,
        client_request (item_request ("/api/application/users/" +:+ py_str py_repr id))
        = Raise e ->
        ptero_ai_get_user_summary py_repr client_request id
        = (Raise e, [item_request ("/api/application/users/" +:+ py_str py_repr id)]))
  /\ (forall id,
        client_request (item_request ("/api/application/servers/" +:+ py_str py_repr id))
        = Raise e ->
        ptero_ai_get_server_summary py_repr ellipsis client_request id
        = (Raise e, [item_request ("/api/application/servers/" +:+ py_str py_repr id)]))
  /\ (forall path,
        client_request (total_request path) = Raise e ->
        _get_total py_repr client_request path = (Raise e, [total_request path])).
Proof.
  split; [intros; now apply search_first_page_fails|].
  split; [intros; now apply compact_list_fails|].
  split; [intros id Hc; unfold ptero_ai_get_user_summary; now rewrite Hc|].
  split; [intros id Hc; unfold ptero_ai_get_server_summary; now rewrite Hc|].
  intros; now apply get_total_fails.
Qed.

Lemma totals_of_cons (name path : string) (rest : list (string * string))
    (tr : list request) :
  totals_of py_repr client_request ((name, path) :: rest) tr =
  match _get_total py_repr client_request path with
  | (Raise e, tr1) => (Raise e, tr ++ tr1)
  | (Ok n, tr1) =>
      match totals_of py_repr client_request rest (tr ++ tr1) with
      | (Raise e, tr2) => (Raise e, tr2)
      | (Ok entries, tr2) => (Ok ((name, n) :: entries), tr2)
      end
  end.
Proof. reflexivity. Qed.

(** The counts of the panel, one collection after the other. *)
Lemma totals_of_spec (paths : list (string * string)) (tr : list request) :
  match totals_of py_repr client_request paths tr with
  | (Ok entries, tr') =>
      tr' = tr ++ map (fun p => total_request (snd p)) paths
      /\ Forall2 (fun entry p =>
           fst entry = fst p
           /\ fst (_get_total py_repr client_request (snd p)) = Ok (snd entry))
           entries paths
  | (Raise e, tr') =>
      exists done p rest,
        paths = done ++ p :: rest
        /\ tr' = tr ++ map (fun p => total_request (snd p)) (done ++ [p])
        /\ fst (_get_total py_repr client_request (snd p)) = Raise e
        /\ Forall (fun d => exists n,
             fst (_get_total py_repr client_request (snd d)) = Ok n) done
  end.
Proof.
  revert tr. induction paths as [|[name path] paths IH]; intros tr.
  - simpl. split; [now rewrite app_nil_r|constructor].
  - rewrite totals_of_cons.
    assert (Htr : snd (_get_total py_repr client_request path) = [total_request path])
      by now rewrite get_total_unfold.
    destruct (_get_total py_repr client_request path) as [[n|e] tr1] eqn:Eg;
      simpl in Htr; subst tr1.
    + specialize (IH (tr ++ [total_request path])).
      destruct (totals_of py_repr client_request paths (tr ++ [total_request path]))
        as [[entries|e] tr2].
      * destruct IH as [-> HF]. split; [now rewrite <- app_assoc|].
        constructor; [|exact HF]. split; [reflexivity|]. simpl snd. now rewrite Eg.
      * destruct IH as (done & p & rest & -> & -> & Hp & Hd).
        exists ((name, path) :: done), p, rest.
        split; [reflexivity|]. split; [now rewrite <- app_assoc|].
        split; [exact Hp|]. constructor; [|exact Hd]. exists n. simpl snd. now rewrite Eg.
    + exists [], (name, path), paths. split; [reflexivity|]. split; [reflexivity|].
      split; [simpl snd; now rewrite Eg|constructor].
Qed.

(** X19. [ptero_ai_panel_totals] counts users, servers, nodes, locations
    and nests in this order, with one request each. When it returns, its
    entries are the five counts under these names; when it fails, it has
    stopped at the first collection whose count fails, with the exception
    of that count, and has sent no request for the later ones. *)
Theorem panel_totals_in_order :
  match ptero_ai_panel_totals py_repr client_request with
  | (Ok entries, tr) =>
      tr = map (fun p => total_request (snd p)) panel_collections
      /\ map fst entries = map fst panel_collections
      /\ Forall2 (fun entry p =>
           fst (_get_total py_repr client_request (snd p)) = Ok (snd entry))
           entries panel_collections
  | (Raise e, tr) =>
      exists done p rest,
        panel_collections = done ++ p :: rest
        /\ tr = map (fun p => total_request (snd p)) (done ++ [p])
        /\ fst (_get_total py_repr client_request (snd p)) = Raise e
        /\ Forall (fun d => exists n,
             fst (_get_total py_repr client_request (snd d)) = Ok n) done
  end.
Proof.
  pose proof (totals_of_spec panel_collections []) as H.
  unfold ptero_ai_panel_totals. fold panel_collections.
  destruct (totals_of py_repr client_request panel_collections []) as [[entries|e] tr].
  - destruct H as [-> HF]. split; [reflexivity|]. split.
    + clear -HF. induction HF as [|x y l l' Hxy _ IH]; [reflexivity|].
      simpl in *. destruct Hxy as [Hxy _]. now rewrite Hxy, IH.
    + eapply Forall2_impl; [exact HF|]. intros x y Hxy. simpl in Hxy. tauto.
  - exact H.
Qed.

End FirstRequest.

Lemma first_request_failure_witness :
  _get_total repr_unused (fun _ => Raise (RuntimeError "Pterodactyl API error 403: "))
    users_path
  = (Raise (RuntimeError "Pterodactyl API error 403: "), [total_request users_path]).
Proof.
  apply (first_request_failure Difflib.ratio repr_unused ellipsis_utf8
           (fun _ => Raise (RuntimeError "Pterodactyl API error 403: "))
           (RuntimeError "Pterodactyl API error 403: ")).
  reflexivity.
Defined.

(** ** The client *)

Section ClientTheorems.

Variable ratio : string -> string -> Q.
Variable py_repr : json -> string.
Variable ellipsis : string.
Variable http : request -> option json -> result http_response.

Lemma client_request_unfold (rq : request) (body : option json) :
  PterodactylClient_request py_repr http rq body =
  match http rq body with
  | Raise e => Raise e
  | Ok resp =>
      if status_code resp =? 204 then Ok (JDict [("status", JInt 204)])
      else if 400 <=? status_code resp then Raise (api_error py_repr resp)
      else Ok (payload_of resp)
  end.
Proof.
  unfold PterodactylClient_request. now destruct (http rq body).
Qed.

(** X20. A request of the client raises exactly when the transport raises,
    with its exception, or answers a status of 400 or more, with a
    [RuntimeError] that names the status and the payload. It returns the
    mapping of the one key status for the status 204, and else the body of
    the response: as JSON when it parses, as text otherwise. The raw tool
    rejects a path outside /api/application/ before any request, and
    otherwise hands its arguments to the client in one request. *)
Theorem client_request_outcomes (rq : request) (body : option json) :
  let call := PterodactylClient_request py_repr http rq body in
  (forall e, call = Raise e <->
     http rq body = Raise e
     \/ exists resp, http rq body = Ok resp /\ 400 <= status_code resp
                     /\ e = api_error py_repr resp)
  /\ (forall payload, call = Ok payload <->
        exists resp, http rq body = Ok resp
          /\ ((status_code resp = 204 /\ payload = JDict [("status", JInt 204)])
              \/ (status_code resp < 400 /\ status_code resp <> 204
                  /\ payload = payload_of resp)))
  /\ (forall query,
        let raw := ptero_app_request py_repr http (req_method rq) (req_path rq)
                     query body in
        (PyStr.startswith (req_path rq) "/api/application/" = false ->
         raw = (Raise (ValueError "path must start with /api/application/"), []))
        /\ (PyStr.startswith (req_path rq) "/api/application/" = true ->
            req_query rq = match query with Some q => q | None => [] end ->
            raw = (call, [(rq, body)]))).
Proof.
  intros call. unfold call. rewrite client_request_unfold.
  split; [|split].
  - intros e. destruct (http rq body) as [resp|e0].
    + destruct (Z.eqb_spec (status_code resp) 204) as [H204|H204].
      * split; [discriminate|]. intros [H|(r & [= <-] & Hs & _)]; [discriminate|lia].
      * destruct (Z.leb_spec 400 (status_code resp)) as [H400|H400].
        { split.
          - intros [= <-]. right. eauto.
          - intros [H|(r & [= <-] & _ & ->)]; [discriminate|reflexivity]. }
        split; [discriminate|].
        intros [H|(r & [= <-] & Hs & _)]; [discriminate|lia].
    + split.
      * intros [= <-]. now left.
      * intros [[= <-]|(r & H & _)]; [reflexivity|discriminate].
  - intros payload. destruct (http rq body) as [resp|e0].
    + destruct (Z.eqb_spec (status_code resp) 204) as [H204|H204].
      * split.
        { intros [= <-]. exists resp. split; [reflexivity|]. now left. }
        intros (r & [= <-] & [[_ ->]|(_ & Hn & _)]); [reflexivity|contradiction].
      * destruct (Z.leb_spec 400 (status_code resp)) as [H400|H400].
        { split; [discriminate|].
          intros (r & [= <-] & [[Hs _]|(Hs & _)]); [contradiction|lia]. }
        split.
        { intros [= <-]. exists resp. split; [reflexivity|]. right. auto. }
        intros (r & [= <-] & [[Hs _]|(_ & _ & ->)]); [contradiction|reflexivity].
    + split; [discriminate|]. intros (r & H & _). discriminate.
  - intros query. unfold ptero_app_request. split.
    + intros ->. reflexivity.
    + intros -> Hq. simpl negb. cbv iota. destruct rq as [m p qs]. simpl in *.
      subst qs. now rewrite client_request_unfold.
Qed.

Lemma client_of_blank (rq : request) (resp : http_response) :
  http rq None = Ok resp ->
  status_code resp = 204 \/ (status_code resp < 400 /\ json_body resp = None) ->
  exists payload,
    client_of py_repr http rq = Ok payload
    /\ page_items payload = []
    /\ declared_pagination payload = None
    /\ declared_attributes payload = None.
Proof.
  intros Hh Hs. unfold client_of. rewrite client_request_unfold, Hh.
  destruct (Z.eqb_spec (status_code resp) 204) as [H204|H204].
  - eexists. split; [reflexivity|]. repeat split.
  - destruct Hs as [Hs|[Hs Hj]]; [contradiction|].
    replace (400 <=? status_code resp) with false by lia.
    unfold payload_of. rewrite Hj. eexists. split; [reflexivity|]. repeat split.
Qed.

(** X21. When the panel answers the first request of a tool with the
    status 204, or with a status below 400 and a body that is not JSON, no
    tool fails: a search returns no match with 0 items and 0 pages scanned,
    a listing returns an empty list and an empty pagination, a summary is
    the empty mapping and the count of a collection is 0. *)
Theorem blank_answers (resp : http_response) :
  status_code resp = 204 \/ (status_code resp < 400 /\ json_body resp = None) ->
  let client := client_of py_repr http in
  (forall path query kind limit max_pages per_page min_score,
     PyStr.strip query <> "" ->
     http (page_request path (clamp_per_page per_page) None 1) None = Ok resp ->
     _fuzzy_search ratio py_repr ellipsis client path query limit max_pages
       per_page min_score kind
     = (Ok (search_result (PyStr.strip query) [] 0 0),
        [page_request path (clamp_per_page per_page) None 1]))
  /\ (forall path kind page per_page,
        http (list_request path (Z.max 1 page) (clamp_per_page per_page)) None
        = Ok resp ->
        fst (_compact_list py_repr ellipsis client path page per_page kind)
        = Ok (JDict [(if String.eqb kind "user" then "users" else "servers", JList []);
                     ("pagination", JDict [])]))
  /\ (forall id,
        http (item_request ("/api/application/users/" +:+ py_str py_repr id)) None
        = Ok resp ->
        fst (ptero_ai_get_user_summary py_repr client id) = Ok (JDict []))
  /\ (forall id,
        http (item_request ("/api/application/servers/" +:+ py_str py_repr id)) None
        = Ok resp ->
        fst (ptero_ai_get_server_summary py_repr ellipsis client id) = Ok (JDict []))
  /\ (forall path,
        http (total_request path) None = Ok resp ->
        _get_total py_repr client path = (Ok 0, [total_request path])).
Proof.
  intros Hs client. split; [|split; [|split; [|split]]].
  - intros path query kind limit max_pages per_page min_score Hq Hh.
    destruct (client_of_blank _ _ Hh Hs) as (payload & Hc & Hitems & _).
    rewrite (fuzzy_search_unfold _ _ _ _ _ _ _ _ _ _ _ Hq).
    rewrite (iter_paginated_no_record _ _ _ _ _ _ _ payload); try assumption.
    now rewrite (finalize_start py_repr ellipsis query kind limit Hq).
  - intros path kind page per_page Hh.
    destruct (client_of_blank _ _ Hh Hs) as (payload & Hc & Hitems & Hpag & _).
    unfold _compact_list. cbv zeta. fold (clamp_per_page per_page). simpl fst.
    fold client in Hc. rewrite Hc. simpl mbind.
    rewrite extract_list_items_spec. fold (page_items payload). rewrite Hitems.
    simpl mbind. rewrite extract_pagination_spec, Hpag. reflexivity.
  - intros id Hh.
    destruct (client_of_blank _ _ Hh Hs) as (payload & Hc & _ & _ & Hattrs).
    unfold ptero_ai_get_user_summary. simpl fst. fold client in Hc. rewrite Hc.
    simpl mbind. rewrite extract_attributes_unfold, Hattrs.
    reflexivity.
  - intros id Hh.
    destruct (client_of_blank _ _ Hh Hs) as (payload & Hc & _ & _ & Hattrs).
    unfold ptero_ai_get_server_summary. simpl fst. fold client in Hc. rewrite Hc.
    simpl mbind. rewrite extract_attributes_unfold, Hattrs.
    reflexivity.
  - intros path Hh.
    destruct (client_of_blank _ _ Hh Hs) as (payload & Hc & _ & Hpag & _).
    apply (get_total_zero py_repr client path payload); [exact Hc|].
    now rewrite Hpag.
Qed.

End ClientTheorems.

Lemma client_request_outcomes_witness :
  ptero_app_request repr_unused
    (fun _ _ => Ok {| status_code := 204; json_body := None; text := "" |})
    "DELETE" "/api/application/users/7" None None
  = (Ok (JDict [("status", JInt 204)]),
     [({| req_method := "DELETE"; req_path := "/api/application/users/7";
          req_query := [] |}, None)]).
Proof.
  pose proof (client_request_outcomes repr_unused
    (fun _ _ => Ok {| status_code := 204; json_body := None; text := "" |})
    {| req_method := "DELETE"; req_path := "/api/application/users/7";
       req_query := [] |} None) as H.
  cbv zeta in H. destruct H as (_ & _ & H).
  destruct (H None) as [_ Hraw]. exact (Hraw eq_refl eq_refl).
Defined.

Lemma blank_answers_witness :
  _get_total repr_unused
    (client_of repr_unused
       (fun _ _ => Ok {| status_code := 200; json_body := None; text := "<html>" |}))
    users_path
  = (Ok 0, [total_request users_path]).
Proof.
  pose proof (blank_answers Difflib.ratio repr_unused ellipsis_utf8
    (fun _ _ => Ok {| status_code := 200; json_body := None; text := "<html>" |})
    {| status_code := 200; json_body := None; text := "<html>" |}) as H.
  cbv zeta in H. destruct H as (_ & _ & _ & _ & H).
  - right. split; [reflexivity|reflexivity].
  - now apply H.
Defined.

(** * [server.py] *)

Lemma has_char_append (c : ascii) (a b : string) :
  has_char c (a +:+ b) = has_char c a || has_char c b.
Proof.
  induction a as [|x a IH]; [reflexivity|]. rewrite append_cons. simpl.
  now rewrite IH, orb_assoc.
Qed.

Lemma split_on_from_clean (sep : ascii) (s seg : string) :
  has_char sep seg = false ->
  Forall (fun part => has_char sep part = false) (PyMore.split_on_from sep seg s).
Proof.
  revert seg. induction s as [|c s IH]; intros seg Hseg; simpl.
  - constructor; [exact Hseg|constructor].
  - destruct (Ascii.eqb c sep) eqn:E.
    + constructor; [exact Hseg|]. now apply IH.
    + apply IH. rewrite has_char_append, Hseg. simpl. now rewrite E.
Qed.

Lemma drop_last_clean (c : ascii) (s : string) :
  has_char c s = false -> has_char c (PyMore.drop_last s) = false.
Proof.
  induction s as [|a s IH]; [reflexivity|]. simpl. intros H.
  apply orb_false_iff in H. destruct H as [Ha Hs].
  destruct s; [reflexivity|]. simpl. rewrite Ha. simpl.
  exact (IH Hs).
Qed.

Lemma replace_char_gone (a b : ascii) (s : string) :
  a <> b -> has_char a (PyMore.replace_char a b s) = false.
Proof.
  intros Hab. induction s as [|c s IH]; [reflexivity|]. simpl. rewrite IH.
  destruct (Ascii.eqb c a) eqn:E.
  - rewrite orb_false_r. apply Ascii.eqb_neq. congruence.
  - now rewrite E.
Qed.

Lemma replace_char_clean (a b c : ascii) (s : string) :
  b <> c -> has_char c s = false ->
  has_char c (PyMore.replace_char a b s) = false.
Proof.
  intros Hbc. induction s as [|x s IH]; [reflexivity|]. simpl. intros H.
  apply orb_false_iff in H. destruct H as [Hx Hs]. rewrite (IH Hs).
  destruct (Ascii.eqb x a); [|now rewrite Hx].
  rewrite orb_false_r. now apply Ascii.eqb_neq.
Qed.

Lemma tool_segment_clean (segment : string) :
  has_char "/" segment = false ->
  has_char "/" (tool_segment segment) = false
  /\ has_char "-" (tool_segment segment) = false.
Proof.
  intros H. unfold tool_segment. split.
  - apply replace_char_clean; [discriminate|].
    destruct (_ && _); [|exact H].
    destruct segment as [|c s]; [reflexivity|]. simpl in *.
    apply orb_false_iff in H. now apply drop_last_clean.
  - apply replace_char_gone. discriminate.
Qed.

Lemma join_clean (c : ascii) (sep : string) (parts : list string) :
  has_char c sep = false ->
  Forall (fun part => has_char c part = false) parts ->
  has_char c (PyStr.join sep parts) = false.
Proof.
  intros Hsep H. induction H as [|p parts Hp _ IH]; [reflexivity|].
  destruct parts as [|p' parts]; [exact Hp|].
  change (PyStr.join sep (p :: p' :: parts))
    with (p +:+ sep +:+ PyStr.join sep (p' :: parts)).
  now rewrite !has_char_append, Hp, Hsep, IH.
Qed.

(** X22. The name of the tool of a route is ptero_app_, the method in lower
    case, an underscore and a rest made from the path; the rest has no
    slash and no hyphen. The case of the method does not matter. *)
Theorem tool_name_shape (method path : string) :
  (exists rest,
     _tool_name method path = "ptero_app_" +:+ PyStr.lower method +:+ "_" +:+ rest
     /\ has_char "/" rest = false
     /\ has_char "-" rest = false)
  /\ _tool_name (PyStr.lower method) path = _tool_name method path.
Proof.
  split.
  - eexists. split; [reflexivity|].
    set (parts := PyMore.split_on "/" _).
    assert (Hparts : Forall (fun part => has_char "/" part = false) parts).
    { apply split_on_from_clean. reflexivity. }
    split; apply join_clean; try reflexivity; apply List.Forall_map;
      (eapply List.Forall_impl; [|exact Hparts]); intros part Hp;
      now apply tool_segment_clean.
  - unfold _tool_name. now rewrite lower_idem.
Qed.

(** * More on the scorer and the summaries *)

Section ScoreForm.

Variable ratio : string -> string -> Q.

Lemma compact_by_normal (s t : string) :
  _normalize s = _normalize t -> _compact s = _compact t.
Proof.
  intros H. now rewrite <- (compact_normalize s), <- (compact_normalize t), H.
Qed.

(** X23. The similarity score depends on the query and on the candidate
    through their normalized forms only: texts that differ in case, in
    punctuation or in spacing score alike. In particular the score is that
    of the normalized forms, and lower-casing a text does not change it. *)
Theorem score_by_normal_form (query candidate query' candidate' : string) :
  (_normalize query = _normalize query' ->
   _normalize candidate = _normalize candidate' ->
   _string_similarity_score ratio query candidate
   = _string_similarity_score ratio query' candidate')
  /\ _string_similarity_score ratio (_normalize query) (_normalize candidate)
     = _string_similarity_score ratio query candidate
  /\ _string_similarity_score ratio (PyStr.lower query) (PyStr.lower candidate)
     = _string_similarity_score ratio query candidate.
Proof.
  assert (Hgen : forall q c q' c', _normalize q = _normalize q' ->
            _normalize c = _normalize c' ->
            _string_similarity_score ratio q c = _string_similarity_score ratio q' c').
  { intros q c q' c' Hq Hc.
    unfold _string_similarity_score, _token_match_score.
    now rewrite Hq, Hc, (compact_by_normal _ _ Hq), (compact_by_normal _ _ Hc). }
  split; [apply Hgen|]. split.
  - apply Hgen; apply normal_fixed, normalize_is_normal.
  - apply Hgen; unfold _normalize; now rewrite lower_idem.
Qed.

End ScoreForm.

Lemma score_by_normal_form_witness :
  _string_similarity_score Difflib.ratio "J. Smith" "SMITH,  john"
  = _string_similarity_score Difflib.ratio "j smith" "smith john".
Proof.
  apply (score_by_normal_form Difflib.ratio "J. Smith" "SMITH,  john"
           "j smith" "smith john"); reflexivity.
Defined.

(** X24. [_strip_nones] keeps the entries of a mapping in their order,
    without those whose value is [None] or the empty string: a key of the
    mapping has its value in the result unless the value is one of these
    two, no value of the result is one of them, and values such as 0,
    [False] and the empty list stay. Stripping twice changes nothing. *)
Theorem strip_nones_spec (d : list (string * json)) :
  sublist (_strip_nones d) d
  /\ no_blank (_strip_nones d)
  /\ _strip_nones (_strip_nones d) = _strip_nones d
  /\ (forall k v, In (k, v) d -> v <> JNull -> v <> JStr "" ->
      In (k, v) (_strip_nones d))
  /\ (List.NoDup (map fst d) ->
      forall k, member (JDict (_strip_nones d)) k
                = if kept (member (JDict d) k) then member (JDict d) k else JNull).
Proof.
  split; [|split; [apply strip_nones_no_blank|split; [apply strip_nones_idem|split]]].
  - induction d as [|[k v] d IH]; simpl; [constructor|].
    destruct (kept v); now constructor.
  - intros k v Hin Hn He. apply List.filter_In. split; [exact Hin|].
    destruct v as [| | | |s| |]; try reflexivity; [congruence|].
    destruct s; [congruence|reflexivity].
  - intros Hnd k. now apply strip_nones_member.
Qed.

Lemma strip_nones_spec_witness :
  In ("suspended", JBool false)
     (_strip_nones [("name", JStr ""); ("suspended", JBool false); ("id", JNull)]).
Proof.
  apply (strip_nones_spec
           [("name", JStr ""); ("suspended", JBool false); ("id", JNull)]);
    [simpl; tauto|discriminate|discriminate].
Defined.

(** ** Counts *)

Lemma decimal_is_digit (s : string) :
  PyStr.all_chars PyStr.is_decimal_char s = true ->
  PyStr.all_chars PyStr.is_digit_char s = true.
Proof.
  induction s as [|c s IH]; [reflexivity|]. simpl. intros H.
  apply andb_true_iff in H. destruct H as [Hc Hs]. rewrite (IH Hs), andb_true_r.
  unfold PyStr.is_digit_char. unfold PyStr.is_decimal_char in Hc.
  cbv zeta in *. now rewrite Hc.
Qed.

Lemma decimal_value_nonneg (s : string) (acc : Z) :
  0 <= acc -> PyStr.all_chars PyStr.is_decimal_char s = true ->
  0 <= PyStr.decimal_value acc s.
Proof.
  revert acc. induction s as [|c s IH]; intros acc Hacc H; [exact Hacc|].
  simpl in *. apply andb_true_iff in H. destruct H as [Hc Hs].
  apply IH; [|exact Hs]. unfold PyStr.is_decimal_char in Hc. cbv zeta in Hc.
  apply andb_true_iff in Hc. destruct Hc as [Hlo _]. apply N.leb_le in Hlo. lia.
Qed.

Lemma decimal_run_all (s : string) :
  PyStr.all_chars PyStr.is_decimal_char s = true ->
  PyStr.decimal_run s = String.length s.
Proof.
  induction s as [|c s IH]; [reflexivity|]. simpl. intros H.
  apply andb_true_iff in H. destruct H as [Hc Hs]. now rewrite Hc, (IH Hs).
Qed.

Section CountTheorems.

Variable py_repr : json -> string.
Variable client_request : request -> result json.

(** X25. The count of a collection is the total that the pagination of the
    answer declares when this is an integer that is not negative or a
    non-empty string of decimal digits, whose value is then not negative;
    it is 0 for a negative integer, a Boolean, a string that is not made
    of digits, a list, a mapping, [None] and an answer without
    pagination. This holds within the limit of the interpreter on the
    conversions between integers and strings, 4300 digits: a declared
    string of more decimal digits makes the count fail with the
    [ValueError] of the limit, and the integers are taken below it, an
    integer of more digits being the value of no JSON body. *)
Theorem get_total_cases (path : string) (payload : json) :
  client_request (total_request path) = Ok payload ->
  let total :=
    match declared_pagination payload with
    | Some p => member p "total"
    | None => JNull
    end in
  let call := _get_total py_repr client_request path in
  match total with
  | JInt n =>
      - 10 ^ int_max_str_digits < n < 10 ^ int_max_str_digits ->
      call = (Ok (Z.max 0 n), [total_request path])
  | JStr s =>
      (PyStr.isdigit s = false -> call = (Ok 0, [total_request path]))
      /\ (s <> "" -> PyStr.all_chars PyStr.is_decimal_char s = true ->
          Z.of_nat (String.length s) <= int_max_str_digits ->
          call = (Ok (PyStr.decimal_value 0 s), [total_request path])
          /\ 0 <= PyStr.decimal_value 0 s)
      /\ (PyStr.all_chars PyStr.is_decimal_char s = true ->
          int_max_str_digits < Z.of_nat (String.length s) ->
          call = (Raise (ValueError
                    "Exceeds the limit (4300 digits) for integer string conversion"),
                  [total_request path]))
  | JFloat _ => True
  | _ => call = (Ok 0, [total_request path])
  end.
Proof.
  intros Hc total call. unfold call. rewrite get_total_unfold, Hc. fold total.
  cbv zeta. destruct total as [|b|n| |s| |]; try reflexivity.
  - now destruct b.
  - intros _. simpl. destruct (Z.leb_spec 0 n) as [Hn|Hn].
    + rewrite (str_of_int_isdigit n Hn). simpl. now rewrite Z.max_r.
    + rewrite (str_of_negative_not_digit n Hn). simpl. now rewrite Z.max_l by lia.
  - simpl Py.isinstance_int. simpl Py.isinstance_float. simpl Py.isinstance_str.
    simpl py_str. simpl orb. simpl andb. split; [|split].
    + intros Hd. now rewrite Hd.
    + intros Hs Hdec Hlen. split; [|now apply decimal_value_nonneg].
      apply is_empty_false in Hs.
      unfold PyStr.isdigit, py_int.
      rewrite Hs, (decimal_is_digit _ Hdec), Hdec, (decimal_run_all _ Hdec).
      simpl negb. simpl andb. cbv iota.
      now replace (int_max_str_digits <? Z.of_nat (String.length s)) with false by lia.
    + intros Hdec Hlen.
      assert (Hs : PyStr.is_empty s = false).
      { destruct s; [|reflexivity]. unfold int_max_str_digits in Hlen.
        simpl in Hlen. lia. }
      unfold PyStr.isdigit, py_int.
      rewrite Hs, (decimal_is_digit _ Hdec), (decimal_run_all _ Hdec).
      simpl negb. simpl andb. cbv iota.
      now replace (int_max_str_digits <? Z.of_nat (String.length s)) with true by lia.
Qed.

End CountTheorems.

Lemma get_total_cases_witness :
  _get_total repr_unused (client_declaring (JStr "0042")) users_path
  = (Ok 42, [total_request users_path]).
Proof.
  pose proof (get_total_cases repr_unused (client_declaring (JStr "0042")) users_path
                _ eq_refl) as H.
  cbv zeta in H. simpl in H. destruct H as (_ & H & _).
  apply H; [discriminate|reflexivity|vm_compute; discriminate].
Defined.

(** ** An exact match on the first field *)

Section FirstField.

Variable ratio : string -> string -> Q.
Variable py_repr : json -> string.

Lemma best_stays_at_100 (query : string) (fields : list (string * json))
    (f : option string) :
  fold_left (best_step ratio py_repr query) fields (100%Q, f) = (100%Q, f).
Proof.
  induction fields as [|[name v] fields IH]; [reflexivity|]. simpl.
  destruct (Py.truthy v); simpl; [|exact IH].
  pose proof (score_bounds ratio query (py_str py_repr v)) as Hb.
  assert (Hlt : Qltb 100 (_string_similarity_score ratio query (py_str py_repr v))
                = false) by (apply Qltb_false; lra).
  rewrite Hlt. exact IH.
Qed.

Lemma best_of_first (query name : string) (v : json) (rest : list (string * json)) :
  Py.truthy v = true ->
  _string_similarity_score ratio query (py_str py_repr v) = 100%Q ->
  best_of ratio py_repr query ((name, v) :: rest) = (100%Q, Some name).
Proof.
  intros Hv Hs. unfold best_of. simpl. rewrite Hv. simpl. rewrite Hs. simpl.
  apply best_stays_at_100.
Qed.

Lemma user_fields_head (d : list (string * json)) :
  exists rest,
    fields_of py_repr "user" (JDict d)
    = Some (("username", member (JDict d) "username") :: rest).
Proof. eexists. reflexivity. Qed.

Lemma server_fields_head (d : list (string * json)) :
  exists rest,
    fields_of py_repr "server" (JDict d)
    = Some (("name", member (JDict d) "name") :: rest).
Proof. eexists. reflexivity. Qed.

(** X26. A record whose first field candidate has the normalized form of
    the query, or its compact form, the common form not being empty, has
    the best score 100 and is reported as matched on that field, whatever
    its other fields: the username of an account, the name of a server. *)
Theorem exact_first_field (query kind : string) (attrs : json) (value : string) :
  is_dict attrs ->
  (kind = "user" /\ member attrs "username" = JStr value)
  \/ (kind = "server" /\ member attrs "name" = JStr value) ->
  (_normalize query <> "" /\ _normalize query = _normalize value)
  \/ (_compact query <> "" /\ _compact query = _compact value) ->
  best_score_of ratio py_repr kind query attrs
  = Some (100%Q, Some (if String.eqb kind "user" then "username" else "name")).
Proof.
  intros Hd Hk He. destruct attrs as [| | | | | |d]; try discriminate.
  assert (Hq : _normalize query <> "" /\ _normalize value <> "").
  { destruct He as [[Hq He]|[Hq He]].
    - split; [exact Hq|congruence].
    - split; apply compact_nonempty_normalize; congruence. }
  assert (Hv : Py.truthy (JStr value) = true).
  { destruct value; [|reflexivity]. now destruct Hq as [_ Hq]. }
  assert (Hs : _string_similarity_score ratio query (py_str py_repr (JStr value))
               = 100%Q).
  { simpl py_str. apply score_exact; [tauto|tauto|].
    destruct He as [[_ He]|He]; [now left|now right]. }
  unfold best_score_of.
  destruct Hk as [[-> Hm]|[-> Hm]].
  - destruct (user_fields_head d) as [rest ->]. rewrite Hm.
    now rewrite best_of_first.
  - destruct (server_fields_head d) as [rest ->]. rewrite Hm.
    now rewrite best_of_first.
Qed.

End FirstField.

Lemma exact_first_field_witness :
  best_score_of Difflib.ratio repr_unused "user" "J-Smith"
    (JDict [("username", JStr "jsmith"); ("email", JStr "j.smith@example.com")])
  = Some (100%Q, Some "username").
Proof.
  apply (exact_first_field Difflib.ratio repr_unused "J-Smith" "user"
           (JDict [("username", JStr "jsmith"); ("email", JStr "j.smith@example.com")])
           "jsmith").
  - reflexivity.
  - left. split; reflexivity.
  - right. split; [vm_compute; discriminate|reflexivity].
Defined.


(** ** The score that a summary reports *)


Section ReportedScore.

Variable py_repr : json -> string.
Variable ellipsis : string.


End ReportedScore.


(** ** Arguments of a search and of a listing *)

Section ClampedArguments.

Variable ratio : string -> string -> Q.
Variable py_repr : json -> string.
Variable ellipsis : string.
Variable client_request : request -> result json.

(** X28. A search depends on its query through the trimmed query and on
    its limit, page budget and page size through their clamped values: a
    limit below 1 searches as the limit 1 and a limit above 50 as 50, a
    page budget below 1 as 1, a page size below 1 as 1 and above 100 as
    100. A listing depends in the same way on its page, raised to 1 at
    least, and on its page size. *)
Theorem arguments_clamped (path query kind : string)
    (limit max_pages per_page page : Z) (min_score : Q) :
  _fuzzy_search ratio py_repr ellipsis client_request path (PyStr.strip query)
    (clamp_limit limit) (clamp_max_pages max_pages) (clamp_per_page per_page)
    min_score kind
  = _fuzzy_search ratio py_repr ellipsis client_request path query limit max_pages
      per_page min_score kind
  /\ _compact_list py_repr ellipsis client_request path (Z.max 1 page)
       (clamp_per_page per_page) kind
     = _compact_list py_repr ellipsis client_request path page per_page kind
  /\ (limit <= 1 -> clamp_limit limit = 1)
  /\ (50 <= limit -> clamp_limit limit = 50)
  /\ (max_pages <= 1 -> clamp_max_pages max_pages = 1)
  /\ (per_page <= 1 -> clamp_per_page per_page = 1)
  /\ (100 <= per_page -> clamp_per_page per_page = 100).
Proof.
  split; [|split].
  - unfold _fuzzy_search, _iter_paginated. rewrite strip_idem.
    replace (Z.max 1 (Z.min (clamp_limit limit) 50)) with (Z.max 1 (Z.min limit 50))
      by (unfold clamp_limit; lia).
    replace (Z.max 1 (Z.min (clamp_per_page per_page) 100))
      with (Z.max 1 (Z.min per_page 100)) by (unfold clamp_per_page; lia).
    replace (Z.max 1 (clamp_max_pages max_pages)) with (Z.max 1 max_pages)
      by (unfold clamp_max_pages; lia).
    reflexivity.
  - unfold _compact_list.
    replace (Z.max 1 (Z.min (clamp_per_page per_page) 100))
      with (Z.max 1 (Z.min per_page 100)) by (unfold clamp_per_page; lia).
    replace (Z.max 1 (Z.max 1 page)) with (Z.max 1 page) by lia.
    reflexivity.
  - unfold clamp_limit, clamp_max_pages, clamp_per_page. repeat split; lia.
Qed.

End ClampedArguments.

Lemma arguments_clamped_witness :
  clamp_limit 1000 = 50 /\ clamp_per_page 0 = 1.
Proof.
  pose proof (arguments_clamped Difflib.ratio repr_unused ellipsis_utf8 sample_panel
                users_path "john" "user" 1000 5 0 1 55)
    as (_ & _ & _ & Hl & _ & Hp & _).
  split; [apply Hl; lia|apply Hp; lia].
Defined.

(** * The matches and the requests of a search *)

(** ** Summaries of the matches kept *)

Lemma summary_content (py_repr : json -> string) (ellipsis kind : string)
    (m : json) (t : Q * json * option string) :
  (if String.eqb kind "user"
   then _compact_user py_repr (snd (fst t)) (Some (fst (fst t))) (snd t)
   else _compact_server py_repr ellipsis (snd (fst t)) (Some (fst (fst t))) (snd t))
  = Ok m ->
  summarizes py_repr ellipsis kind m t.
Proof.
  intros H. split; [exact H|]. destruct t as [[score attrs] matched_on].
  unfold match_score, summary_fields. simpl fst in *. simpl snd in *.
  destruct attrs as [| | | | | |d];
    try (destruct (String.eqb kind "user"); discriminate).
  destruct (String.eqb kind "user").
  - rewrite compact_user_dict in H. cbv zeta in H. apply Ok_inj in H. subst m.
    split; [|split].
    + unfold reported_score.
      now rewrite strip_nones_member by exact user_keys_nodup.
    + rewrite strip_nones_member by exact user_keys_nodup.
      destruct matched_on as [[|c f]|]; reflexivity.
    + intros k Hk. unfold passed.
      rewrite strip_nones_member by exact user_keys_nodup.
      simpl in Hk. destruct Hk as [<-|[<-|[<-|[<-|[<-|[]]]]]]; reflexivity.
  - rewrite compact_server_dict in H. cbv zeta in H. apply Ok_inj in H. subst m.
    split; [|split].
    + unfold reported_score.
      now rewrite strip_nones_member by exact server_keys_nodup.
    + rewrite strip_nones_member by exact server_keys_nodup.
      destruct matched_on as [[|c f]|]; reflexivity.
    + intros k Hk. unfold passed.
      rewrite strip_nones_member by exact server_keys_nodup.
      simpl in Hk. destruct Hk as [<-|[<-|[<-|[<-|[<-|[<-|[]]]]]]]; reflexivity.
Qed.

Lemma summarize_spec (py_repr : json -> string) (ellipsis kind : string)
    (l : list (Q * json * option string)) (ms : list json) :
  summarize py_repr ellipsis kind l = Ok ms ->
  Forall2 (summarizes py_repr ellipsis kind) ms l.
Proof.
  revert ms. induction l as [|[[score attrs] matched_on] l IH]; intros ms H.
  - simpl in H. apply Ok_inj in H. subst ms. constructor.
  - simpl in H.
    destruct (if String.eqb kind "user"
              then _compact_user py_repr attrs (Some score) matched_on
              else _compact_server py_repr ellipsis attrs (Some score) matched_on)
      as [m|e] eqn:Em; [|discriminate].
    simpl in H. destruct (summarize py_repr ellipsis kind l) as [ms'|e] eqn:El;
      [|discriminate].
    simpl in H. apply Ok_inj in H. subst ms.
    constructor; [|now apply IH]. now apply summary_content.
Qed.

Lemma finalize_matches (py_repr : json -> string) (ellipsis kind query : string)
    (limit : Z) (st : scan_state) (out : json) :
  finalize py_repr ellipsis kind query limit st = Ok out ->
  exists ms,
    summarize py_repr ellipsis kind (top_matches limit st) = Ok ms
    /\ member out "matches" = JList ms.
Proof.
  unfold finalize. intros H.
  destruct (summarize py_repr ellipsis kind (top_matches limit st)) as [ms|e];
    [|discriminate].
  simpl in H. apply Ok_inj in H. subst out. exists ms. split; [reflexivity|].
  now destruct query.
Qed.

Lemma sort_desc_ranking (l : list (Q * json * option string)) :
  ranking (sort_desc match_score l) l.
Proof.
  split; [apply sort_desc_perm|]. split; [apply sort_desc_sorted|].
  intros s. apply sort_desc_stable.
Qed.

Lemma Forall2_In_r (A B : Type) (R : A -> B -> Prop) (l : list A) (l' : list B)
    (y : B) :
  Forall2 R l l' -> In y l' -> exists x, In x l /\ R x y.
Proof.
  induction 1 as [|x y' l l' Hxy _ IH]; intros Hin; [destruct Hin|].
  destruct Hin as [->|Hin]; [exists x; split; [now left|exact Hxy]|].
  destruct (IH Hin) as (x' & Hx' & HR). exists x'. split; [now right|exact HR].
Qed.


(** ** The pages requested *)

Lemma page_request_written (path : string) (per_page page : Z) :
  page_request path (clamp_per_page per_page) None page
  = search_request path per_page page.
Proof. reflexivity. Qed.

Lemma py_range_first_pages (n : Z) :
  0 <= n -> py_range 1 (n + 1) = first_pages (Z.to_nat n).
Proof.
  intros Hn. unfold py_range, first_pages.
  replace (Z.to_nat (n + 1 - 1)) with (Z.to_nat n) by lia.
  rewrite <- seq_shift, map_map. apply map_ext. intros i. lia.
Qed.

Lemma requests_written (path : string) (per_page n : Z) :
  0 <= n ->
  requests_upto path (clamp_per_page per_page) None n
  = map (search_request path per_page) (first_pages (Z.to_nat n)).
Proof.
  intros Hn. unfold requests_upto. rewrite (py_range_first_pages n Hn).
  apply map_ext. intros k. apply page_request_written.
Qed.

Lemma ends_written (client_request : request -> result json) (path : string)
    (per_page page : Z) :
  ends_at client_request path (clamp_per_page per_page) None page
  = page_ends client_request path per_page page.
Proof. reflexivity. Qed.

Section RankedSearch.

Variable ratio : string -> string -> Q.
Variable py_repr : json -> string.
Variable ellipsis : string.
Variable client_request : request -> result json.
Variables (path query kind : string) (limit max_pages per_page : Z) (min_score : Q).

Let q := PyStr.strip query.
Let lim := clamp_limit limit.
Let log :=
  search_log ratio py_repr client_request path query limit max_pages per_page
    min_score kind.
Let accepted :=
  search_accepted ratio py_repr client_request path query limit max_pages per_page
    min_score kind.
Let search :=
  _fuzzy_search ratio py_repr ellipsis client_request path query limit max_pages
    per_page min_score kind.

(** The matches of a completed search are the summaries of the first
    [lim] accepted matches in the order of the sort of the code. *)
Lemma search_summaries (out : json) :
  fst search = Ok out ->
  exists ms,
    member out "matches" = JList ms
    /\ Forall2 (summarizes py_repr ellipsis kind) ms
         (firstn (Z.to_nat lim) (sort_desc match_score accepted)).
Proof.
  intros Hout.
  pose proof (search_ok_query _ _ _ _ _ _ _ _ _ _ _ _ Hout) as Hq.
  unfold search in Hout.
  rewrite (fuzzy_search_unfold _ _ _ _ _ _ _ _ _ _ _ Hq) in Hout.
  pose proof (search_loop_run ratio py_repr client_request path kind q lim
                per_page min_score max_pages) as Hrun.
  unfold accepted, search_accepted, search_log. fold q lim.
  rewrite (proj2 (is_empty_false q) Hq).
  fold q lim in Hout.
  destruct (_iter_paginated client_request path per_page max_pages None
              (logged (search_body ratio py_repr kind q lim min_score))
              (scan_start, [])) as [[[st lg]|e] tr].
  - destruct Hrun as (Hrun & (_ & _ & A3 & _) & _). rewrite Hrun in Hout.
    simpl in *. apply finalize_matches in Hout.
    destruct Hout as (ms & Hsum & Hm). exists ms. split; [exact Hm|].
    apply summarize_spec in Hsum. unfold top_matches in Hsum.
    now rewrite A3 in Hsum.
  - rewrite Hrun in Hout. discriminate.
Qed.




End RankedSearch.


(** ** The requests of a search *)

Lemma nth_error_map_seq (A : Type) (f : nat -> A) (a n i : nat) :
  (i < n)%nat -> nth_error (map f (seq a n)) i = Some (f (a + i)%nat).
Proof.
  revert a i. induction n as [|n IH]; intros a i Hi; [lia|].
  destruct i as [|i]; simpl.
  - now rewrite Nat.add_0_r.
  - rewrite IH by lia. f_equal. f_equal. lia.
Qed.

Section SearchRequests.

Variable ratio : string -> string -> Q.
Variable py_repr : json -> string.
Variable ellipsis : string.
Variable client_request : request -> result json.
Variables (path query kind : string) (limit max_pages per_page : Z) (min_score : Q).

Let q := PyStr.strip query.
Let lim := clamp_limit limit.
Let log :=
  search_log ratio py_repr client_request path query limit max_pages per_page
    min_score kind.
Let accepted :=
  search_accepted ratio py_repr client_request path query limit max_pages per_page
    min_score kind.
Let search :=
  _fuzzy_search ratio py_repr ellipsis client_request path query limit max_pages
    per_page min_score kind.

Lemma paginator_requests {S : Type} (body : Z -> json -> S -> result (ctl S))
    (st : S) :
  exists n : nat,
    (1 <= n)%nat /\ Z.of_nat n <= Z.max 1 max_pages
    /\ snd (_iter_paginated client_request path per_page max_pages None body st)
       = map (search_request path per_page) (first_pages n)
    /\ (forall k, 1 <= k < Z.of_nat n ->
        page_ends client_request path per_page k = false)
    /\ (never_breaks body ->
        Z.of_nat n = Z.max 1 max_pages
        \/ page_ends client_request path per_page (Z.of_nat n) = true).
Proof.
  destruct (iter_paginated_trace client_request path per_page max_pages None body st)
    as (n & Hn & Htr & Hends & Hex).
  unfold clamp_max_pages in *. exists (Z.to_nat n).
  rewrite Z2Nat.id by lia.
  split; [lia|]. split; [lia|]. split; [|split].
  - rewrite Htr. apply requests_written. lia.
  - intros k Hk. rewrite <- ends_written. now apply Hends.
  - intros Hnb. rewrite <- ends_written. now apply Hex.
Qed.

(** C5. The requests of a search are those for the pages 1, 2, ..., [n] in
    this order: the request number [i] is a GET of the collection whose
    query holds the page number [i] and, as [per_page], the page size
    clamped to [1, 100]. There are at most as many as the page budget,
    itself forced to at least 1, whatever the payloads declare, at least
    one unless the query is rejected, and none after a page whose request
    fails, whose payload declares an integer [total_pages] that the page
    number has reached, or which carries no record. The generator of the
    paginator, run with a consumer that takes every record, stops only at
    such a page or at the budget. *)
Theorem search_pages_requested :
  1 <= Z.max 1 (Z.min per_page 100) <= 100
  /\ (exists n : nat,
        snd search = map (search_request path per_page) (first_pages n)
        /\ (forall i, (i < n)%nat ->
            nth_error (snd search) i
            = Some {| req_method := "GET";
                      req_path := path;
                      req_query :=
                        [("page", JInt (Z.of_nat i + 1));
                         ("per_page", JInt (Z.max 1 (Z.min per_page 100)))] |})
        /\ length (snd search) = n
        /\ Z.of_nat n <= Z.max 1 max_pages
        /\ (q <> "" -> (1 <= n)%nat)
        /\ (q = "" -> n = O)
        /\ (forall k, 1 <= k < Z.of_nat n ->
            page_ends client_request path per_page k = false)
        /\ (forall k payload,
              1 <= k ->
              client_request (search_request path per_page k) = Ok payload ->
              total_reached payload k = true \/ page_items payload = [] ->
              Z.of_nat n <= k))
  /\ (forall (S : Type) (body : Z -> json -> S -> result (ctl S)) (st : S),
        never_breaks body ->
        exists n : nat,
          (1 <= n)%nat /\ Z.of_nat n <= Z.max 1 max_pages
          /\ snd (_iter_paginated client_request path per_page max_pages None body st)
             = map (search_request path per_page) (first_pages n)
          /\ (Z.of_nat n = Z.max 1 max_pages
              \/ page_ends client_request path per_page (Z.of_nat n) = true)
          /\ (forall k, 1 <= k < Z.of_nat n ->
                page_ends client_request path per_page k = false)).
Proof.
  split; [lia|]. split.
  - assert (H : exists n : nat,
              snd search = map (search_request path per_page) (first_pages n)
              /\ Z.of_nat n <= Z.max 1 max_pages
              /\ (q <> "" -> (1 <= n)%nat) /\ (q = "" -> n = O)
              /\ (forall k, 1 <= k < Z.of_nat n ->
                  page_ends client_request path per_page k = false)).
    { destruct (string_dec q "") as [Hq|Hq].
      - exists O. unfold search.
        rewrite (fuzzy_search_empty _ _ _ _ _ _ _ _ _ _ _ Hq).
        split; [reflexivity|]. split; [lia|]. split; [contradiction|].
        split; [reflexivity|]. intros k Hk. simpl in Hk. lia.
      - destruct (paginator_requests
                    (search_body ratio py_repr kind q lim min_score) scan_start)
          as (n & Hn1 & Hn2 & Htr & Hends & _).
        exists n. unfold search.
        rewrite (search_trace _ _ _ _ _ _ _ _ _ _ _ Hq). fold q lim.
        split; [exact Htr|]. split; [exact Hn2|]. split; [auto|].
        split; [contradiction|exact Hends]. }
    destruct H as (n & Htr & Hn & Hq1 & Hq0 & Hends). exists n.
    split; [exact Htr|]. split.
    { intros i Hi. rewrite Htr. unfold first_pages. rewrite map_map.
      rewrite (nth_error_map_seq _ _ 1 n i Hi). unfold search_request.
      replace (Z.of_nat (1 + i)) with (Z.of_nat i + 1) by lia. reflexivity. }
    split; [rewrite Htr; unfold first_pages; now rewrite !length_map, length_seq|].
    split; [exact Hn|]. split; [exact Hq1|]. split; [exact Hq0|].
    split; [exact Hends|].
    intros k payload Hk Hc Hstop.
    destruct (Z_lt_le_dec k (Z.of_nat n)) as [Hlt|Hge]; [|exact Hge].
    specialize (Hends k (conj Hk Hlt)). unfold page_ends in Hends.
    rewrite Hc in Hends.
    destruct Hstop as [Ht|Hi]; [now rewrite Ht in Hends|].
    rewrite Hi in Hends. simpl in Hends. now rewrite orb_true_r in Hends.
  - intros S body st Hnb.
    destruct (paginator_requests body st) as (n & Hn1 & Hn2 & Htr & Hends & Hex).
    exists n. split; [exact Hn1|]. split; [exact Hn2|]. split; [exact Htr|].
    split; [exact (Hex Hnb)|exact Hends].
Qed.


End SearchRequests.

Lemma search_pages_requested_witness :
  snd (_fuzzy_search Difflib.ratio repr_unused ellipsis_utf8 sample_panel
         users_path "john" 10 2 500 55 "user")
  = [ {| req_method := "GET"; req_path := users_path;
         req_query := [("page", JInt 1); ("per_page", JInt 100)] |};
      {| req_method := "GET"; req_path := users_path;
         req_query := [("page", JInt 2); ("per_page", JInt 100)] |} ].
Proof.
  destruct (search_pages_requested Difflib.ratio repr_unused ellipsis_utf8
              sample_panel users_path "john" "user" 10 2 500 55)
    as (_ & (n & Htr & _ & Hlen & _) & _).
  rewrite Htr.
  assert (Hn : n = 2%nat) by (rewrite <- Hlen; reflexivity).
  subst n. reflexivity.
Defined.


(** ** A record whose best field is "John Smith" *)

Lemma nodup_field_value (l pre post : list (string * json)) (f : string)
    (v v0 : json) :
  List.NoDup (map fst l) -> l = pre ++ (f, v) :: post -> In (f, v0) l -> v0 = v.
Proof.
  intros Hnd -> Hin. rewrite map_app in Hnd. simpl in Hnd.
  apply List.NoDup_remove_2 in Hnd.
  apply in_app_or in Hin. destruct Hin as [Hin|[Hin|Hin]].
  - exfalso. apply Hnd. apply in_or_app. left.
    apply in_map_iff. now exists (f, v0).
  - congruence.
  - exfalso. apply Hnd. apply in_or_app. right.
    apply in_map_iff. now exists (f, v0).
Qed.

Lemma fields_names_nodup (py_repr : json -> string) (kind : string) (attrs : json)
    (fields : list (string * json)) :
  fields_of py_repr kind attrs = Some fields -> List.NoDup (map fst fields).
Proof.
  unfold fields_of. intros H.
  destruct attrs as [| | | | | |d];
    try (destruct (String.eqb kind "user"); [discriminate|];
         destruct (String.eqb kind "server"); discriminate).
  destruct (String.eqb kind "user").
  - injection H as <-. simpl. repeat constructor; simpl; intuition discriminate.
  - destruct (String.eqb kind "server"); [|discriminate].
    injection H as <-. simpl. repeat constructor; simpl; intuition discriminate.
Qed.

Section JohnSmith.

Variable ratio : string -> string -> Q.
Variable py_repr : json -> string.
Variable ellipsis : string.
Variable client_request : request -> result json.
Variables (path query kind : string) (limit max_pages per_page : Z).

Hypothesis ratio_nonneg : forall a b : string, (0 <= ratio a b)%Q.

Let log :=
  search_log ratio py_repr client_request path query limit max_pages per_page
    default_min_score kind.
Let accepted :=
  search_accepted ratio py_repr client_request path query limit max_pages per_page
    default_min_score kind.
Let search :=
  _fuzzy_search ratio py_repr ellipsis client_request path query limit max_pages
    per_page default_min_score kind.

Lemma best_of_field (q : string) (fields : list (string * json)) (s : Q)
    (f : string) :
  best_of ratio py_repr q fields = (s, Some f) ->
  exists pre v post,
    fields = pre ++ (f, v) :: post
    /\ Py.truthy v = true
    /\ s = _string_similarity_score ratio q (py_str py_repr v).
Proof.
  revert s f. induction fields as [|[name v] fields IH] using rev_ind;
    intros s f H; [discriminate|].
  rewrite best_of_snoc in H.
  destruct (best_of ratio py_repr q fields) as [s0 f0] eqn:Eb.
  unfold best_step in H. destruct (Py.truthy v) eqn:Et; simpl in H.
  - destruct (Qltb s0 (_string_similarity_score ratio q (py_str py_repr v))).
    + injection H as <- <-. exists fields, v, []. auto.
    + injection H as -> ->.
      destruct (IH _ _ eq_refl) as (pre & v0 & post & -> & H1 & H2).
      exists pre, v0, (post ++ [(name, v)]). rewrite <- app_assoc. auto.
  - injection H as -> ->.
    destruct (IH _ _ eq_refl) as (pre & v0 & post & -> & H1 & H2).
    exists pre, v0, (post ++ [(name, v)]). rewrite <- app_assoc. auto.
Qed.

Lemma john_smith_score_above :
  (55 < _string_similarity_score ratio "john" "John Smith")%Q.
Proof.
  rewrite score_john_unfold. cbv zeta.
  pose proof (ratio_nonneg "john" "john smith") as H1.
  pose proof (Qmax_l (ratio "john" "john smith") (ratio "john" "johnsmith")) as H2.
  apply clamp_above; lra.
Qed.

(** C7. For "john" against "John Smith" the only query token "john" is a
    prefix of the candidate token "john", the token-overlap score is exactly
    100 and the similarity score is above 55, whatever non-negative ratio
    the sequence matcher gives. A search for "john" under the default
    threshold of 55 therefore includes every record that it scans whose
    best-scoring field has the value "John Smith": the record is an
    accepted match with this score, it is in the ranking of the accepted
    matches, and its summary is among the matches returned whenever the
    accepted matches are not more than the limit. *)
Theorem john_smith_included :
  PyStr.split (_normalize "john") = ["john"] /\
  PyStr.split (_normalize "John Smith") = ["john"; "smith"] /\
  PyStr.startswith "john" "john" = true /\
  token_hit ["john"; "smith"] "john" = true /\
  _token_match_score "john" "John Smith" = 100%Q /\
  (default_min_score < _string_similarity_score ratio "john" "John Smith")%Q /\
  (forall (out : json) (p : Z) (attrs : json),
     PyStr.strip query = "john" ->
     fst search = Ok out ->
     In (p, attrs) log ->
     best_field_value ratio py_repr kind "john" attrs "John Smith" ->
     exists matched_on ms ranked,
       let t := (_string_similarity_score ratio "john" "John Smith", attrs,
                 matched_on) in
       In t accepted
       /\ member out "matches" = JList ms
       /\ ranking ranked accepted
       /\ Forall2 (summarizes py_repr ellipsis kind) ms
            (firstn (Z.to_nat (clamp_limit limit)) ranked)
       /\ In t ranked
       /\ (Z.of_nat (length accepted) <= clamp_limit limit ->
           exists m, In m ms /\ summarizes py_repr ellipsis kind m t)).
Proof.
  pose proof john_smith_score_above as Hs.
  repeat (split; [reflexivity|]). split; [exact Hs|].
  intros out p attrs Hq Hout Hin (fields & field & v & score & Hf & Hb & Hv & Hstr).
  destruct (best_of_field _ _ _ _ Hb) as (pre & v' & post & Hfields & _ & Hscore).
  assert (Hvv : v = v').
  { apply (nodup_field_value fields pre post field v' v);
      [now apply (fields_names_nodup py_repr kind attrs)|exact Hfields|exact Hv]. }
  subst v'. rewrite Hstr in Hscore. subst score.
  exists (Some field).
  destruct (search_summaries ratio py_repr ellipsis client_request path query kind
              limit max_pages per_page default_min_score out Hout) as (ms & Hm & HF).
  fold accepted in HF.
  exists ms, (sort_desc match_score accepted). cbv zeta.
  assert (Hacc : In (_string_similarity_score ratio "john" "John Smith", attrs,
                     Some field) accepted).
  { unfold accepted, search_accepted, accepted_among. fold log. rewrite Hq.
    apply in_flat_map. exists attrs. split.
    - apply in_map_iff. now exists (p, attrs).
    - unfold accepted_of, best_score_of. rewrite Hf, Hb.
      assert (Hlt : Qltb (_string_similarity_score ratio "john" "John Smith")
                      default_min_score = false).
      { apply Qltb_false. unfold default_min_score in *. lra. }
      rewrite Hlt. now left. }
  assert (Hrk : In (_string_similarity_score ratio "john" "John Smith", attrs,
                    Some field) (sort_desc match_score accepted)).
  { apply (Permutation_in _ (Permutation_sym (sort_desc_perm _ _))). exact Hacc. }
  split; [exact Hacc|]. split; [exact Hm|]. split; [apply sort_desc_ranking|].
  split; [exact HF|]. split; [exact Hrk|].
  intros Hlen. apply (Forall2_In_r _ _ _ _ _ _ HF).
  rewrite firstn_all2; [exact Hrk|]. rewrite sort_desc_length. lia.
Qed.

End JohnSmith.

Lemma john_smith_included_witness :
  exists out ms m,
    fst (_fuzzy_search Difflib.ratio repr_unused ellipsis_utf8 sample_panel
           users_path "john" 10 5 100 default_min_score "user") = Ok out
    /\ member out "matches" = JList ms
    /\ In m ms
    /\ member m "username" = JStr "jsmith".
Proof.
  eexists.
  assert (Hout : fst (_fuzzy_search Difflib.ratio repr_unused ellipsis_utf8
                        sample_panel users_path "john" 10 5 100 default_min_score
                        "user")
                 = Ok _) by (vm_compute; reflexivity).
  pose proof (john_smith_included Difflib.ratio repr_unused ellipsis_utf8
                sample_panel users_path "john" "user" 10 5 100
                difflib_ratio_nonneg) as H.
  destruct H as (_ & _ & _ & _ & _ & _ & H).
  destruct (H _ 1 john_smith eq_refl Hout) as (mo & ms & ranked & H1).
  - assert (Hlog : search_log Difflib.ratio repr_unused sample_panel users_path
                     "john" 10 5 100 default_min_score "user"
                   = [(1, john_smith); (1, bob_jones); (2, johnny_doe)])
      by (vm_compute; reflexivity).
    rewrite Hlog. now left.
  - eexists. eexists. eexists. eexists.
    split; [reflexivity|]. split; [vm_compute; reflexivity|].
    split; [right; right; left; reflexivity|reflexivity].
  - cbv zeta in H1. destruct H1 as (_ & Hm & _ & _ & _ & Hin).
    destruct Hin as (m & Hm1 & Hm2); [vm_compute; discriminate|].
    exists ms, m. split; [exact Hout|]. split; [exact Hm|]. split; [exact Hm1|].
    destruct Hm2 as (_ & _ & _ & Hpass).
    exact (Hpass "username" ltac:(simpl; tauto)).
Defined.
